(** * Slack processor: the alerting decisions of [application.py]

    A shallow embedding of [SlackProcessor] (src/slack_processor/application.py)
    and of the configuration it reads (src/slack_processor/app_config.py).

    The handlers are [async] methods that talk to four collaborators: the
    tag store ([get_tag] / [set_tag]), the Doover API ([get_agent],
    [get_agent_connection], the [tag_values] aggregate), the wall clock
    ([datetime.now]) and the Slack webhook ([requests.post]).  They are
    embedded as computations in a state-and-exception monad over a [world]
    that holds the tag store, a log of the store operations, the list of
    webhook posts and the counters that index the answers of the
    collaborators.

    What the embedding assumes:
    - an invocation runs alone on the store (no overlapping ticks);
    - a Python exception that leaves a handler is the outcome [Raise], and
      the world reached at that point is kept;
    - the tag store is a map that neither fails nor loses a write;
    - [requests.post] answers, times out, or raises another
      [RequestException], as its documentation says;
    - durations are exact numbers of microseconds: the two float divisions
      of [total_seconds() / 60] are not rounded, which leaves the
      comparisons with a number of minutes as they are for every window
      below ten million minutes;
    - Python's own library ([str], [float], [json.dumps], [datetime]) is an
      interface, [PyLib], that the properties quantify over. *)

From Stdlib Require Import ZArith QArith String Ascii List Bool Lia DecimalString.
From stdpp Require Import base option list gmap strings.

Local Set Warnings "-register-all".
Local Open Scope string_scope.
Local Open Scope Z_scope.
Local Open Scope list_scope.

(** ** Python values *)

(** A Python [float]: a finite value (kept as an exact rational), an
    infinity or a NaN. *)
Inductive pyfloat :=
  | Fin (q : Q)
  | PosInf
  | NegInf
  | NaN.

(** The JSON-like values that tags, API answers and message payloads hold. *)
Inductive pyval :=
  | PNone
  | PBool (b : bool)
  | PInt (z : Z)
  | PFloat (f : pyfloat)
  | PStr (s : string)
  | PList (l : list pyval)
  | PDict (d : list (string * pyval)).

(** The exceptions that the modelled code can meet. *)
Inductive exn :=
  | KeyError (k : string)
  | IndexError
  | ValueError
  | TypeError
  | OverflowError
  | OtherError (name : string).

Inductive outcome (A : Type) :=
  | Ok (a : A)
  | Raise (e : exn).
Arguments Ok {A} a.
Arguments Raise {A} e.

(** [bool(v)]: Python truthiness, as used by [if v:] and [not v]. *)
Definition float_is_zero (f : pyfloat) : bool :=
  match f with
  | Fin q => Qeq_bool q 0
  | _ => false
  end.

Definition truthy (v : pyval) : bool :=
  match v with
  | PNone => false
  | PBool b => b
  | PInt z => negb (z =? 0)
  | PFloat f => negb (float_is_zero f)
  | PStr s => negb (String.eqb s "")
  | PList l => match l with [] => false | _ => true end
  | PDict d => match d with [] => false | _ => true end
  end.

(** [d.get(k)] on a dict held as a finite map: [None] when the key is absent. *)
Definition dict_get (d : gmap string pyval) (k : string) : pyval :=
  default PNone (d !! k).

(** [v == "..."] against a string literal. *)
Definition eq_str (v : pyval) (s : string) : bool :=
  match v with
  | PStr s' => String.eqb s' s
  | _ => false
  end.

(** A number of the configuration ([config.Number]): an int or a float. *)
Inductive pynum :=
  | NInt (z : Z)
  | NFloat (f : pyfloat).

Definition val_of_num (n : pynum) : pyval :=
  match n with
  | NInt z => PInt z
  | NFloat f => PFloat f
  end.

Definition float_of_num (n : pynum) : pyfloat :=
  match n with
  | NInt z => Fin (inject_Z z)
  | NFloat f => f
  end.

(** [a < b] on floats; every comparison with a NaN is false.  Python compares
    a float with an int exactly, which is what the injection of the int into
    the rationals gives. *)
Definition float_ltb (a b : pyfloat) : bool :=
  match a, b with
  | NaN, _ | _, NaN => false
  | _, NegInf => false
  | NegInf, _ => true
  | PosInf, _ => false
  | Fin _, PosInf => true
  | Fin x, Fin y => match Qcompare x y with Lt => true | _ => false end
  end.

(** [value > limit] and [value < limit] of [_check_tag_thresholds]. *)
Definition value_gt (value : pyfloat) (limit : pynum) : bool :=
  float_ltb (float_of_num limit) value.
Definition value_lt (value : pyfloat) (limit : pynum) : bool :=
  float_ltb value (float_of_num limit).

(** [float(z)] for an int: round to nearest, ties to even, on 53 bits;
    [OverflowError] when the result does not fit a double. *)
Definition float_of_int (z : Z) : outcome pyfloat :=
  let a := Z.abs z in
  let e := Z.log2 a - 52 in
  if e <=? 0 then Ok (Fin (inject_Z z))
  else
    let q := Z.shiftr a e in
    let r := a - Z.shiftl q e in
    let half := Z.shiftl 1 (e - 1) in
    let q' := if (half <? r) || ((r =? half) && Z.odd q) then q + 1 else q in
    let m := Z.shiftl q' e in
    if 2 ^ 1024 <=? m then Raise OverflowError
    else Ok (Fin (inject_Z (Z.sgn z * m))).

(** [current + 1] of [_increment_stat].  The sum of a float is kept exact. *)
Definition add_one (v : pyval) : outcome pyval :=
  match v with
  | PInt z => Ok (PInt (z + 1))
  | PBool b => Ok (PInt ((if b then 1 else 0) + 1))
  | PFloat (Fin q) => Ok (PFloat (Fin (q + 1)))
  | PFloat f => Ok (PFloat f)
  | _ => Raise TypeError
  end.

(** [s.replace("Z", "+00:00")]. *)
Fixpoint replace_Z (s : string) : string :=
  match s with
  | EmptyString => EmptyString
  | String c s' =>
      if Ascii.eqb c "Z"%char then "+00:00" +:+ replace_Z s'
      else String c (replace_Z s')
  end.

(** ** The Python library

    What the code calls in Python's own library and cannot be read off the
    repository: rendering of values, parsing of numbers and the [datetime]
    conversions.  An aware UTC [datetime] is the number of microseconds since
    the epoch; a [timedelta] is a number of microseconds. *)

Inductive pydatetime :=
  | Aware (us : Z)
  | Naive (us : Z).

Class PyLib := {
  (** [str(v)], which is also [format(v, "")] and [f"{v}"]. *)
  py_str : pyval -> string;
  (** [json.dumps(v, indent=2, default=str)]. *)
  json_dumps : pyval -> string;
  (** [float(s)] for a [str]. *)
  float_of_str : string -> outcome pyfloat;
  (** [dt.isoformat()] of an aware UTC datetime. *)
  isoformat : Z -> string;
  (** [datetime.fromisoformat(s)]. *)
  fromisoformat : string -> outcome pydatetime;
  (** [datetime.fromtimestamp(v, timezone.utc)]. *)
  fromtimestamp : pyval -> outcome Z;
  (** [template.format] with keyword arguments from a replacement field on that carries an
      attribute, an index, a conversion or a format specification. *)
  format_rest : list (string * pyval) -> string -> outcome string
}.

(** ** [str.format]

    [template.format] with keyword arguments as CPython's markup iterator reads it: literal
    text with the escapes [{{] and [}}], and replacement fields [{name}].  A
    field that is empty or a number asks for a positional argument, and
    there is none ([IndexError]); any other name is looked up among the
    keyword arguments ([KeyError] when it is missing).  A field with an
    attribute, an index, a conversion or a format specification, and a
    numeric field too long for a C integer, are left to [format_rest]. *)

Definition is_digit (c : ascii) : bool :=
  let n := N_of_ascii c in ((48 <=? n) && (n <=? 57))%N.

Definition is_special (c : ascii) : bool :=
  Ascii.eqb c "."%char || Ascii.eqb c "["%char
  || Ascii.eqb c "!"%char || Ascii.eqb c ":"%char.

Definition all_digits (s : string) : bool :=
  forallb is_digit (list_ascii_of_string s).

Fixpoint kwargs_get (kw : list (string * pyval)) (name : string) : option pyval :=
  match kw with
  | [] => None
  | (k, v) :: kw' => if String.eqb k name then Some v else kwargs_get kw' name
  end.

Inductive fmt_state :=
  | Literal
  | Field (name : string) (start : string).

Section Format.
Context `{PyLib}.

Definition lookup_field (kw : list (string * pyval)) (name start : string)
  : outcome string :=
  if all_digits name then
    if (String.length name <=? 18)%nat then Raise IndexError
    else format_rest kw start
  else
    match kwargs_get kw name with
    | Some v => Ok (py_str v)
    | None => Raise (KeyError name)
    end.

Fixpoint format_go (kw : list (string * pyval)) (st : fmt_state)
    (out : string) (s : string) {struct s} : outcome string :=
  match s with
  | EmptyString =>
      match st with
      | Literal => Ok out
      | Field _ _ => Raise ValueError (* expected '}' before end of string *)
      end
  | String c s' =>
      match st with
      | Literal =>
          if Ascii.eqb c "{"%char then
            match s' with
            | EmptyString => Raise ValueError (* Single '{' encountered *)
            | String c' s'' =>
                if Ascii.eqb c' "{"%char then format_go kw Literal (out +:+ "{") s''
                else format_go kw (Field "" s) out s'
            end
          else if Ascii.eqb c "}"%char then
            match s' with
            | EmptyString => Raise ValueError (* Single '}' encountered *)
            | String c' s'' =>
                if Ascii.eqb c' "}"%char then format_go kw Literal (out +:+ "}") s''
                else Raise ValueError
            end
          else format_go kw Literal (out +:+ String c "") s'
      | Field name start =>
          if Ascii.eqb c "}"%char then
            match lookup_field kw name start with
            | Ok txt => format_go kw Literal (out +:+ txt) s'
            | Raise e => Raise e
            end
          else if Ascii.eqb c "{"%char then
            Raise ValueError (* unexpected '{' in field name *)
          else if is_special c then
            match format_rest kw start with
            | Ok txt => Ok (out +:+ txt)
            | Raise e => Raise e
            end
          else format_go kw (Field (name +:+ String c "") start) out s'
      end
  end.

Definition format (template : string) (kw : list (string * pyval))
  : outcome string :=
  format_go kw Literal "" template.

End Format.

(** ** Configuration ([SlackProcessorConfig], app_config.py) *)

(** One element of [tag_thresholds]; a field is [None] when the key is
    missing from the element, which is what [threshold_config.get] returns. *)
Record ThresholdRule := {
  tag_name : option string;
  upper_limit : option pynum;
  lower_limit : option pynum;
  alert_message : option string;
  cooldown_minutes : option Z
}.

Record SlackProcessorConfig := {
  slack_webhook_url : option string;
  slack_channel : option string;
  slack_username : option string;
  channel_alerts_enabled : bool;
  channel_message_template : string;
  offline_alerts_enabled : bool;
  offline_threshold_minutes : Z;
  offline_reminder_interval_minutes : Z;
  threshold_alerts_enabled : bool;
  tag_thresholds : list ThresholdRule;
  include_device_name : bool;
  request_timeout_seconds : option Z
}.

(** [not s] / [s or default] for an optional string of the configuration. *)
Definition str_set (s : option string) : bool :=
  match s with
  | Some s' => negb (String.eqb s' "")
  | None => false
  end.

(** ** The collaborators and the world *)

(** What one [requests.post] does: an HTTP answer, a timeout, or another
    [requests.exceptions.RequestException] with its text. *)
Inductive http_result :=
  | Response (status_code : Z) (text : string)
  | Timeout
  | RequestException (msg : string).

(** One call of [requests.post]: the URL, the JSON payload (username, the
    single attachment, the optional channel) and the timeout. *)
Record post_call := {
  pc_url : string;
  pc_username : string;
  pc_color : string;
  pc_title : string;
  pc_text : string;
  pc_footer : string;
  pc_ts : Z;
  pc_channel : option string;
  pc_timeout : Z
}.

(** The answers of the collaborators during one invocation.  The API and
    the clock are asked several times; the [n]-th call gets the [n]-th
    answer.  An API answer is [None] when the call raises or does not
    return a dict. *)
Record env := {
  agent_id : pyval;
  get_agent_connection : nat -> option (gmap string pyval);
  get_agent : nat -> option (gmap string pyval);
  get_aggregate : nat -> option (gmap string pyval);
  clock : nat -> Z;
  requests_post : nat -> http_result
}.

Inductive store_op :=
  | Get (key : string)
  | Set_ (key : string) (value : pyval).

Record world := {
  w_tags : gmap string pyval;
  w_log : list store_op;
  w_outbox : list post_call;
  w_clock : nat;
  w_api : nat
}.

(** ** The monad of a handler *)

Definition M (A : Type) : Type := world -> outcome A * world.

#[export] Instance M_ret : MRet M := fun A a w => (Ok a, w).
#[export] Instance M_bind : MBind M := fun A B f m w =>
  match m w with
  | (Ok a, w') => f a w'
  | (Raise e, w') => (Raise e, w')
  end.

(** A pure step that may raise. *)
Definition lift {A} (o : outcome A) : M A := fun w => (o, w).

(** [try: body / except Exception: handler]. *)
Definition try_except {A} (body : M A) (handler : exn -> M A) : M A := fun w =>
  match body w with
  | (Ok a, w') => (Ok a, w')
  | (Raise e, w') => handler e w'
  end.

(** [for x in xs: body(x)]; a [continue] is the end of [body]. *)
Fixpoint for_each {A} (body : A -> M unit) (xs : list A) : M unit :=
  match xs with
  | [] => mret tt
  | x :: xs' => body x ;; for_each body xs'
  end.

(** ** [SlackProcessor] (application.py) *)

(** [td.total_seconds() / 60 < minutes] and [... >= minutes] for a
    [timedelta] of [us] microseconds and an int of the configuration,
    compared as exact numbers; [int(td.total_seconds() / 60)] is
    [Z.quot us 60000000]. *)
Definition minutes_ltb (us minutes : Z) : bool := us <? minutes * 60000000.
Definition minutes_geb (us minutes : Z) : bool := minutes * 60000000 <=? us.

(** [now - dt] for the aware [now]: a naive [dt] cannot be subtracted. *)
Definition dt_sub (now : Z) (dt : pydatetime) : outcome Z :=
  match dt with
  | Aware t => Ok (now - t)
  | Naive _ => Raise TypeError
  end.

(** The part of a [MessageCreateEvent] that the handler reads. *)
Record MessageCreateEvent := {
  channel_name : string;
  message_data : pyval
}.

Section App.
Context `{PyLib} (config : SlackProcessorConfig) (e : env).

(** *** The collaborators as steps of the monad *)

(** Modelled from the spec: the StateStore capability, [get(key, default)]
    (the framework's [get_tag], which is not in the repository).  The value
    under the key, or the default when the key is absent. *)
Definition get_tag (key : string) (default_ : pyval) : M pyval := fun w =>
  (Ok (default default_ (w_tags w !! key)),
   {| w_tags := w_tags w; w_log := w_log w ++ [Get key];
      w_outbox := w_outbox w; w_clock := w_clock w; w_api := w_api w |}).

(** Modelled from the spec: the StateStore capability, [set(key, value)]
    (the framework's [set_tag]).  Writing [None] keeps the key, with the value
    [None]. *)
Definition set_tag (key : string) (value : pyval) : M unit := fun w =>
  (Ok tt,
   {| w_tags := <[key := value]> (w_tags w);
      w_log := w_log w ++ [Set_ key value];
      w_outbox := w_outbox w; w_clock := w_clock w; w_api := w_api w |}).

(** [datetime.now(timezone.utc)]. *)
Definition datetime_now : M Z := fun w =>
  (Ok (clock e (w_clock w)),
   {| w_tags := w_tags w; w_log := w_log w; w_outbox := w_outbox w;
      w_clock := S (w_clock w); w_api := w_api w |}).

(** One call of the Doover API: the answer comes from the environment. *)
Definition api_call {A} (answer : nat -> A) : M A := fun w =>
  (Ok (answer (w_api w)),
   {| w_tags := w_tags w; w_log := w_log w; w_outbox := w_outbox w;
      w_clock := w_clock w; w_api := S (w_api w) |}).

(** [requests.post(webhook_url, json=payload, headers=..., timeout=timeout)]:
    the call is recorded, the answer comes from the environment. *)
Definition post (call : post_call) : M http_result := fun w =>
  (Ok (requests_post e (length (w_outbox w))),
   {| w_tags := w_tags w; w_log := w_log w;
      w_outbox := w_outbox w ++ [call];
      w_clock := w_clock w; w_api := w_api w |}).

(** [datetime.fromisoformat(v.replace("Z", "+00:00"))] for a [str],
    [datetime.fromtimestamp(v, timezone.utc)] otherwise. *)
Definition parse_time (v : pyval) : outcome pydatetime :=
  match v with
  | PStr s => fromisoformat (replace_Z s)
  | _ =>
      match fromtimestamp v with
      | Ok t => Ok (Aware t)
      | Raise err => Raise err
      end
  end.

(** *** Helpers (lines 251-328) *)

Definition _update_error (error : string) : M unit :=
  try_except
    (set_tag "last_error" (PStr error) ;;
     t ← datetime_now;
     set_tag "last_error_at" (PStr (isoformat t)))
    (fun _ => mret tt).

Definition _increment_stat (stat_name : string) : M unit :=
  try_except
    (current ← get_tag stat_name (PInt 0);
     next ← lift (add_one current);
     set_tag stat_name next ;;
     t ← datetime_now;
     set_tag (stat_name +:+ "_last") (PStr (isoformat t)))
    (fun _ => mret tt).

Definition _get_device_name : M pyval :=
  if negb (include_device_name config) then mret (PStr "Unknown Device")
  else
    agent_info ← api_call (get_agent e);
    match agent_info with
    | Some info =>
        mret (default (default (PStr (py_str (agent_id e)))
                               (info !! "display_name"))
                      (info !! "name"))
    | None => mret (PStr (py_str (agent_id e)))
    end.

Definition _send_slack_message (text title color : string) : M unit :=
  match slack_webhook_url config with
  | None => mret tt
  | Some webhook_url =>
      if String.eqb webhook_url "" then mret tt
      else
        now ← datetime_now;
        let payload :=
          {| pc_url := webhook_url;
             pc_username :=
               (if str_set (slack_username config)
                then default "" (slack_username config)
                else "Doover Alerts");
             pc_color := color;
             pc_title := title;
             pc_text := text;
             pc_footer := "Doover Slack Processor";
             pc_ts := Z.quot now 1000000;
             pc_channel :=
               (if str_set (slack_channel config) then slack_channel config
                else None);
             pc_timeout :=
               (match request_timeout_seconds config with
                | Some t => if t =? 0 then 30 else t
                | None => 30
                end) |} in
        response ← post payload;
        match response with
        | Response status_code _ =>
            if status_code =? 200 then mret tt
            else _update_error ("Slack API error: " +:+ py_str (PInt status_code))
        | Timeout => _update_error "Slack request timeout"
        | RequestException msg => _update_error ("Slack request failed: " +:+ msg)
        end
  end.

(** *** [on_message_create] (lines 38-77) *)

Definition on_message_create (event : MessageCreateEvent) : M unit :=
  if negb (channel_alerts_enabled config) then mret tt
  else if negb (str_set (slack_webhook_url config)) then mret tt
  else
    device_name ← _get_device_name;
    let data := message_data event in
    let data_str :=
      match data with
      | PDict _ => json_dumps data
      | _ => py_str data
      end in
    let template := channel_message_template config in
    message ← lift (format template
                      [("channel", PStr (channel_name event));
                       ("data", PStr data_str);
                       ("device", device_name)]);
    _send_slack_message message ("Channel Alert: " +:+ channel_name event) "#36a64f" ;;
    _increment_stat "channel_alerts_sent".

(** *** [_check_offline_status] (lines 96-162) *)

(** Lines 117-123: the time since the device was last online, when the
    connection has a last-online timestamp. *)
Definition offline_duration_of (last_online : pyval) : M (option Z) :=
  if truthy last_online then
    last_online_dt ← lift (parse_time last_online);
    now ← datetime_now;
    d ← lift (dt_sub now last_online_dt);
    mret (Some d)
  else mret None.

(** Lines 137-152: the message to send, if any. *)
Definition offline_message (offline_duration : option Z)
    (alert_sent last_reminder device_name : pyval) : M (option string) :=
  let reminder_interval := offline_reminder_interval_minutes config in
  if negb (truthy alert_sent) then
    mret (Some ("Device *" +:+ py_str device_name +:+ "* has gone offline"))
  else if (0 <? reminder_interval) && truthy last_reminder then
    last_reminder_dt ← lift (parse_time last_reminder);
    now ← datetime_now;
    since_reminder ← lift (dt_sub now last_reminder_dt);
    if minutes_geb since_reminder reminder_interval then
      let offline_mins :=
        match offline_duration with
        | Some d => py_str (PInt (Z.quot d 60000000))
        | None => "unknown"
        end in
      mret (Some ("Device *" +:+ py_str device_name
                  +:+ "* is still offline (duration: "
                  +:+ offline_mins +:+ " minutes)"))
    else mret None
  else mret None.

(** Lines 130-162: past the threshold, the first alert or a reminder. *)
Definition alert_or_remind (offline_duration : option Z) : M unit :=
  alert_sent ← get_tag "offline_alert_sent" (PBool false);
  last_reminder ← get_tag "last_offline_reminder" PNone;
  device_name ← _get_device_name;
  to_send ← offline_message offline_duration alert_sent last_reminder device_name;
  match to_send with
  | Some message =>
      _send_slack_message message "Device Offline Alert" "#ff0000" ;;
      set_tag "offline_alert_sent" (PBool true) ;;
      now ← datetime_now;
      set_tag "last_offline_reminder" (PStr (isoformat now)) ;;
      _increment_stat "offline_alerts_sent"
  | None => mret tt
  end.

Definition _check_offline_status : M unit :=
  connection ← api_call (get_agent_connection e);
  match connection with
  | None => mret tt
  | Some connection_info =>
      let last_online := dict_get connection_info "online_at" in
      let is_online := eq_str (dict_get connection_info "determination") "online" in
      if is_online then
        set_tag "offline_alert_sent" (PBool false) ;;
        set_tag "last_offline_reminder" PNone
      else
        let threshold_minutes := offline_threshold_minutes config in
        offline_duration ← offline_duration_of last_online;
        if match offline_duration with
           | Some d => minutes_ltb d threshold_minutes
           | None => false
           end
        then mret tt
        else alert_or_remind offline_duration
  end.

(** *** [_check_tag_thresholds] (lines 164-249) *)

(** [float(value)]. *)
Definition py_float (v : pyval) : outcome pyfloat :=
  match v with
  | PBool b => Ok (Fin (if b then 1 else 0)%Q)
  | PInt z => float_of_int z
  | PFloat f => Ok f
  | PStr s => float_of_str s
  | PNone | PList _ | PDict _ => Raise TypeError
  end.

Definition default_alert_message : string :=
  "{tag} is {value} (threshold: {limit}) on {device}".

(** [limit is not None and cmp(value, limit)]: the limit when it is
    crossed. *)
Definition crossed (limit : option pynum) (cmp : pynum -> bool) : option pynum :=
  match limit with
  | Some l => if cmp l then Some l else None
  | None => None
  end.

(** Lines 220-232 and 237-249: the two blocks differ in the rendered limit,
    the title and the colour only. *)
Definition threshold_alert (message_template tag cooldown_key : string)
    (value : pyfloat) (device_name : pyval) (now : Z)
    (limit title color : string) : M unit :=
  message ← lift (format message_template
                    [("tag", PStr tag);
                     ("value", PFloat value);
                     ("limit", PStr limit);
                     ("device", device_name)]);
  _send_slack_message message title color ;;
  set_tag cooldown_key (PStr (isoformat now)) ;;
  _increment_stat "threshold_alerts_sent".

(** Lines 205-216: is the tag in its cooldown period? *)
Definition in_cooldown (cooldown_key : string) (cooldown : Z) (now : Z) : M bool :=
  last_alert ← get_tag cooldown_key PNone;
  if truthy last_alert then
    last_alert_dt ← lift (parse_time last_alert);
    d ← lift (dt_sub now last_alert_dt);
    mret (minutes_ltb d cooldown)
  else mret false.

(** Lines 200-249: the cooldown, then the upper limit, then the lower one. *)
Definition check_limits (threshold_config : ThresholdRule) (tag : string)
    (value : pyfloat) (device_name : pyval) (now : Z) : M unit :=
  let upper_limit := upper_limit threshold_config in
  let lower_limit := lower_limit threshold_config in
  let message_template :=
    default default_alert_message (alert_message threshold_config) in
  let cooldown := default 15 (cooldown_minutes threshold_config) in
  let cooldown_key := "threshold_cooldown_" +:+ tag in
  skip ← in_cooldown cooldown_key cooldown now;
  if (skip : bool) then mret tt
  else
    match crossed upper_limit (value_gt value) with
    | Some upper =>
        threshold_alert message_template tag cooldown_key value
          device_name now
          (">" +:+ py_str (val_of_num upper))
          "Threshold Alert: High Value" "#ff9900"
    | None =>
        match crossed lower_limit (value_lt value) with
        | Some lower =>
            threshold_alert message_template tag cooldown_key value
              device_name now
              ("<" +:+ py_str (val_of_num lower))
              "Threshold Alert: Low Value" "#0066ff"
        | None => mret tt
        end
    end.

(** The body of the loop over the rules (lines 185-249). *)
Definition threshold_rule (tag_values : gmap string pyval)
    (device_name : pyval) (now : Z) (threshold_config : ThresholdRule)
  : M unit :=
  match tag_name threshold_config with
  | None => mret tt
  | Some tag =>
      if String.eqb tag "" then mret tt
      else
        match dict_get tag_values tag with
        | PNone => mret tt
        | raw =>
            match py_float raw with
            | Ok value => check_limits threshold_config tag value device_name now
            | Raise TypeError | Raise ValueError => mret tt
            | Raise err => lift (Raise err)
            end
        end
  end.

Definition _check_tag_thresholds : M unit :=
  match tag_thresholds config with
  | [] => mret tt
  | thresholds =>
      aggregate ← api_call (get_aggregate e);
      match aggregate with
      | None => mret tt
      | Some tag_values =>
          device_name ← _get_device_name;
          now ← datetime_now;
          for_each (threshold_rule tag_values device_name now) thresholds
      end
  end.

(** *** [on_schedule] (lines 79-94) *)

Definition on_schedule : M unit :=
  if negb (str_set (slack_webhook_url config)) then mret tt
  else
    (if offline_alerts_enabled config then _check_offline_status else mret tt) ;;
    (if threshold_alerts_enabled config then _check_tag_thresholds else mret tt).

End App.

(** ** An executable instance of the Python library

    Enough of CPython to run the handlers on concrete inputs: [str] and
    [json.dumps] of JSON values (strings without characters to escape, floats
    with a short decimal expansion), [float] of plain decimal literals, and
    ISO 8601 timestamps in the form that [isoformat] writes.  The theorems
    below hold for every instance of [PyLib]; this one serves the examples. *)

Module Ref.

Definition str_of_Z (z : Z) : string :=
  match z with
  | Z0 => "0"
  | Zpos p => DecimalString.NilEmpty.string_of_uint (Pos.to_uint p)
  | Zneg p => "-" +:+ DecimalString.NilEmpty.string_of_uint (Pos.to_uint p)
  end.

Definition digit_char (d : Z) : ascii := ascii_of_N (48 + Z.to_N d).

(** The [width] lowest decimal digits of [n], highest first. *)
Fixpoint pad (width : nat) (n : Z) : string :=
  match width with
  | O => ""
  | S w => pad w (n / 10) +:+ String (digit_char (n mod 10)) ""
  end.

(** The first [k] digits after the decimal point of [r / d]. *)
Fixpoint frac_digits (k : nat) (r d : Z) : list Z :=
  match k with
  | O => []
  | S k' => (r * 10 / d) :: frac_digits k' (r * 10 mod d) d
  end.

Fixpoint strip_zeros (ds : list Z) : list Z :=
  match ds with
  | [] => []
  | x :: ds' =>
      match strip_zeros ds' with
      | [] => if x =? 0 then [] else [x]
      | l => x :: l
      end
  end.

Definition str_of_digits (ds : list Z) : string :=
  string_of_list_ascii (map digit_char ds).

Definition str_of_float (f : pyfloat) : string :=
  match f with
  | PosInf => "inf"
  | NegInf => "-inf"
  | NaN => "nan"
  | Fin q =>
      let n := Qnum q in
      let d := Zpos (Qden q) in
      let a := Z.abs n in
      let frac := strip_zeros (frac_digits 17 (a mod d) d) in
      (if n <? 0 then "-" else "") +:+ str_of_Z (a / d) +:+ "."
      +:+ (match frac with [] => "0" | _ => str_of_digits frac end)
  end.

Fixpoint repr (v : pyval) : string :=
  match v with
  | PNone => "None"
  | PBool b => if b then "True" else "False"
  | PInt z => str_of_Z z
  | PFloat f => str_of_float f
  | PStr s => "'" +:+ s +:+ "'"
  | PList l =>
      "[" +:+ (fix items (l : list pyval) : string :=
                 match l with
                 | [] => ""
                 | x :: l' =>
                     repr x +:+ (match l' with [] => "" | _ => ", " end) +:+ items l'
                 end) l +:+ "]"
  | PDict d =>
      "{" +:+ (fix items (d : list (string * pyval)) : string :=
                 match d with
                 | [] => ""
                 | (k, x) :: d' =>
                     "'" +:+ k +:+ "': " +:+ repr x
                     +:+ (match d' with [] => "" | _ => ", " end) +:+ items d'
                 end) d +:+ "}"
  end.

Definition str (v : pyval) : string :=
  match v with
  | PStr s => s
  | _ => repr v
  end.

Definition newline : string := String (ascii_of_N 10) "".
Definition dquote : string := String (ascii_of_N 34) "".

Definition json_float (f : pyfloat) : string :=
  match f with
  | PosInf => "Infinity"
  | NegInf => "-Infinity"
  | NaN => "NaN"
  | _ => str_of_float f
  end.

(** [json.dumps(v, indent=2)] with [ind] the current indentation. *)
Fixpoint dumps (ind : string) (v : pyval) : string :=
  match v with
  | PNone => "null"
  | PBool b => if b then "true" else "false"
  | PInt z => str_of_Z z
  | PFloat f => json_float f
  | PStr s => dquote +:+ s +:+ dquote
  | PList l =>
      match l with
      | [] => "[]"
      | _ =>
          "[" +:+ (fix items (l : list pyval) : string :=
                     match l with
                     | [] => ""
                     | x :: l' =>
                         newline +:+ ind +:+ "  " +:+ dumps (ind +:+ "  ") x
                         +:+ (match l' with [] => "" | _ => "," end) +:+ items l'
                     end) l +:+ newline +:+ ind +:+ "]"
      end
  | PDict d =>
      match d with
      | [] => "{}"
      | _ =>
          "{" +:+ (fix items (d : list (string * pyval)) : string :=
                     match d with
                     | [] => ""
                     | (k, x) :: d' =>
                         newline +:+ ind +:+ "  " +:+ dquote +:+ k +:+ dquote +:+ ": "
                         +:+ dumps (ind +:+ "  ") x
                         +:+ (match d' with [] => "" | _ => "," end) +:+ items d'
                     end) d +:+ newline +:+ ind +:+ "}"
      end
  end.

(** *** Numbers from text *)

Definition digit_val (c : ascii) : option Z :=
  if is_digit c then Some (Z.of_N (N_of_ascii c) - 48) else None.

(** The longest run of digits at the head of [s]: its value, its length
    and what follows. *)
Fixpoint read_digits (acc : Z) (len : nat) (s : string) : Z * nat * string :=
  match s with
  | String c s' =>
      match digit_val c with
      | Some d => read_digits (acc * 10 + d) (S len) s'
      | None => (acc, len, s)
      end
  | EmptyString => (acc, len, s)
  end.

(** Exactly [n] digits at the head of [s]. *)
Fixpoint read_fixed (n : nat) (acc : Z) (s : string) : option (Z * string) :=
  match n with
  | O => Some (acc, s)
  | S n' =>
      match s with
      | String c s' =>
          match digit_val c with
          | Some d => read_fixed n' (acc * 10 + d) s'
          | None => None
          end
      | EmptyString => None
      end
  end.

Definition expect (c : ascii) (s : string) : option string :=
  match s with
  | String c' s' => if Ascii.eqb c c' then Some s' else None
  | EmptyString => None
  end.

Fixpoint lstrip (s : string) : string :=
  match s with
  | String c s' => if Ascii.eqb c " "%char then lstrip s' else s
  | EmptyString => s
  end.

(** [float(s)] for [s] a decimal literal: blanks, a sign, digits, and a
    fraction; or [inf] and [nan]. *)
Definition float_literal (s : string) : outcome pyfloat :=
  let s := lstrip s in
  let '(neg, s) :=
    match s with
    | String c s' =>
        if Ascii.eqb c "-"%char then (true, s')
        else if Ascii.eqb c "+"%char then (false, s')
        else (false, s)
    | EmptyString => (false, s)
    end in
  if String.eqb s "inf" then Ok (if neg then NegInf else PosInf)
  else if String.eqb s "nan" then Ok NaN
  else
    let '(ip, ilen, s1) := read_digits 0 0%nat s in
    let '(fp, flen, s2) :=
      match expect "."%char s1 with
      | Some s' => read_digits 0 0%nat s'
      | None => (0, 0%nat, s1)
      end in
    if ((ilen + flen =? 0)%nat || negb (String.eqb (lstrip s2) "")) then Raise ValueError
    else
      let q := (inject_Z ip + inject_Z fp / inject_Z (10 ^ Z.of_nat flen))%Q in
      Ok (Fin (Qred (if neg then - q else q)%Q)).

(** *** The calendar *)

Definition us_per_day : Z := 86400000000.

(** Days since 1970-01-01 of a date of the proleptic Gregorian calendar. *)
Definition days_from_civil (y m d : Z) : Z :=
  let y := if m <=? 2 then y - 1 else y in
  let era := y / 400 in
  let yoe := y - era * 400 in
  let doy := (153 * (if 2 <? m then m - 3 else m + 9) + 2) / 5 + d - 1 in
  let doe := yoe * 365 + yoe / 4 - yoe / 100 + doy in
  era * 146097 + doe - 719468.

Definition civil_from_days (days : Z) : Z * Z * Z :=
  let z := days + 719468 in
  let era := z / 146097 in
  let doe := z - era * 146097 in
  let yoe := (doe - doe / 1460 + doe / 36524 - doe / 146096) / 365 in
  let y := yoe + era * 400 in
  let doy := doe - (365 * yoe + yoe / 4 - yoe / 100) in
  let mp := (5 * doy + 2) / 153 in
  let d := doy - (153 * mp + 2) / 5 + 1 in
  let m := if mp <? 10 then mp + 3 else mp - 9 in
  ((if m <=? 2 then y + 1 else y), m, d).

Definition days_in_month (y m : Z) : Z :=
  if m =? 2 then
    if ((y mod 4 =? 0) && negb (y mod 100 =? 0)) || (y mod 400 =? 0) then 29 else 28
  else if (m =? 4) || (m =? 6) || (m =? 9) || (m =? 11) then 30
  else 31.

(** [dt.isoformat()] for an aware UTC datetime: the fraction is left out
    when the microseconds are zero. *)
Definition iso_string (us : Z) : string :=
  let '(y, m, d) := civil_from_days (us / us_per_day) in
  let r := us mod us_per_day in
  let secs := r / 1000000 in
  let frac := r mod 1000000 in
  pad 4 y +:+ "-" +:+ pad 2 m +:+ "-" +:+ pad 2 d +:+ "T"
  +:+ pad 2 (secs / 3600) +:+ ":" +:+ pad 2 (secs / 60 mod 60) +:+ ":"
  +:+ pad 2 (secs mod 60)
  +:+ (if frac =? 0 then "" else "." +:+ pad 6 frac)
  +:+ "+00:00".

(** The UTC offset at the end of a timestamp, in microseconds. *)
Definition read_offset (s : string) : option (option Z) :=
  match s with
  | EmptyString => Some None
  | String c s' =>
      let sign := if Ascii.eqb c "+"%char then Some 1
                  else if Ascii.eqb c "-"%char then Some (-1) else None in
      match sign with
      | None => None
      | Some sg =>
          hm ← read_fixed 2 0 s';
          s1 ← expect ":"%char hm.2;
          mm ← read_fixed 2 0 s1;
          if String.eqb mm.2 "" && (hm.1 <? 24) && (mm.1 <? 60)
          then Some (Some (sg * (hm.1 * 3600 + mm.1 * 60) * 1000000))
          else None
      end
  end.

Definition read_datetime (s : string) : option pydatetime :=
  y ← read_fixed 4 0 s;
  s1 ← expect "-"%char y.2;
  m ← read_fixed 2 0 s1;
  s2 ← expect "-"%char m.2;
  d ← read_fixed 2 0 s2;
  s3 ← match d.2 with String _ s' => Some s' | EmptyString => None end;
  hh ← read_fixed 2 0 s3;
  s4 ← expect ":"%char hh.2;
  mi ← read_fixed 2 0 s4;
  s5 ← expect ":"%char mi.2;
  ss ← read_fixed 2 0 s5;
  fr ← match expect "."%char ss.2 with
       | Some s' => read_fixed 6 0 s'
       | None => Some (0, ss.2)
       end;
  off ← read_offset fr.2;
  if (1 <=? y.1) && (1 <=? m.1) && (m.1 <=? 12) && (1 <=? d.1)
     && (d.1 <=? days_in_month y.1 m.1)
     && (hh.1 <? 24) && (mi.1 <? 60) && (ss.1 <? 60)
  then
    let us := days_from_civil y.1 m.1 d.1 * us_per_day
              + (hh.1 * 3600 + mi.1 * 60 + ss.1) * 1000000 + fr.1 in
    Some (match off with
          | Some o => Aware (us - o)
          | None => Naive us
          end)
  else None.

Definition iso_parse (s : string) : outcome pydatetime :=
  match read_datetime s with
  | Some dt => Ok dt
  | None => Raise ValueError
  end.

(** Round to the nearest integer, ties to even. *)
Definition round_half_even (q : Q) : Z :=
  let n := Qnum q in
  let d := Zpos (Qden q) in
  let f := n / d in
  let r := 2 * (n mod d) in
  if r <? d then f
  else if d <? r then f + 1
  else if Z.even f then f else f + 1.

Definition min_us : Z := days_from_civil 1 1 1 * us_per_day.
Definition max_us : Z := days_from_civil 10000 1 1 * us_per_day.

Definition utc_from_timestamp (v : pyval) : outcome Z :=
  let in_range us :=
    if (min_us <=? us) && (us <? max_us) then Ok us else Raise ValueError in
  match v with
  | PBool b => Ok (if b then 1000000 else 0)
  | PInt z => in_range (z * 1000000)
  | PFloat (Fin q) => in_range (round_half_even (q * 1000000)%Q)
  | PFloat NaN => Raise ValueError
  | PFloat _ => Raise OverflowError
  | _ => Raise TypeError
  end.

(** Attributes, indices, conversions and format specifications of
    replacement fields are beyond this instance. *)
Definition no_format_rest (kw : list (string * pyval)) (s : string) : outcome string :=
  Raise (OtherError "NotImplementedError").

#[export] Instance lib : PyLib := {|
  py_str := str;
  json_dumps := dumps "";
  float_of_str := float_literal;
  isoformat := iso_string;
  fromisoformat := iso_parse;
  fromtimestamp := utc_from_timestamp;
  format_rest := no_format_rest
|}.

End Ref.


(** ** A device and its configuration, for the examples *)

Module Scenario.

Definition rule_temp : ThresholdRule := {|
  tag_name := Some "temp";
  upper_limit := Some (NInt 100);
  lower_limit := Some (NInt 200);
  alert_message := None;
  cooldown_minutes := Some 15
|}.

Definition cfg : SlackProcessorConfig := {|
  slack_webhook_url := Some "https://hooks.slack.test/T0";
  slack_channel := Some "";
  slack_username := Some "Doover Alerts";
  channel_alerts_enabled := true;
  channel_message_template := "New message on {channel} from {device}: {data}";
  offline_alerts_enabled := true;
  offline_threshold_minutes := 30;
  offline_reminder_interval_minutes := 60;
  threshold_alerts_enabled := true;
  tag_thresholds := [rule_temp];
  include_device_name := true;
  request_timeout_seconds := Some 30
|}.

(** The same configuration with another webhook URL. *)
Definition with_webhook (url : option string) (c : SlackProcessorConfig)
  : SlackProcessorConfig := {|
  slack_webhook_url := url;
  slack_channel := slack_channel c;
  slack_username := slack_username c;
  channel_alerts_enabled := channel_alerts_enabled c;
  channel_message_template := channel_message_template c;
  offline_alerts_enabled := offline_alerts_enabled c;
  offline_threshold_minutes := offline_threshold_minutes c;
  offline_reminder_interval_minutes := offline_reminder_interval_minutes c;
  threshold_alerts_enabled := threshold_alerts_enabled c;
  tag_thresholds := tag_thresholds c;
  include_device_name := include_device_name c;
  request_timeout_seconds := request_timeout_seconds c
|}.

(** The same configuration with another reminder interval. *)
Definition with_reminder_interval (minutes : Z) (c : SlackProcessorConfig)
  : SlackProcessorConfig := {|
  slack_webhook_url := slack_webhook_url c;
  slack_channel := slack_channel c;
  slack_username := slack_username c;
  channel_alerts_enabled := channel_alerts_enabled c;
  channel_message_template := channel_message_template c;
  offline_alerts_enabled := offline_alerts_enabled c;
  offline_threshold_minutes := offline_threshold_minutes c;
  offline_reminder_interval_minutes := minutes;
  threshold_alerts_enabled := threshold_alerts_enabled c;
  tag_thresholds := tag_thresholds c;
  include_device_name := include_device_name c;
  request_timeout_seconds := request_timeout_seconds c
|}.

(** The same configuration with other threshold rules. *)
Definition with_rules (rules : list ThresholdRule) (c : SlackProcessorConfig)
  : SlackProcessorConfig := {|
  slack_webhook_url := slack_webhook_url c;
  slack_channel := slack_channel c;
  slack_username := slack_username c;
  channel_alerts_enabled := channel_alerts_enabled c;
  channel_message_template := channel_message_template c;
  offline_alerts_enabled := offline_alerts_enabled c;
  offline_threshold_minutes := offline_threshold_minutes c;
  offline_reminder_interval_minutes := offline_reminder_interval_minutes c;
  threshold_alerts_enabled := threshold_alerts_enabled c;
  tag_thresholds := rules;
  include_device_name := include_device_name c;
  request_timeout_seconds := request_timeout_seconds c
|}.

(** The same configuration with another channel message template. *)
Definition with_template (template : string) (c : SlackProcessorConfig)
  : SlackProcessorConfig := {|
  slack_webhook_url := slack_webhook_url c;
  slack_channel := slack_channel c;
  slack_username := slack_username c;
  channel_alerts_enabled := channel_alerts_enabled c;
  channel_message_template := template;
  offline_alerts_enabled := offline_alerts_enabled c;
  offline_threshold_minutes := offline_threshold_minutes c;
  offline_reminder_interval_minutes := offline_reminder_interval_minutes c;
  threshold_alerts_enabled := threshold_alerts_enabled c;
  tag_thresholds := tag_thresholds c;
  include_device_name := include_device_name c;
  request_timeout_seconds := request_timeout_seconds c
|}.

(** A rule on the temperature whose template has the placeholder
    [{unit}], and a rule on the pressure with the default template. *)
Definition rule_unit : ThresholdRule := {|
  tag_name := Some "temp";
  upper_limit := Some (NInt 100);
  lower_limit := None;
  alert_message := Some "{tag} above {limit} {unit}";
  cooldown_minutes := Some 15
|}.

Definition rule_pressure : ThresholdRule := {|
  tag_name := Some "pressure";
  upper_limit := Some (NInt 5);
  lower_limit := None;
  alert_message := None;
  cooldown_minutes := Some 15
|}.

Definition readings : gmap string pyval :=
  {[ "temp" := PFloat (Fin (150 # 1)); "pressure" := PInt 9 ]}.

Definition ui_event : MessageCreateEvent :=
  {| channel_name := "ui_state"; message_data := PDict [("x", PInt 1)] |}.

(** 2026-11-04T09:39:00 UTC, in microseconds. *)
Definition t0 : Z := 1793785140000000.
Definition minute : Z := 60000000.

(** A device with the connection answer [connection], a temperature of
    150, a pressure of 9 and a clock that starts at [start] and moves by a second and a half
    between two readings. *)
Definition device (connection : option (gmap string pyval)) (start : Z) : env := {|
  agent_id := PInt 42;
  get_agent_connection := fun _ => connection;
  get_agent := fun _ => Some {[ "name" := PStr "pump-1" ]};
  get_aggregate := fun _ => Some readings;
  clock := fun n => start + Z.of_nat n * 1500000;
  requests_post := fun _ => Response 200 "ok"
|}.

(** The same device with a clock that stands still at [t]. *)
Definition frozen (connection : option (gmap string pyval)) (t : Z) : env := {|
  agent_id := PInt 42;
  get_agent_connection := fun _ => connection;
  get_agent := fun _ => Some {[ "name" := PStr "pump-1" ]};
  get_aggregate := fun _ => Some readings;
  clock := fun _ => t;
  requests_post := fun _ => Response 200 "ok"
|}.

Definition online : gmap string pyval :=
  {[ "determination" := PStr "online"; "online_at" := PStr "2026-11-04T09:38:00Z" ]}.

Definition offline_since (online_at : string) : gmap string pyval :=
  {[ "determination" := PStr "offline"; "online_at" := PStr online_at ]}.

(** Last seen at 09:00:00, thirty-nine minutes before [t0]. *)
Definition offline : gmap string pyval := offline_since "2026-11-04T09:00:00Z".

Definition fresh : world :=
  {| w_tags := ∅; w_log := []; w_outbox := []; w_clock := 0; w_api := 0 |}.

(** The store after an offline alert at 09:31:00. *)
Definition alerted : world :=
  {| w_tags := {[ "offline_alert_sent" := PBool true;
                  "last_offline_reminder" := PStr "2026-11-04T09:31:00+00:00" ]};
     w_log := []; w_outbox := []; w_clock := 0; w_api := 0 |}.

End Scenario.

(** ** The vocabulary of the properties *)

(** [frame K posts w w']: from [w] to [w'] the webhook received exactly
    [posts], the store was written at keys of [K] only, and the counters did
    not go back. *)
Definition frame (K : string -> Prop) (posts : list post_call) (w w' : world) : Prop :=
  w_outbox w' = w_outbox w ++ posts /\
  (exists ops, w_log w' = w_log w ++ ops /\ forall k v, In (Set_ k v) ops -> K k) /\
  (forall k, ~ K k -> w_tags w' !! k = w_tags w !! k) /\
  (w_clock w <= w_clock w')%nat /\ (w_api w <= w_api w')%nat.

(** [touches K T m]: whatever its outcome, [m] writes the store at keys of
    [K] only and posts alerts with a title of [T] only. *)
Definition touches {A} (K T : string -> Prop) (m : M A) : Prop :=
  forall w, exists posts,
    frame K posts w (m w).2 /\ forall p, In p posts -> T (pc_title p).

(** The keys that the helpers and the two checks write, and the titles of
    the alerts of the two checks. *)
Definition K_error (k : string) : Prop := k = "last_error" \/ k = "last_error_at".
Definition K_stat (stat_name : string) (k : string) : Prop :=
  k = stat_name \/ k = stat_name +:+ "_last".

Definition K_offline (k : string) : Prop :=
  K_error k \/ K_stat "offline_alerts_sent" k
  \/ k = "offline_alert_sent" \/ k = "last_offline_reminder".
Definition T_offline (t : string) : Prop := t = "Device Offline Alert".

Definition K_threshold (k : string) : Prop :=
  K_error k \/ K_stat "threshold_alerts_sent" k
  \/ exists tag, k = "threshold_cooldown_" +:+ tag.
Definition T_threshold (t : string) : Prop :=
  t = "Threshold Alert: High Value" \/ t = "Threshold Alert: Low Value".

(** The condition of line 141 and line 149: reminders are on, the time of
    the last one is set and parses, and at least the interval has passed
    between it and the reading [now] of the clock. *)
Definition reminder_due `{PyLib} (config : SlackProcessorConfig)
    (last_reminder : pyval) (now : Z) : Prop :=
  0 < offline_reminder_interval_minutes config
  /\ truthy last_reminder = true
  /\ exists t, parse_time last_reminder = Ok (Aware t)
       /\ offline_reminder_interval_minutes config * 60000000 <= now - t.

(** Literal text of a template: no brace in it. *)
Definition plain_text (s : string) : bool :=
  forallb (fun c => negb (Ascii.eqb c "{"%char || Ascii.eqb c "}"%char))
    (list_ascii_of_string s).

(** The characters of a plain field name: no brace, and none of the
    characters that start an attribute, an index, a conversion or a format
    specification. *)
Definition name_chars (s : string) : bool :=
  forallb (fun c => negb (Ascii.eqb c "{"%char || Ascii.eqb c "}"%char
                          || is_special c))
    (list_ascii_of_string s).

(** A placeholder [{name}] with a plain name that is neither empty nor a
    number. *)
Definition plain_name (s : string) : bool :=
  negb (all_digits s) && name_chars s.

(** The start of a template that formats with the keyword arguments
    [keys]: literal text, the escapes of the two braces, and placeholders
    with a plain name among [keys]. *)
Inductive known_prefix (keys : list string) : string -> Prop :=
  | known_nil : known_prefix keys ""
  | known_text lit pre :
      plain_text lit = true -> known_prefix keys pre ->
      known_prefix keys (lit +:+ pre)
  | known_open pre :
      known_prefix keys pre -> known_prefix keys (String "{" (String "{" pre))
  | known_close pre :
      known_prefix keys pre -> known_prefix keys (String "}" (String "}" pre))
  | known_field name pre :
      plain_name name = true -> In name keys -> known_prefix keys pre ->
      known_prefix keys (String "{" (name +:+ String "}" pre)).

(** The rule with other limits. *)
Definition with_limits (upper lower : option pynum) (r : ThresholdRule)
  : ThresholdRule := {|
  tag_name := tag_name r;
  upper_limit := upper;
  lower_limit := lower;
  alert_message := alert_message r;
  cooldown_minutes := cooldown_minutes r
|}.

(** The tag is out of its cooldown period at [now]: no time of a last alert
    is set, or one is set, parses, and lies at least [cooldown] minutes
    back. *)
Definition cooled_down `{PyLib} (last_alert : pyval) (cooldown now : Z) : Prop :=
  truthy last_alert = false
  \/ exists t, parse_time last_alert = Ok (Aware t)
       /\ cooldown * 60000000 <= now - t.

(** The tag is in its cooldown period at [now]. *)
Definition cooling `{PyLib} (last_alert : pyval) (cooldown now : Z) : Prop :=
  truthy last_alert = true
  /\ exists t, parse_time last_alert = Ok (Aware t)
       /\ now - t < cooldown * 60000000.

(** The values written to [key], in order, among the operations [ops]. *)
Definition sets_of (key : string) (ops : list store_op) : list pyval :=
  flat_map (fun op =>
              match op with
              | Set_ k v => if String.eqb k key then [v] else []
              | Get _ => []
              end) ops.

(** [writes key vs w w']: from [w] to [w'] the log grew, the values written
    to [key] are [vs] in this order, and the tag holds the last of them (or
    what it held, when there is none). *)
Definition writes (key : string) (vs : list pyval) (w w' : world) : Prop :=
  (exists ops, w_log w' = w_log w ++ ops /\ sets_of key ops = vs)
  /\ w_tags w' !! key = match last vs with
                        | Some v => Some v
                        | None => w_tags w !! key
                        end.

(** The keys that a rule on [tag] may write. *)
Definition K_rule (tag : string) (k : string) : Prop :=
  K_error k \/ K_stat "threshold_alerts_sent" k \/ k = "threshold_cooldown_" +:+ tag.

(** Schedule ticks one after the other on the same store: each invocation
    has its own answers of the collaborators, and starts in the world that
    the one before left, whatever its outcome. *)
Fixpoint run_ticks `{PyLib} (config : SlackProcessorConfig) (es : list env)
    (w : world) : world :=
  match es with
  | [] => w
  | e :: es' => run_ticks config es' (on_schedule config e w).2
  end.

(** ** The defaults of the configuration (app_config.py) *)

(** The default of [channel_message_template] (app_config.py, line 52). *)
Definition default_channel_template : string :=
  "New message on {channel} from {device}: {data}".

(** [SlackProcessorConfig] with every element at its default (app_config.py,
    lines 25-128).  The webhook URL and the threshold rules have no default:
    they are what the user sets. *)
Definition default_config (webhook_url : option string)
    (rules : list ThresholdRule) : SlackProcessorConfig := {|
  slack_webhook_url := webhook_url;
  slack_channel := Some "";
  slack_username := Some "Doover Alerts";
  channel_alerts_enabled := true;
  channel_message_template := default_channel_template;
  offline_alerts_enabled := false;
  offline_threshold_minutes := 30;
  offline_reminder_interval_minutes := 60;
  threshold_alerts_enabled := false;
  tag_thresholds := rules;
  include_device_name := true;
  request_timeout_seconds := Some 30
|}.

(** ** More vocabulary: what is posted *)

(** [emits P n m]: whatever its outcome, [m] makes at most [n] posts, each
    of which satisfies [P]. *)
Definition emits {A} (P : post_call -> Prop) (n : nat) (m : M A) : Prop :=
  forall w, exists posts,
    w_outbox (m w).2 = w_outbox w ++ posts
    /\ (length posts <= n)%nat
    /\ forall p, In p posts -> P p.

(** What lines 253-285 put in every request: the configured webhook URL
    (never empty), a username (the configured one, or [Doover Alerts]), the
    channel override only when one is configured, the footer, and the
    configured timeout (or 30 seconds). *)
Definition payload_ok (config : SlackProcessorConfig) (p : post_call) : Prop :=
  slack_webhook_url config = Some (pc_url p)
  /\ pc_url p <> ""
  /\ pc_username p <> ""
  /\ (pc_username p = "Doover Alerts" \/ slack_username config = Some (pc_username p))
  /\ pc_channel p <> Some ""
  /\ (pc_channel p = None \/ pc_channel p = slack_channel config)
  /\ pc_footer p = "Doover Slack Processor"
  /\ pc_timeout p <> 0
  /\ (pc_timeout p = 30 \/ request_timeout_seconds config = Some (pc_timeout p)).

(** The keys of the tag store that the offline check may write. *)
Definition offline_keys : list string :=
  ["offline_alert_sent"; "last_offline_reminder";
   "offline_alerts_sent"; "offline_alerts_sent_last";
   "last_error"; "last_error_at"].

(** The keys that the threshold check may write with the rules [rules]: the
    cooldown keys of their tags, the counter, and the error record. *)
Definition threshold_keys (rules : list ThresholdRule) (k : string) : Prop :=
  In k ["threshold_alerts_sent"; "threshold_alerts_sent_last";
        "last_error"; "last_error_at"]
  \/ exists rule tag, In rule rules /\ tag_name rule = Some tag
       /\ k = "threshold_cooldown_" +:+ tag.

(** ** More devices, for the examples *)

Module Cases.

(** The device of [Scenario] behind a webhook that answers [answer]. *)
Definition device_with (answer : http_result)
    (connection : option (gmap string pyval)) (t : Z) : env := {|
  agent_id := PInt 42;
  get_agent_connection := fun _ => connection;
  get_agent := fun _ => Some {[ "name" := PStr "pump-1" ]};
  get_aggregate := fun _ => Some Scenario.readings;
  clock := fun _ => t;
  requests_post := fun _ => answer
|}.

(** The device of [Scenario] whose tag aggregate cannot be fetched. *)
Definition no_aggregate (connection : option (gmap string pyval)) (t : Z) : env := {|
  agent_id := PInt 42;
  get_agent_connection := fun _ => connection;
  get_agent := fun _ => Some {[ "name" := PStr "pump-1" ]};
  get_aggregate := fun _ => None;
  clock := fun _ => t;
  requests_post := fun _ => Response 200 "ok"
|}.

(** A connection answer without a last-online timestamp. *)
Definition never_seen : gmap string pyval :=
  {[ "determination" := PStr "offline" ]}.

(** A rule on the temperature with a lower limit only. *)
Definition rule_low : ThresholdRule := {|
  tag_name := Some "temp";
  upper_limit := None;
  lower_limit := Some (NInt 200);
  alert_message := None;
  cooldown_minutes := Some 15
|}.

(** A rule on the temperature with limits around its value. *)
Definition rule_band : ThresholdRule := {|
  tag_name := Some "temp";
  upper_limit := Some (NInt 200);
  lower_limit := Some (NInt 100);
  alert_message := None;
  cooldown_minutes := Some 15
|}.

(** The device of [Scenario] with the reading [v] of the temperature. *)
Definition device_reading (v : pyval) : env := {|
  agent_id := PInt 42;
  get_agent_connection := fun _ => None;
  get_agent := fun _ => Some {[ "name" := PStr "pump-1" ]};
  get_aggregate := fun _ => Some {[ "temp" := v ]};
  clock := fun _ => Scenario.t0;
  requests_post := fun _ => Response 200 "ok"
|}.

(** The store with a counter of 41 offline alerts. *)
Definition counted : world :=
  {| w_tags := {[ "offline_alerts_sent" := PInt 41 ]};
     w_log := []; w_outbox := []; w_clock := 0; w_api := 0 |}.

(** The store with a counter that holds a text. *)
Definition miscounted : world :=
  {| w_tags := {[ "offline_alerts_sent" := PStr "many" ]};
     w_log := []; w_outbox := []; w_clock := 0; w_api := 0 |}.

End Cases.

(** ** More vocabulary: threshold alerts and the writes of the cooldown *)

(** A post is a threshold alert: it has one of the two titles of the
    threshold check. *)
Definition threshold_post (p : post_call) : bool :=
  String.eqb (pc_title p) "Threshold Alert: High Value"
  || String.eqb (pc_title p) "Threshold Alert: Low Value".

(** A write of the cooldown tag of a tag, whichever. *)
Definition cooldown_write (op : store_op) : bool :=
  match op with
  | Set_ k _ => String.prefix "threshold_cooldown_" k
  | Get _ => false
  end.

(** A write of the tag [key]. *)
Definition write_of (key : string) (op : store_op) : bool :=
  match op with
  | Set_ k _ => String.eqb k key
  | Get _ => false
  end.

(** [linked c m]: whatever its outcome, [m] posts as many threshold alerts
    as it makes operations on the store that [c] counts. *)
Definition linked {A} (c : store_op -> bool) (m : M A) : Prop :=
  forall w, exists posts ops,
    w_outbox (m w).2 = w_outbox w ++ posts
    /\ w_log (m w).2 = w_log w ++ ops
    /\ length (List.filter threshold_post posts) = length (List.filter c ops).

(** * Properties *)

(** ** Running a handler step by step *)

Lemma bind_ok {A B} (m : M A) (f : A -> M B) w a w' :
  m w = (Ok a, w') -> (m ≫= f) w = f a w'.
Proof. intros Hm. unfold mbind, M_bind. now rewrite Hm. Qed.

Lemma bind_raise {A B} (m : M A) (f : A -> M B) w err w' :
  m w = (Raise err, w') -> (m ≫= f) w = (Raise err, w').
Proof. intros Hm. unfold mbind, M_bind. now rewrite Hm. Qed.

Lemma for_each_raise {A} (body : A -> M unit) x xs w err w' :
  body x w = (Raise err, w') -> for_each body (x :: xs) w = (Raise err, w').
Proof. intros Hb. simpl. now apply bind_raise. Qed.

Lemma for_each_ok {A} (body : A -> M unit) x xs w w' :
  body x w = (Ok tt, w') -> for_each body (x :: xs) w = for_each body xs w'.
Proof. intros Hb. simpl. now rewrite (bind_ok _ _ _ _ _ Hb). Qed.

(** ** What a step may touch *)

Lemma frame_refl K w : frame K [] w w.
Proof.
  repeat split; try lia.
  - now rewrite app_nil_r.
  - exists []. split; [now rewrite app_nil_r | intros k v []].
Qed.

Lemma frame_trans K ps ps' w w' w'' :
  frame K ps w w' -> frame K ps' w' w'' -> frame K (ps ++ ps') w w''.
Proof.
  intros (Ho & (ops & Hl & Hk) & Ht & Hc & Ha) (Ho' & (ops' & Hl' & Hk') & Ht' & Hc' & Ha').
  repeat split; try lia.
  - rewrite Ho', Ho. now rewrite app_assoc.
  - exists (ops ++ ops'). split.
    + rewrite Hl', Hl. now rewrite app_assoc.
    + intros k v Hin. apply in_app_iff in Hin as [Hin | Hin]; eauto.
  - intros k Hk0. rewrite Ht', Ht; auto.
Qed.

Lemma frame_then K ps w w' w'' :
  frame K [] w w' -> frame K ps w' w'' -> frame K ps w w''.
Proof. intros H1 H2. exact (frame_trans K [] ps w w' w'' H1 H2). Qed.

Lemma frame_weaken (K K' : string -> Prop) ps w w' :
  (forall k, K k -> K' k) -> frame K ps w w' -> frame K' ps w w'.
Proof.
  intros HK (Ho & (ops & Hl & Hk) & Ht & Hc & Ha).
  repeat split; auto.
  exists ops. split; eauto.
Qed.

Lemma touches_weaken {A} (K K' T T' : string -> Prop) (m : M A) :
  (forall k, K k -> K' k) -> (forall t, T t -> T' t) ->
  touches K T m -> touches K' T' m.
Proof.
  intros HK HT Hm w. destruct (Hm w) as (ps & Hf & Hp).
  exists ps. split; [eapply frame_weaken; eauto | auto].
Qed.

Lemma touches_ret {A} K T (a : A) : touches K T (mret a).
Proof. intros w. exists []. split; [apply frame_refl | intros p []]. Qed.

Lemma touches_lift {A} K T (o : outcome A) : touches K T (lift o).
Proof. intros w. exists []. split; [apply frame_refl | intros p []]. Qed.

Lemma touches_bind {A B} K T (m : M A) (f : A -> M B) :
  touches K T m -> (forall a, touches K T (f a)) -> touches K T (m ≫= f).
Proof.
  intros Hm Hf w. destruct (Hm w) as (ps & Hfr & Hp).
  unfold mbind, M_bind. destruct (m w) as [[a | err] w1]; simpl in *.
  - destruct (Hf a w1) as (ps' & Hfr' & Hp').
    exists (ps ++ ps'). split; [eapply frame_trans; eauto |].
    intros p Hin. apply in_app_iff in Hin as [Hin | Hin]; auto.
  - exists ps. auto.
Qed.

Lemma touches_try_except {A} K T (m : M A) (h : exn -> M A) :
  touches K T m -> (forall err, touches K T (h err)) -> touches K T (try_except m h).
Proof.
  intros Hm Hh w. destruct (Hm w) as (ps & Hfr & Hp).
  unfold try_except. destruct (m w) as [[a | err] w1]; simpl in *.
  - exists ps. auto.
  - destruct (Hh err w1) as (ps' & Hfr' & Hp').
    exists (ps ++ ps'). split; [eapply frame_trans; eauto |].
    intros p Hin. apply in_app_iff in Hin as [Hin | Hin]; auto.
Qed.

Lemma touches_for_each {A} K T (body : A -> M unit) xs :
  (forall x, touches K T (body x)) -> touches K T (for_each body xs).
Proof.
  intros Hb. induction xs as [| x xs IH]; simpl.
  - apply touches_ret.
  - apply touches_bind; auto.
Qed.

Section Steps.
Context `{PyLib} (config : SlackProcessorConfig) (e : env).

Lemma touches_get_tag K T key d : touches K T (get_tag key d).
Proof.
  intros w. exists []. split; [| intros p []].
  repeat split; simpl; try lia.
  - now rewrite app_nil_r.
  - exists [Get key]. split; [easy |].
    intros k v [Hin | []]. discriminate.
Qed.

Lemma set_tag_frame (K : string -> Prop) key v w :
  K key -> frame K [] w (set_tag key v w).2.
Proof.
  intros HK. repeat split; simpl; try lia.
  - now rewrite app_nil_r.
  - exists [Set_ key v]. split; [easy |].
    intros k v' [Hin | []]. now inversion Hin; subst.
  - intros k Hk. apply lookup_insert_ne. intros ->. now apply Hk.
Qed.

Lemma touches_set_tag (K T : string -> Prop) key v :
  K key -> touches K T (set_tag key v).
Proof.
  intros HK w. exists []. split; [now apply set_tag_frame | intros p []].
Qed.

Lemma touches_datetime_now K T : touches K T (datetime_now e).
Proof.
  intros w. exists []. split; [| intros p []].
  repeat split; simpl; try lia.
  - now rewrite app_nil_r.
  - exists []. split; [now rewrite app_nil_r | intros k v []].
Qed.

Lemma touches_api_call {A} K T (answer : nat -> A) : touches K T (api_call answer).
Proof.
  intros w. exists []. split; [| intros p []].
  repeat split; simpl; try lia.
  - now rewrite app_nil_r.
  - exists []. split; [now rewrite app_nil_r | intros k v []].
Qed.

Lemma touches_post K (T : string -> Prop) call :
  T (pc_title call) -> touches K T (post e call).
Proof.
  intros HT w. exists [call]. split; [| now intros p [<- | []]].
  repeat split; simpl; try lia.
  exists []. split; [now rewrite app_nil_r | intros k v []].
Qed.

Lemma touches__update_error T error : touches K_error T (_update_error e error).
Proof.
  unfold _update_error. apply touches_try_except; [| intros; apply touches_ret].
  apply touches_bind; [apply touches_set_tag; now left | intros _].
  apply touches_bind; [apply touches_datetime_now | intros t].
  apply touches_set_tag. now right.
Qed.

Lemma touches__increment_stat T stat_name :
  touches (K_stat stat_name) T (_increment_stat e stat_name).
Proof.
  unfold _increment_stat. apply touches_try_except; [| intros; apply touches_ret].
  apply touches_bind; [apply touches_get_tag | intros current].
  apply touches_bind; [apply touches_lift | intros next].
  apply touches_bind; [apply touches_set_tag; now left | intros _].
  apply touches_bind; [apply touches_datetime_now | intros t].
  apply touches_set_tag. now right.
Qed.

Lemma touches__get_device_name K T : touches K T (_get_device_name config e).
Proof.
  unfold _get_device_name. destruct (negb _); [apply touches_ret |].
  apply touches_bind; [apply touches_api_call | intros [info |]]; apply touches_ret.
Qed.

Lemma touches__send_slack_message (T : string -> Prop) text title color :
  T title -> touches K_error T (_send_slack_message config e text title color).
Proof.
  intros HT. unfold _send_slack_message.
  destruct (slack_webhook_url config) as [url |]; [| apply touches_ret].
  destruct (String.eqb url ""); [apply touches_ret |].
  apply touches_bind; [apply touches_datetime_now | intros now].
  apply touches_bind; [now apply touches_post | intros response].
  destruct response as [code body | | msg]; try apply touches__update_error.
  destruct (code =? 200); [apply touches_ret | apply touches__update_error].
Qed.

(** The helpers never raise. *)

Lemma _increment_stat_ok stat_name w :
  exists w', _increment_stat e stat_name w = (Ok tt, w').
Proof.
  unfold _increment_stat, try_except, mbind, M_bind, get_tag, lift. simpl.
  destruct (add_one _); eexists; reflexivity.
Qed.

Lemma _get_device_name_ok w :
  exists name w', _get_device_name config e w = (Ok name, w')
    /\ w_tags w' = w_tags w /\ w_log w' = w_log w
    /\ w_outbox w' = w_outbox w /\ w_clock w' = w_clock w.
Proof.
  unfold _get_device_name. destruct (negb _).
  - now exists (PStr "Unknown Device"), w.
  - unfold mbind, M_bind, api_call. simpl.
    destruct (get_agent e (w_api w)); eexists; eexists; (split; [reflexivity | easy]).
Qed.

Lemma from_touches {A} K T (m : M A) w a w' :
  touches K T m -> m w = (Ok a, w') ->
  exists posts, frame K posts w w' /\ forall p, In p posts -> T (pc_title p).
Proof. intros Hm Hrun. specialize (Hm w). now rewrite Hrun in Hm. Qed.

(** With a webhook URL, [_send_slack_message] posts exactly one
    attachment, whatever the answer of Slack. *)
Lemma _send_slack_message_ok text title color w :
  str_set (slack_webhook_url config) = true ->
  exists w' p, _send_slack_message config e text title color w = (Ok tt, w')
    /\ frame K_error [p] w w'
    /\ pc_title p = title /\ pc_text p = text /\ pc_color p = color.
Proof.
  intros Hurl. unfold _send_slack_message.
  destruct (slack_webhook_url config) as [url |]; [| discriminate].
  simpl in Hurl. destruct (String.eqb url ""); [discriminate |].
  set (m := datetime_now e ≫= _).
  assert (Hm : touches K_error (fun t => True) m).
  { apply touches_bind; [apply touches_datetime_now | intros now].
    apply touches_bind; [now apply touches_post | intros response].
    destruct response as [code body | | msg]; try apply touches__update_error.
    destruct (code =? 200); [apply touches_ret | apply touches__update_error]. }
  assert (Hrun : exists w' p, m w = (Ok tt, w')
            /\ w_outbox w' = w_outbox w ++ [p]
            /\ pc_title p = title /\ pc_text p = text /\ pc_color p = color).
  { subst m. unfold mbind, M_bind, datetime_now, post. simpl.
    destruct (requests_post e (length (w_outbox w))) as [code body | | msg].
    - destruct (code =? 200); eexists; eexists; (split; [reflexivity | easy]).
    - eexists; eexists; (split; [reflexivity | easy]).
    - eexists; eexists; (split; [reflexivity | easy]). }
  destruct Hrun as (w' & p & Hrun & Hout & Hp).
  exists w', p. split; [exact Hrun |]. split; [| exact Hp].
  destruct (from_touches _ _ _ _ _ _ Hm Hrun) as (ps & Hfr & _).
  destruct Hfr as (Ho & Hrest). rewrite Hout in Ho.
  apply app_inv_head in Ho. subst ps. split; [exact Hout | exact Hrest].
Qed.

Lemma K_rule_threshold tag k : K_rule tag k -> K_threshold k.
Proof. intros [Hk | [Hk | Hk]]; [now left | right; now left | right; right; eauto]. Qed.

Lemma touches_threshold_alert template tag value name now limit title color :
  T_threshold title ->
  touches (K_rule tag) T_threshold
    (threshold_alert config e template tag ("threshold_cooldown_" +:+ tag)
       value name now limit title color).
Proof.
  intros HT. unfold threshold_alert.
  apply touches_bind; [apply touches_lift | intros message].
  apply touches_bind.
  { eapply touches_weaken; [| | now apply (touches__send_slack_message T_threshold)];
      [intros k Hk; now left | auto]. }
  intros _. apply touches_bind.
  { apply touches_set_tag. right. now right. }
  intros _. eapply touches_weaken; [| | apply (touches__increment_stat T_threshold)];
    [intros k Hk; right; now left | auto].
Qed.

Lemma touches_in_cooldown K T key cooldown now :
  touches K T (in_cooldown key cooldown now).
Proof.
  unfold in_cooldown.
  apply touches_bind; [apply touches_get_tag | intros last].
  destruct (truthy last); [| apply touches_ret].
  apply touches_bind; [apply touches_lift | intros dt].
  apply touches_bind; [apply touches_lift | intros d]. apply touches_ret.
Qed.

Lemma touches_check_limits rule tag value name now :
  touches (K_rule tag) T_threshold (check_limits config e rule tag value name now).
Proof.
  unfold check_limits.
  apply touches_bind; [apply touches_in_cooldown | intros skip].
  destruct skip; [apply touches_ret |].
  destruct (crossed _ _); [apply touches_threshold_alert; now left |].
  destruct (crossed _ _); [apply touches_threshold_alert; now right |].
  apply touches_ret.
Qed.

Lemma touches_threshold_rule tag_values name now rule :
  touches K_threshold T_threshold
    (threshold_rule config e tag_values name now rule).
Proof.
  unfold threshold_rule.
  destruct (tag_name rule) as [tag |]; [| apply touches_ret].
  destruct (String.eqb tag ""); [apply touches_ret |].
  assert (Hgo : forall raw, touches K_threshold T_threshold
    match py_float raw with
    | Ok value => check_limits config e rule tag value name now
    | Raise TypeError | Raise ValueError => mret tt
    | Raise err => lift (Raise err)
    end).
  { intros raw. destruct (py_float raw) as [value | err].
    - eapply touches_weaken; [apply K_rule_threshold | | apply touches_check_limits].
      auto.
    - destruct err; first [apply touches_ret | apply touches_lift]. }
  destruct (dict_get tag_values tag) eqn:Hraw; first [apply touches_ret | apply Hgo].
Qed.

Lemma touches__check_tag_thresholds :
  touches K_threshold T_threshold (_check_tag_thresholds config e).
Proof.
  unfold _check_tag_thresholds.
  destruct (tag_thresholds config) as [| r rs]; [apply touches_ret |].
  apply touches_bind; [apply touches_api_call | intros [tag_values |]];
    [| apply touches_ret].
  apply touches_bind; [apply touches__get_device_name | intros name].
  apply touches_bind; [apply touches_datetime_now | intros now].
  apply touches_for_each. intros rule. apply touches_threshold_rule.
Qed.

End Steps.

(** ** The two checks do not step on each other *)

Lemma K_threshold_not_offline_flag : ~ K_threshold "offline_alert_sent".
Proof.
  intros [[Hk | Hk] | [[Hk | Hk] | (tag & Hk)]]; simpl in Hk; discriminate.
Qed.

Lemma K_threshold_not_reminder : ~ K_threshold "last_offline_reminder".
Proof.
  intros [[Hk | Hk] | [[Hk | Hk] | (tag & Hk)]]; simpl in Hk; discriminate.
Qed.

Lemma T_threshold_not_offline t : T_threshold t -> t <> "Device Offline Alert".
Proof. intros [-> | ->]; discriminate. Qed.

Lemma K_offline_not_cooldown tag : ~ K_offline ("threshold_cooldown_" +:+ tag).
Proof.
  intros [[Hk | Hk] | [[Hk | Hk] | [Hk | Hk]]]; simpl in Hk; discriminate.
Qed.

Lemma touches_threshold_part `{PyLib} (config : SlackProcessorConfig) (e : env) :
  touches K_threshold T_threshold
    (if threshold_alerts_enabled config then _check_tag_thresholds config e
     else mret tt).
Proof.
  destruct (threshold_alerts_enabled config);
    [apply touches__check_tag_thresholds | apply touches_ret].
Qed.

(** ** Templates with an unknown placeholder *)

Lemma append_cons x (a b : string) : String x a +:+ b = String x (a +:+ b).
Proof. reflexivity. Qed.

Lemma append_nil_l (b : string) : "" +:+ b = b.
Proof. reflexivity. Qed.

Lemma append_assoc (a b c : string) : (a +:+ b) +:+ c = a +:+ (b +:+ c).
Proof.
  induction a as [| x a IH]; [reflexivity |]. now rewrite !append_cons, IH.
Qed.

Lemma append_nil_r (a : string) : a +:+ "" = a.
Proof.
  induction a as [| x a IH]; [reflexivity |]. now rewrite append_cons, IH.
Qed.

Section FormatFacts.
Context `{PyLib}.

Lemma format_go_plain_text kw lit out s :
  plain_text lit = true ->
  format_go kw Literal out (lit +:+ s) = format_go kw Literal (out +:+ lit) s.
Proof.
  revert out. induction lit as [| c lit IH]; intros out Hlit.
  - now rewrite append_nil_l, append_nil_r.
  - unfold plain_text in Hlit. simpl in Hlit.
    apply andb_prop in Hlit as [Hc Hlit].
    apply negb_true_iff, orb_false_iff in Hc as [Ho Hcl].
    fold (plain_text lit) in Hlit.
    rewrite append_cons. simpl. rewrite Ho, Hcl. rewrite (IH _ Hlit).
    now rewrite append_assoc, append_cons, append_nil_l.
Qed.

Lemma format_go_field kw acc start out name rest :
  name_chars name = true ->
  format_go kw (Field acc start) out (name +:+ String "}" rest)
  = match lookup_field kw (acc +:+ name) start with
    | Ok txt => format_go kw Literal (out +:+ txt) rest
    | Raise err => Raise err
    end.
Proof.
  revert acc. induction name as [| c name IH]; intros acc Hname.
  - now rewrite append_nil_l, append_nil_r.
  - unfold name_chars in Hname. simpl in Hname.
    apply andb_prop in Hname as [Hc Hname].
    apply negb_true_iff, orb_false_iff in Hc as [Hc Hsp].
    apply orb_false_iff in Hc as [Ho Hcl].
    fold (name_chars name) in Hname.
    rewrite append_cons. simpl. rewrite Ho, Hcl, Hsp.
    rewrite (IH _ Hname). now rewrite append_assoc, append_cons, append_nil_l.
Qed.

Lemma kwargs_get_None kw name :
  ~ In name (map fst kw) -> kwargs_get kw name = None.
Proof.
  induction kw as [| [k v] kw IH]; intros Hnot; simpl; [reflexivity |].
  destruct (String.eqb_spec k name) as [-> | Hne].
  - exfalso. apply Hnot. now left.
  - apply IH. intros Hin. apply Hnot. now right.
Qed.

Lemma kwargs_get_Some kw name :
  In name (map fst kw) -> exists v, kwargs_get kw name = Some v.
Proof.
  induction kw as [| [k v] kw IH]; intros Hin; simpl; [destruct Hin |].
  destruct (String.eqb_spec k name) as [-> | Hne]; [eauto |].
  destruct Hin as [Heq | Hin]; [contradiction | auto].
Qed.

(** A placeholder with a plain name, met in literal position. *)
Lemma format_go_placeholder kw out name rest :
  plain_name name = true ->
  format_go kw Literal out (String "{" (name +:+ String "}" rest))
  = match kwargs_get kw name with
    | Some v => format_go kw Literal (out +:+ py_str v) rest
    | None => Raise (KeyError name)
    end.
Proof.
  intros Hname.
  apply andb_prop in Hname as [Hdig Hchars]. apply negb_true_iff in Hdig.
  destruct name as [| c name].
  { discriminate. }
  pose proof Hchars as Hchars'.
  unfold name_chars in Hchars'. simpl in Hchars'.
  apply andb_prop in Hchars' as [Hc Hname]. fold (name_chars name) in Hname.
  apply negb_true_iff, orb_false_iff in Hc as [Hc Hsp].
  apply orb_false_iff in Hc as [Ho Hcl].
  rewrite append_cons. simpl format_go. rewrite Ho, Hcl, Hsp.
  rewrite (format_go_field _ _ _ _ _ _ Hname).
  change (("" +:+ String c "") +:+ name) with (String c name).
  unfold lookup_field. rewrite Hdig.
  destruct (kwargs_get kw (String c name)); reflexivity.
Qed.

(** A known prefix is consumed, whatever follows. *)
Lemma format_go_known_prefix kw pre :
  known_prefix (map fst kw) pre ->
  exists txt, forall out s,
    format_go kw Literal out (pre +:+ s) = format_go kw Literal (out +:+ txt) s.
Proof.
  induction 1 as [| lit pre Hlit _ (txt & IH) | pre _ (txt & IH)
                  | pre _ (txt & IH) | name pre Hname Hin _ (txt & IH)].
  - exists "". intros out s. now rewrite append_nil_l, append_nil_r.
  - exists (lit +:+ txt). intros out s.
    rewrite append_assoc, (format_go_plain_text _ _ _ _ Hlit), IH.
    now rewrite !append_assoc.
  - exists (String "{" txt). intros out s. rewrite !append_cons. simpl format_go.
    rewrite IH. now rewrite append_assoc.
  - exists (String "}" txt). intros out s. rewrite !append_cons. simpl format_go.
    rewrite IH. now rewrite append_assoc.
  - destruct (kwargs_get_Some kw name Hin) as (v & Hv).
    exists (py_str v +:+ txt). intros out s.
    rewrite append_cons, append_assoc, append_cons.
    rewrite (format_go_placeholder _ _ _ _ Hname), Hv, IH.
    now rewrite append_assoc.
Qed.

(** A template in which a placeholder with a plain name outside the
    keyword arguments follows a known prefix: [KeyError]. *)
Lemma format_unknown_placeholder kw pre name rest :
  known_prefix (map fst kw) pre -> plain_name name = true ->
  ~ In name (map fst kw) ->
  format (pre +:+ String "{" (name +:+ String "}" rest)) kw
  = Raise (KeyError name).
Proof.
  intros Hpre Hname Hnot. unfold format.
  destruct (format_go_known_prefix kw pre Hpre) as (txt & ->).
  rewrite (format_go_placeholder _ _ _ _ Hname).
  now rewrite (kwargs_get_None _ _ Hnot).
Qed.

End FormatFacts.

(** ** The offline check, block by block *)

Ltac step := erewrite bind_ok by reflexivity.
Ltac step_with H := rewrite (bind_ok _ _ _ _ _ H).

Section Offline.
Context `{PyLib} (config : SlackProcessorConfig) (e : env).

(** With a last-online timestamp that parses, the duration is the first
    reading of the clock minus that timestamp. *)
Lemma offline_duration_of_run last_online t w :
  truthy last_online = true ->
  parse_time last_online = Ok (Aware t) ->
  exists w1,
    offline_duration_of e last_online w = (Ok (Some (clock e (w_clock w) - t)), w1)
    /\ w_tags w1 = w_tags w /\ w_log w1 = w_log w /\ w_outbox w1 = w_outbox w
    /\ w_clock w1 = S (w_clock w) /\ w_api w1 = w_api w.
Proof.
  intros Htruthy Hparse. unfold offline_duration_of. rewrite Htruthy, Hparse.
  eexists. split; [reflexivity | easy].
Qed.

(** An offline device inside the debounce window: the check ends there. *)
Lemma offline_check_debounced connection_info t w :
  get_agent_connection e (w_api w) = Some connection_info ->
  eq_str (dict_get connection_info "determination") "online" = false ->
  truthy (dict_get connection_info "online_at") = true ->
  parse_time (dict_get connection_info "online_at") = Ok (Aware t) ->
  clock e (w_clock w) - t < offline_threshold_minutes config * 60000000 ->
  exists w1, _check_offline_status config e w = (Ok tt, w1)
    /\ w_tags w1 = w_tags w /\ w_log w1 = w_log w /\ w_outbox w1 = w_outbox w.
Proof.
  intros Hconn Honline Htruthy Hparse Hlt.
  unfold _check_offline_status. step. cbv beta iota. rewrite Hconn.
  cbv beta iota zeta. rewrite Honline.
  destruct (offline_duration_of_run _ _
              {| w_tags := w_tags w; w_log := w_log w; w_outbox := w_outbox w;
                 w_clock := w_clock w; w_api := S (w_api w) |} Htruthy Hparse)
    as (w1 & Hrun & Ht & Hl & Ho & _).
  step_with Hrun. simpl in *. unfold minutes_ltb.
  destruct (Z.ltb_spec (clock e (w_clock w) - t)
              (offline_threshold_minutes config * 60000000)); [| lia].
  exists w1. split; [reflexivity | easy].
Qed.

(** Past the threshold, the check goes on to [alert_or_remind]. *)
Lemma offline_check_past_threshold connection_info t w :
  get_agent_connection e (w_api w) = Some connection_info ->
  eq_str (dict_get connection_info "determination") "online" = false ->
  truthy (dict_get connection_info "online_at") = true ->
  parse_time (dict_get connection_info "online_at") = Ok (Aware t) ->
  offline_threshold_minutes config * 60000000 <= clock e (w_clock w) - t ->
  exists w1,
    _check_offline_status config e w
    = alert_or_remind config e (Some (clock e (w_clock w) - t)) w1
    /\ w_tags w1 = w_tags w /\ w_log w1 = w_log w /\ w_outbox w1 = w_outbox w
    /\ w_clock w1 = S (w_clock w).
Proof.
  intros Hconn Honline Htruthy Hparse Hge.
  unfold _check_offline_status. step. cbv beta iota. rewrite Hconn.
  cbv beta iota zeta. rewrite Honline.
  destruct (offline_duration_of_run _ _
              {| w_tags := w_tags w; w_log := w_log w; w_outbox := w_outbox w;
                 w_clock := w_clock w; w_api := S (w_api w) |} Htruthy Hparse)
    as (w1 & Hrun & Ht & Hl & Ho & Hc & _).
  step_with Hrun. simpl in *. unfold minutes_ltb.
  destruct (Z.ltb_spec (clock e (w_clock w) - t)
              (offline_threshold_minutes config * 60000000)); [lia |].
  exists w1. split; [reflexivity | easy].
Qed.

Lemma K_stat_offline_not_flag : ~ K_stat "offline_alerts_sent" "offline_alert_sent".
Proof. intros [Hk | Hk]; discriminate. Qed.

Lemma K_stat_offline_not_reminder :
  ~ K_stat "offline_alerts_sent" "last_offline_reminder".
Proof. intros [Hk | Hk]; discriminate. Qed.

(** Lines 154-162: the alert goes out once, then the two tags are
    written, the reminder time being a reading of the clock taken after
    the post. *)
Lemma send_offline_alert_run message w :
  str_set (slack_webhook_url config) = true ->
  exists w' p k,
    (_send_slack_message config e message "Device Offline Alert" "#ff0000" ;;
     set_tag "offline_alert_sent" (PBool true) ;;
     now ← datetime_now e;
     set_tag "last_offline_reminder" (PStr (isoformat now)) ;;
     _increment_stat e "offline_alerts_sent") w = (Ok tt, w')
    /\ w_outbox w' = w_outbox w ++ [p]
    /\ pc_title p = "Device Offline Alert" /\ pc_text p = message
    /\ w_tags w' !! "offline_alert_sent" = Some (PBool true)
    /\ w_tags w' !! "last_offline_reminder" = Some (PStr (isoformat (clock e k)))
    /\ (w_clock w <= k < w_clock w')%nat.
Proof.
  intros Hurl.
  destruct (_send_slack_message_ok config e message "Device Offline Alert"
              "#ff0000" w Hurl) as (w1 & p & Hrun1 & Hfr1 & Htitle & Htext & _).
  step_with Hrun1. step. step. step.
  match goal with
  | |- context [_increment_stat e "offline_alerts_sent" ?W] =>
      destruct (_increment_stat_ok e "offline_alerts_sent" W) as (w2 & Hrun2);
      destruct (from_touches _ _ _ _ _ _
                  (touches__increment_stat e (fun _ => False) "offline_alerts_sent")
                  Hrun2) as (ps & Hfr2 & Hps)
  end.
  destruct ps as [| q ps]; [| destruct (Hps q); now left].
  destruct Hfr1 as (Ho1 & _ & _ & Hc1 & _).
  destruct Hfr2 as (Ho2 & _ & Ht2 & Hc2 & _). simpl in *.
  exists w2, p, (w_clock w1). rewrite Hrun2. split; [reflexivity |].
  repeat split; auto.
  - rewrite Ho2, app_nil_r. exact Ho1.
  - rewrite (Ht2 _ K_stat_offline_not_flag).
    rewrite lookup_insert_ne by discriminate. apply lookup_insert_eq.
  - rewrite (Ht2 _ K_stat_offline_not_reminder). apply lookup_insert_eq.
Qed.

(** No alert has been sent yet: the first alert goes out. *)
Lemma alert_or_remind_first offline_duration w :
  str_set (slack_webhook_url config) = true ->
  truthy (default (PBool false) (w_tags w !! "offline_alert_sent")) = false ->
  exists w' p name k,
    alert_or_remind config e offline_duration w = (Ok tt, w')
    /\ w_outbox w' = w_outbox w ++ [p]
    /\ pc_title p = "Device Offline Alert"
    /\ pc_text p = "Device *" +:+ name +:+ "* has gone offline"
    /\ w_tags w' !! "offline_alert_sent" = Some (PBool true)
    /\ w_tags w' !! "last_offline_reminder" = Some (PStr (isoformat (clock e k)))
    /\ (w_clock w <= k < w_clock w')%nat.
Proof.
  intros Hurl Hflag. unfold alert_or_remind. step. step.
  match goal with
  | |- context [(_get_device_name config e ≫= _) ?W] =>
      destruct (_get_device_name_ok config e W)
        as (name & w1 & Hrun1 & Ht1 & Hl1 & Ho1 & Hc1)
  end.
  step_with Hrun1. unfold offline_message. simpl in *. rewrite Hflag. simpl.
  step.
  destruct (send_offline_alert_run
              ("Device *" +:+ py_str name +:+ "* has gone offline") w1 Hurl)
    as (w2 & p & k & Hrun2 & Ho2 & Htitle & Htext & Hf & Hr & Hk).
  exists w2, p, (py_str name), k. split; [exact Hrun2 |].
  repeat split; auto; try lia.
  now rewrite Ho2, Ho1.
Qed.

Lemma quiet {A} K (m : M A) w :
  touches K (fun _ => False) m -> frame K [] w (m w).2.
Proof.
  intros Hm. destruct (Hm w) as (ps & Hfr & Hps).
  destruct ps as [| q ps]; [exact Hfr | destruct (Hps q); now left].
Qed.

Lemma touches_offline_message K T d alert_sent last_reminder name :
  touches K T (offline_message config e d alert_sent last_reminder name).
Proof.
  unfold offline_message. destruct (negb _); [apply touches_ret |].
  destruct (_ && _); [| apply touches_ret].
  apply touches_bind; [apply touches_lift | intros dt].
  apply touches_bind; [apply touches_datetime_now | intros now].
  apply touches_bind; [apply touches_lift | intros since].
  destruct (minutes_geb _ _); apply touches_ret.
Qed.

Lemma reminder_due_dec last_reminder now :
  reminder_due config last_reminder now \/ ~ reminder_due config last_reminder now.
Proof.
  unfold reminder_due.
  destruct (Z.ltb_spec 0 (offline_reminder_interval_minutes config)); [| right; lia].
  destruct (truthy last_reminder); [| right; now intros (_ & ? & _)].
  destruct (parse_time last_reminder) as [[t | t] | err].
  - destruct (Z.leb_spec (offline_reminder_interval_minutes config * 60000000)
                (now - t)).
    + left. eauto.
    + right. intros (_ & _ & t' & Ht & Hle). inversion Ht; subst. lia.
  - right. now intros (_ & _ & t' & Ht & _).
  - right. now intros (_ & _ & t' & Ht & _).
Qed.

(** The message of a reminder that is due. *)
Lemma offline_message_due d alert_sent last_reminder name w :
  truthy alert_sent = true ->
  reminder_due config last_reminder (clock e (w_clock w)) ->
  exists w' mins,
    offline_message config e d alert_sent last_reminder name w
    = (Ok (Some ("Device *" +:+ py_str name +:+ "* is still offline (duration: "
                 +:+ mins +:+ " minutes)")), w')
    /\ w_tags w' = w_tags w /\ w_log w' = w_log w /\ w_outbox w' = w_outbox w
    /\ w_clock w' = S (w_clock w).
Proof.
  intros Hsent (Hpos & Hlast & t & Hparse & Hge).
  unfold offline_message. rewrite Hsent, Hlast. simpl.
  destruct (Z.ltb_spec 0 (offline_reminder_interval_minutes config)); [| lia].
  simpl. rewrite Hparse. unfold mbind, M_bind, lift, datetime_now, dt_sub. simpl.
  unfold minutes_geb.
  destruct (Z.leb_spec (offline_reminder_interval_minutes config * 60000000)
              (clock e (w_clock w) - t)); [| lia].
  eexists. eexists. split; [reflexivity | easy].
Qed.

(** No message when the alert has been sent and no reminder is due. *)
Lemma offline_message_not_due d alert_sent last_reminder name w :
  truthy alert_sent = true ->
  ~ reminder_due config last_reminder (clock e (w_clock w)) ->
  forall message,
    (offline_message config e d alert_sent last_reminder name w).1
    <> Ok (Some message).
Proof.
  intros Hsent Hnot message. unfold offline_message, reminder_due in *.
  rewrite Hsent. simpl.
  destruct (Z.ltb_spec 0 (offline_reminder_interval_minutes config));
    [| simpl; discriminate].
  destruct (truthy last_reminder); [| simpl; discriminate]. simpl.
  unfold mbind, M_bind, lift, datetime_now.
  destruct (parse_time last_reminder) as [[t | t] | err];
    simpl; try discriminate.
  unfold minutes_geb.
  destruct (Z.leb_spec (offline_reminder_interval_minutes config * 60000000)
              (clock e (w_clock w) - t)); simpl; [| discriminate].
  exfalso. apply Hnot. eauto.
Qed.

(** The alert was sent and no reminder is due: nothing is posted and the
    store is not written. *)
Lemma alert_or_remind_not_due d w :
  truthy (default (PBool false) (w_tags w !! "offline_alert_sent")) = true ->
  ~ reminder_due config (default PNone (w_tags w !! "last_offline_reminder"))
      (clock e (w_clock w)) ->
  frame (fun _ => False) [] w (alert_or_remind config e d w).2.
Proof.
  intros Hsent Hnot. unfold alert_or_remind. step. step.
  match goal with
  | |- context [(_get_device_name config e ≫= _) ?W] =>
      destruct (_get_device_name_ok config e W)
        as (name & w1 & Hrun1 & Ht1 & Hl1 & Ho1 & Hc1);
      pose proof (quiet (fun _ => False) (_get_device_name config e) W
                    (touches__get_device_name config e _ _)) as Hfr1;
      pose proof (quiet (fun _ => False) (get_tag "offline_alert_sent" (PBool false)) w
                    (touches_get_tag _ _ _ _)) as Hfr0;
      pose proof (quiet (fun _ => False) (get_tag "last_offline_reminder" PNone)
                    (get_tag "offline_alert_sent" (PBool false) w).2
                    (touches_get_tag _ _ _ _)) as Hfr0'
  end.
  step_with Hrun1. rewrite Hrun1 in Hfr1. simpl in *.
  pose proof (frame_then _ _ _ _ _ Hfr0 (frame_then _ _ _ _ _ Hfr0' Hfr1)) as Hpre.
  pose proof (quiet (fun _ => False)
                (offline_message config e d
                   (default (PBool false) (w_tags w !! "offline_alert_sent"))
                   (default PNone (w_tags w !! "last_offline_reminder")) name) w1
                (touches_offline_message _ _ _ _ _ _)) as Hmsg.
  assert (Hno := offline_message_not_due d
                   (default (PBool false) (w_tags w !! "offline_alert_sent"))
                   (default PNone (w_tags w !! "last_offline_reminder")) name w1 Hsent).
  rewrite Hc1 in Hno. specialize (Hno Hnot).
  unfold mbind at 1. unfold M_bind.
  destruct (offline_message _ _ _ _ _ _ w1) as [[[message |] | err] w2]; simpl in *.
  - now destruct (Hno message).
  - eapply frame_then; eauto.
  - eapply frame_then; eauto.
Qed.

(** The alert was sent and a reminder is due: it goes out. *)
Lemma alert_or_remind_due d w :
  str_set (slack_webhook_url config) = true ->
  truthy (default (PBool false) (w_tags w !! "offline_alert_sent")) = true ->
  reminder_due config (default PNone (w_tags w !! "last_offline_reminder"))
    (clock e (w_clock w)) ->
  exists w' p name mins k,
    alert_or_remind config e d w = (Ok tt, w')
    /\ w_outbox w' = w_outbox w ++ [p]
    /\ pc_title p = "Device Offline Alert"
    /\ pc_text p = "Device *" +:+ name +:+ "* is still offline (duration: "
                   +:+ mins +:+ " minutes)"
    /\ w_tags w' !! "offline_alert_sent" = Some (PBool true)
    /\ w_tags w' !! "last_offline_reminder" = Some (PStr (isoformat (clock e k)))
    /\ (w_clock w < k < w_clock w')%nat.
Proof.
  intros Hurl Hsent Hdue. unfold alert_or_remind. step. step.
  match goal with
  | |- context [(_get_device_name config e ≫= _) ?W] =>
      destruct (_get_device_name_ok config e W)
        as (name & w1 & Hrun1 & Ht1 & Hl1 & Ho1 & Hc1)
  end.
  step_with Hrun1. simpl in *. rewrite <- Hc1 in Hdue.
  destruct (offline_message_due d _ _ name w1 Hsent Hdue)
    as (w2 & mins & Hrun2 & Ht2 & Hl2 & Ho2 & Hc2).
  step_with Hrun2.
  destruct (send_offline_alert_run
              ("Device *" +:+ py_str name +:+ "* is still offline (duration: "
               +:+ mins +:+ " minutes)") w2 Hurl)
    as (w3 & p & k & Hrun3 & Ho3 & Htitle & Htext & Hf & Hr & Hk).
  exists w3, p, (py_str name), mins, k. split; [exact Hrun3 |].
  repeat split; auto; try lia.
  now rewrite Ho3, Ho2, Ho1.
Qed.

Lemma touches_offline_duration_of K T last_online :
  touches K T (offline_duration_of e last_online).
Proof.
  unfold offline_duration_of. destruct (truthy last_online); [| apply touches_ret].
  apply touches_bind; [apply touches_lift | intros dt].
  apply touches_bind; [apply touches_datetime_now | intros now].
  apply touches_bind; [apply touches_lift | intros d']. apply touches_ret.
Qed.

(** A device that is not online, whose alert was sent, with reminders
    off: the offline check posts nothing and writes nothing. *)
Lemma offline_check_reminders_off w :
  offline_reminder_interval_minutes config <= 0 ->
  truthy (default (PBool false) (w_tags w !! "offline_alert_sent")) = true ->
  (forall n info, get_agent_connection e n = Some info ->
     eq_str (dict_get info "determination") "online" = false) ->
  frame (fun _ => False) [] w (_check_offline_status config e w).2.
Proof.
  intros Hoff Hsent Hconn. unfold _check_offline_status.
  pose proof (quiet (fun _ => False) (api_call (get_agent_connection e)) w
                (touches_api_call _ _ _)) as Hfr0.
  step. cbv beta iota.
  destruct (get_agent_connection e (w_api w)) as [info |] eqn:Hinfo;
    [| exact Hfr0].
  cbv beta iota zeta. rewrite (Hconn _ _ Hinfo).
  match goal with
  | |- context [(offline_duration_of e ?v ≫= _) ?W] =>
      pose proof (quiet (fun _ => False) (offline_duration_of e v) W
                    (touches_offline_duration_of _ _ _)) as Hfr1
  end.
  unfold mbind at 1. unfold M_bind.
  destruct (offline_duration_of e _ _) as [[d | err] w1]; simpl in Hfr1 |- *.
  - assert (Hw1 : frame (fun _ => False) [] w w1)
      by (eapply frame_then; [exact Hfr0 | exact Hfr1]).
    destruct (match d with Some d0 => _ | None => false end); [exact Hw1 |].
    eapply frame_then; [exact Hw1 |].
    destruct Hw1 as (_ & _ & Htags & _).
    apply alert_or_remind_not_due.
    + rewrite Htags by auto. exact Hsent.
    + intros (Hpos & _). lia.
  - eapply frame_then; [exact Hfr0 | exact Hfr1].
Qed.

(** The tick of such a device: no offline alert, and the flag stays. *)
Lemma tick_reminders_off w :
  offline_reminder_interval_minutes config <= 0 ->
  truthy (default (PBool false) (w_tags w !! "offline_alert_sent")) = true ->
  (forall n info, get_agent_connection e n = Some info ->
     eq_str (dict_get info "determination") "online" = false) ->
  exists posts,
    w_outbox (on_schedule config e w).2 = w_outbox w ++ posts
    /\ (forall p, In p posts -> pc_title p <> "Device Offline Alert")
    /\ w_tags (on_schedule config e w).2 !! "offline_alert_sent"
       = w_tags w !! "offline_alert_sent".
Proof.
  intros Hoff Hsent Hconn. unfold on_schedule.
  destruct (negb _).
  { exists []. simpl. now rewrite app_nil_r. }
  assert (Hchk : frame (fun _ => False) [] w
            ((if offline_alerts_enabled config then _check_offline_status config e
              else mret tt) w).2).
  { destruct (offline_alerts_enabled config);
      [now apply offline_check_reminders_off | apply frame_refl]. }
  unfold mbind, M_bind.
  destruct ((if offline_alerts_enabled config then _check_offline_status config e
             else mret tt) w) as [[[] | err] w1]; simpl in Hchk |- *.
  - destruct (touches_threshold_part config e w1)
      as (ps & (Hout & _ & Htags & _) & HT).
    destruct Hchk as (Ho & _ & Ht & _).
    exists ps. repeat split.
    + rewrite Hout, Ho. now rewrite app_nil_r.
    + intros p Hin. apply T_threshold_not_offline. auto.
    + rewrite (Htags _ K_threshold_not_offline_flag). now apply Ht.
  - destruct Hchk as (Ho & _ & Ht & _).
    exists []. repeat split; auto.
Qed.

End Offline.

(** ** The threshold check, block by block *)

Section Threshold.
Context `{PyLib} (config : SlackProcessorConfig) (e : env).

Lemma in_cooldown_cooled key cooldown now w :
  cooled_down (default PNone (w_tags w !! key)) cooldown now ->
  exists w', in_cooldown key cooldown now w = (Ok false, w')
    /\ w_tags w' = w_tags w /\ w_outbox w' = w_outbox w
    /\ w_log w' = w_log w ++ [Get key].
Proof.
  intros Hcool. unfold in_cooldown. step. simpl.
  destruct Hcool as [-> | (t & Hparse & Hge)].
  - eexists. split; [reflexivity | easy].
  - destruct (truthy _); [| eexists; split; [reflexivity | easy]].
    rewrite Hparse. unfold mbind, M_bind, lift, dt_sub, minutes_ltb. simpl.
    destruct (Z.ltb_spec (now - t) (cooldown * 60000000)); [lia |].
    eexists. split; [reflexivity | easy].
Qed.

Lemma in_cooldown_cooling key cooldown now w :
  cooling (default PNone (w_tags w !! key)) cooldown now ->
  exists w', in_cooldown key cooldown now w = (Ok true, w')
    /\ w_tags w' = w_tags w /\ w_outbox w' = w_outbox w
    /\ w_log w' = w_log w ++ [Get key].
Proof.
  intros (Hset & t & Hparse & Hlt). unfold in_cooldown. step. simpl.
  rewrite Hset, Hparse. unfold mbind, M_bind, lift, dt_sub, minutes_ltb. simpl.
  destruct (Z.ltb_spec (now - t) (cooldown * 60000000)); [| lia].
  eexists. split; [reflexivity | easy].
Qed.

Lemma K_stat_threshold_not_cooldown tag :
  ~ K_stat "threshold_alerts_sent" ("threshold_cooldown_" +:+ tag).
Proof. intros [Hk | Hk]; simpl in Hk; discriminate. Qed.

Lemma K_error_not_cooldown tag : ~ K_error ("threshold_cooldown_" +:+ tag).
Proof. intros [Hk | Hk]; simpl in Hk; discriminate. Qed.

(** Lines 220-232: when the template formats, the alert goes out once and
    the cooldown tag takes the time of the tick. *)
Lemma threshold_alert_run template tag value name now limit title color message w :
  str_set (slack_webhook_url config) = true ->
  format template [("tag", PStr tag); ("value", PFloat value);
                   ("limit", PStr limit); ("device", name)] = Ok message ->
  exists w' p,
    threshold_alert config e template tag ("threshold_cooldown_" +:+ tag)
      value name now limit title color w = (Ok tt, w')
    /\ w_outbox w' = w_outbox w ++ [p]
    /\ pc_title p = title /\ pc_text p = message /\ pc_color p = color
    /\ w_tags w' !! ("threshold_cooldown_" +:+ tag) = Some (PStr (isoformat now)).
Proof.
  intros Hurl Hfmt. unfold threshold_alert. rewrite Hfmt. step.
  destruct (_send_slack_message_ok config e message title color w Hurl)
    as (w1 & p & Hrun1 & Hfr1 & Hp).
  step_with Hrun1. step.
  match goal with
  | |- context [_increment_stat e "threshold_alerts_sent" ?W] =>
      destruct (_increment_stat_ok e "threshold_alerts_sent" W) as (w2 & Hrun2);
      destruct (from_touches _ _ _ _ _ _
                  (touches__increment_stat e (fun _ => False) "threshold_alerts_sent")
                  Hrun2) as (ps & Hfr2 & Hps)
  end.
  destruct ps as [| q ps]; [| destruct (Hps q); now left].
  destruct Hfr1 as (Ho1 & _).
  destruct Hfr2 as (Ho2 & _ & Ht2 & _). simpl in Ho2, Ht2.
  exists w2, p. split; [exact Hrun2 |]. split; [| split; [| split; [| split]]];
    try apply Hp.
  - rewrite Ho2, app_nil_r. exact Ho1.
  - rewrite (Ht2 _ (K_stat_threshold_not_cooldown tag)). apply lookup_insert_eq.
Qed.

(** A rule with a tag that has a numeric value comes down to
    [check_limits]. *)
Lemma threshold_rule_numeric tag_values name now rule tag raw value w :
  tag_name rule = Some tag -> tag <> "" ->
  tag_values !! tag = Some raw -> raw <> PNone ->
  py_float raw = Ok value ->
  threshold_rule config e tag_values name now rule w
  = check_limits config e rule tag value name now w.
Proof.
  intros Htag Hne Hraw Hnone Hfloat. unfold threshold_rule. rewrite Htag.
  destruct (String.eqb_spec tag ""); [contradiction |].
  unfold dict_get. rewrite Hraw.
  change (default PNone (Some raw)) with raw.
  destruct raw; try contradiction; now rewrite Hfloat.
Qed.

End Threshold.

(** ** Writes of one key *)

Lemma sets_of_app key ops ops' :
  sets_of key (ops ++ ops') = sets_of key ops ++ sets_of key ops'.
Proof. unfold sets_of. apply flat_map_app. Qed.

Lemma writes_refl key w : writes key [] w w.
Proof.
  split; [| reflexivity]. exists []. split; [now rewrite app_nil_r | reflexivity].
Qed.

Lemma writes_trans key vs vs' w w' w'' :
  writes key vs w w' -> writes key vs' w' w'' -> writes key (vs ++ vs') w w''.
Proof.
  intros ((ops & Hl & Hs) & Ht) ((ops' & Hl' & Hs') & Ht'). split.
  - exists (ops ++ ops'). split.
    + rewrite Hl', Hl. now rewrite app_assoc.
    + rewrite sets_of_app. now rewrite Hs, Hs'.
  - rewrite Ht'. rewrite last_app. destruct (last vs'); [reflexivity | exact Ht].
Qed.

Lemma writes_nil_then key vs w w' w'' :
  writes key [] w w' -> writes key vs w' w'' -> writes key vs w w''.
Proof. intros H1 H2. exact (writes_trans key [] vs w w' w'' H1 H2). Qed.

Lemma frame_writes K ps key w w' :
  frame K ps w w' -> ~ K key -> writes key [] w w'.
Proof.
  intros (_ & (ops & Hl & Hk) & Ht & _) Hnot. split; [| now apply Ht].
  exists ops. split; [exact Hl |].
  clear Hl. induction ops as [| op ops IH]; [reflexivity |].
  simpl. rewrite IH by (intros k v Hin; apply (Hk k v); now right).
  destruct op as [k | k v]; [reflexivity |].
  destruct (String.eqb_spec k key) as [-> | Hne]; [| reflexivity].
  exfalso. apply Hnot. apply (Hk key v). now left.
Qed.

Lemma touches_writes {A} K T (m : M A) key w :
  touches K T m -> ~ K key -> writes key [] w (m w).2.
Proof.
  intros Hm Hnot. destruct (Hm w) as (ps & Hfr & _).
  eapply frame_writes; eauto.
Qed.

Lemma cooldown_key_inj tag tag' :
  "threshold_cooldown_" +:+ tag' = "threshold_cooldown_" +:+ tag -> tag' = tag.
Proof. intros Heq. cbv [String.append] in Heq. congruence. Qed.

Lemma K_rule_other tag tag' :
  tag' <> tag -> ~ K_rule tag' ("threshold_cooldown_" +:+ tag).
Proof.
  intros Hne [[Hk | Hk] | [[Hk | Hk] | Hk]]; simpl in Hk; try discriminate.
  apply Hne. symmetry. now apply cooldown_key_inj.
Qed.

(** ** The cooldown of one tag over a tick *)

Section Cooldown.
Context `{PyLib} (config : SlackProcessorConfig) (e : env) (tag : string).

Local Abbreviation key := ("threshold_cooldown_" +:+ tag).

Lemma _send_slack_message_returns text title color w :
  exists w', _send_slack_message config e text title color w = (Ok tt, w').
Proof.
  unfold _send_slack_message.
  destruct (slack_webhook_url config) as [url |]; [| now exists w].
  destruct (String.eqb url ""); [now exists w |].
  unfold mbind, M_bind, datetime_now, post. simpl.
  destruct (requests_post e (length (w_outbox w))) as [code body | | msg];
    [destruct (code =? 200) | |]; eexists; reflexivity.
Qed.

(** An alert of a rule on [tag] writes the time of the tick to the
    cooldown tag once, unless the template fails. *)
Lemma threshold_alert_writes template value name now limit title color w :
  exists vs,
    writes key vs w
      (threshold_alert config e template tag key value name now limit
         title color w).2
    /\ (vs = [] \/ vs = [PStr (isoformat now)]).
Proof.
  unfold threshold_alert.
  destruct (format template _) as [message | err].
  - step.
    destruct (_send_slack_message_returns message title color w) as (w1 & Hrun1).
    pose proof (touches_writes _ _ _ key w
                  (touches__send_slack_message config e (fun _ => True)
                     message title color I)
                  (K_error_not_cooldown tag)) as Hw1.
    rewrite Hrun1 in Hw1. step_with Hrun1. step.
    exists [PStr (isoformat now)]. split; [| now right].
    eapply writes_nil_then; [exact Hw1 |].
    match goal with
    | |- writes _ _ _ (_increment_stat e ?s ?W).2 =>
        pose proof (touches_writes _ _ _ key W
                      (touches__increment_stat e (fun _ => True) s)
                      (K_stat_threshold_not_cooldown tag)) as Hw2
    end.
    eapply (writes_trans key [_] []); [| exact Hw2].
    split; simpl.
    + exists [Set_ key (PStr (isoformat now))]. split; [reflexivity |].
      simpl. now rewrite String.eqb_refl.
    + apply lookup_insert_eq.
  - exists []. split; [apply writes_refl | now left].
Qed.

Lemma check_limits_writes rule tag' value name now w :
  exists vs,
    writes key vs w (check_limits config e rule tag' value name now w).2
    /\ (vs = [] \/ vs = [PStr (isoformat now)])
    /\ (tag' <> tag -> vs = [])
    /\ (cooling (default PNone (w_tags w !! key))
          (default 15 (cooldown_minutes rule)) now -> vs = []).
Proof.
  destruct (String.eqb_spec tag' tag) as [-> | Hne].
  - unfold check_limits. cbv zeta.
    pose proof (touches_writes _ _ _ key w
                  (touches_in_cooldown (fun _ => False) (fun _ => True) key
                     (default 15 (cooldown_minutes rule)) now)
                  (fun F => F)) as Hw1.
    assert (Hcase :
      (cooling (default PNone (w_tags w !! key))
         (default 15 (cooldown_minutes rule)) now ->
       (in_cooldown key (default 15 (cooldown_minutes rule)) now w).1 = Ok true)).
    { intros Hc. destruct (in_cooldown_cooling _ _ _ w Hc) as (w1 & Hrun & _).
      now rewrite Hrun. }
    unfold mbind at 1. unfold M_bind.
    destruct (in_cooldown key _ now w) as [[skip | err] w1]; simpl in Hw1, Hcase.
    + destruct skip.
      * exists []. split; [exact Hw1 | repeat split; auto].
      * assert (Hgo : exists vs,
                  writes key vs w1
                    (match crossed (upper_limit rule) (value_gt value) with
                     | Some upper =>
                         threshold_alert config e
                           (default default_alert_message (alert_message rule))
                           tag key value name now
                           (">" +:+ py_str (val_of_num upper))
                           "Threshold Alert: High Value" "#ff9900"
                     | None =>
                         match crossed (lower_limit rule) (value_lt value) with
                         | Some lower =>
                             threshold_alert config e
                               (default default_alert_message (alert_message rule))
                               tag key value name now
                               ("<" +:+ py_str (val_of_num lower))
                               "Threshold Alert: Low Value" "#0066ff"
                         | None => mret tt
                         end
                     end w1).2
                  /\ (vs = [] \/ vs = [PStr (isoformat now)])).
        { destruct (crossed _ _); [apply threshold_alert_writes |].
          destruct (crossed _ _); [apply threshold_alert_writes |].
          exists []. split; [apply writes_refl | now left]. }
        destruct Hgo as (vs & Hw & Hvs).
        exists vs. split; [eapply writes_nil_then; eauto |].
        split; [exact Hvs |]. split; [congruence |].
        intros Hc. specialize (Hcase Hc). discriminate.
    + exists []. split; [exact Hw1 | repeat split; auto].
  - exists []. split; [| repeat split; auto].
    eapply touches_writes; [apply touches_check_limits | now apply K_rule_other].
Qed.

Lemma threshold_rule_writes tag_values name now rule w :
  exists vs,
    writes key vs w (threshold_rule config e tag_values name now rule w).2
    /\ (vs = [] \/ vs = [PStr (isoformat now)])
    /\ (tag_name rule <> Some tag -> vs = [])
    /\ (cooling (default PNone (w_tags w !! key))
          (default 15 (cooldown_minutes rule)) now -> vs = []).
Proof.
  assert (Hskip : exists vs, writes key vs w w
            /\ (vs = [] \/ vs = [PStr (isoformat now)])
            /\ (tag_name rule <> Some tag -> vs = [])
            /\ (cooling (default PNone (w_tags w !! key))
                  (default 15 (cooldown_minutes rule)) now -> vs = [])).
  { exists []. split; [apply writes_refl | repeat split; auto]. }
  unfold threshold_rule.
  destruct (tag_name rule) as [tag' |]; [| exact Hskip].
  destruct (String.eqb tag' ""); [exact Hskip |].
  assert (Hgo : forall raw, exists vs,
            writes key vs w
              (match py_float raw with
               | Ok value => check_limits config e rule tag' value name now
               | Raise TypeError | Raise ValueError => mret tt
               | Raise err => lift (Raise err)
               end w).2
            /\ (vs = [] \/ vs = [PStr (isoformat now)])
            /\ (Some tag' <> Some tag -> vs = [])
            /\ (cooling (default PNone (w_tags w !! key))
                  (default 15 (cooldown_minutes rule)) now -> vs = [])).
  { intros raw. destruct (py_float raw) as [value | err].
    - destruct (check_limits_writes rule tag' value name now w)
        as (vs & Hw & Hvs & Hother & Hcool).
      exists vs. split; [exact Hw |]. split; [exact Hvs |].
      split; [| exact Hcool]. intros Hne. apply Hother. congruence.
    - destruct err; exact Hskip. }
  destruct (dict_get tag_values tag'); first [exact Hskip | apply Hgo].
Qed.

(** The loop: the cooldown tag is written at most once, and not at all
    when the tag is in the cooldown period of every rule on it. *)
Lemma for_each_rule_writes tag_values name now rules :
  truthy (PStr (isoformat now)) = true ->
  parse_time (PStr (isoformat now)) = Ok (Aware now) ->
  (forall rule, In rule rules -> tag_name rule = Some tag ->
     0 < default 15 (cooldown_minutes rule)) ->
  forall w, exists vs,
    writes key vs w
      (for_each (threshold_rule config e tag_values name now) rules w).2
    /\ (vs = [] \/ vs = [PStr (isoformat now)])
    /\ ((forall rule, In rule rules -> tag_name rule = Some tag ->
           cooling (default PNone (w_tags w !! key))
             (default 15 (cooldown_minutes rule)) now) -> vs = []).
Proof.
  intros Hset Hparse. induction rules as [| rule rules IH]; intros Hpos w.
  - exists []. split; [apply writes_refl | auto].
  - destruct (threshold_rule_writes tag_values name now rule w)
      as (vs1 & Hw1 & Hvs1 & Hother & Hcool).
    assert (Hall : (forall r, In r (rule :: rules) -> tag_name r = Some tag ->
                      cooling (default PNone (w_tags w !! key))
                        (default 15 (cooldown_minutes r)) now) -> vs1 = []).
    { intros Hc.
      destruct (option_eq_dec (tag_name rule) (Some tag)) as [Heq | Hne];
        [| now apply Hother].
      apply Hcool. apply Hc; [now left | exact Heq]. }
    simpl. unfold mbind, M_bind.
    destruct (threshold_rule config e tag_values name now rule w)
      as [[[] | err] w1]; simpl in Hw1; [| exists vs1; auto].
    destruct (IH (fun r Hin => Hpos r (or_intror Hin)) w1)
      as (vs2 & Hw2 & Hvs2 & Hcool2).
    destruct Hvs1 as [-> | ->].
    + exists vs2. split; [eapply writes_nil_then; eauto |].
      split; [exact Hvs2 |]. intros Hc. apply Hcool2.
      intros r Hin Htag. destruct Hw1 as (_ & Ht1). simpl in Ht1. rewrite Ht1.
      apply Hc; [now right | exact Htag].
    + assert (vs2 = []) as ->.
      { apply Hcool2. intros r Hin Htag.
        destruct Hw1 as (_ & Ht1). simpl in Ht1. rewrite Ht1. simpl.
        split; [exact Hset |]. exists now. split; [exact Hparse |].
        specialize (Hpos r (or_intror Hin) Htag). lia. }
      exists [PStr (isoformat now)]. split.
      * exact (writes_trans key [_] [] w w1 _ Hw1 Hw2).
      * split; [now right |]. intros Hc. now apply Hall.
Qed.

Lemma touches__check_offline_status :
  touches K_offline T_offline (_check_offline_status config e).
Proof.
  unfold _check_offline_status.
  apply touches_bind; [apply touches_api_call | intros [info |]];
    [| apply touches_ret].
  cbv zeta. destruct (eq_str _ _).
  { apply touches_bind; [| intros _]; apply touches_set_tag.
    - right. right. now left.
    - right. right. now right. }
  apply touches_bind; [apply touches_offline_duration_of | intros d].
  destruct (match d with Some d0 => _ | None => false end); [apply touches_ret |].
  unfold alert_or_remind.
  apply touches_bind; [apply touches_get_tag | intros alert_sent].
  apply touches_bind; [apply touches_get_tag | intros last_reminder].
  apply touches_bind; [apply touches__get_device_name | intros name].
  apply touches_bind; [apply touches_offline_message | intros [message |]];
    [| apply touches_ret].
  apply touches_bind.
  { eapply touches_weaken;
      [| | apply (touches__send_slack_message config e T_offline)];
      [intros k Hk; now left | auto | reflexivity]. }
  intros _. apply touches_bind.
  { apply touches_set_tag. right. right. now left. }
  intros _. apply touches_bind; [apply touches_datetime_now | intros now].
  apply touches_bind.
  { apply touches_set_tag. right. right. now right. }
  intros _. eapply touches_weaken; [| | apply (touches__increment_stat e T_offline)];
    [intros k Hk; right; now left | auto].
Qed.

Lemma writes_same_store vs a b c :
  w_log a = w_log b -> w_tags a = w_tags b ->
  writes key vs a c -> writes key vs b c.
Proof. unfold writes. intros -> ->. auto. Qed.

(** One tick: the cooldown tag of [tag] is written at most once, with a
    reading of the clock, and not at all when the tag is in the cooldown
    period of every rule on it. *)
Lemma on_schedule_writes w :
  (forall n, truthy (PStr (isoformat (clock e n))) = true
             /\ parse_time (PStr (isoformat (clock e n))) = Ok (Aware (clock e n))) ->
  (forall rule, In rule (tag_thresholds config) -> tag_name rule = Some tag ->
     0 < default 15 (cooldown_minutes rule)) ->
  exists vs,
    writes key vs w (on_schedule config e w).2
    /\ (vs = [] \/ exists n, vs = [PStr (isoformat (clock e n))])
    /\ ((forall n rule, In rule (tag_thresholds config) ->
           tag_name rule = Some tag ->
           cooling (default PNone (w_tags w !! key))
             (default 15 (cooldown_minutes rule)) (clock e n)) -> vs = []).
Proof.
  intros Hrt Hpos.
  assert (Hnone : forall w', writes key [] w w' -> exists vs,
            writes key vs w w'
            /\ (vs = [] \/ exists n, vs = [PStr (isoformat (clock e n))])
            /\ ((forall n rule, In rule (tag_thresholds config) ->
                   tag_name rule = Some tag ->
                   cooling (default PNone (w_tags w !! key))
                     (default 15 (cooldown_minutes rule)) (clock e n)) -> vs = [])).
  { intros w' Hw. exists []. auto. }
  unfold on_schedule. destruct (negb _); [apply Hnone, writes_refl |].
  pose proof (touches_writes K_offline T_offline
                (if offline_alerts_enabled config
                 then _check_offline_status config e else mret tt) key w) as Hw1.
  unfold mbind, M_bind.
  destruct ((if offline_alerts_enabled config then _check_offline_status config e
             else mret tt) w) as [[[] | err] w1]; simpl in Hw1 |- *.
  2:{ apply Hnone, Hw1; [| apply K_offline_not_cooldown].
      destruct (offline_alerts_enabled config);
        [apply touches__check_offline_status | apply touches_ret]. }
  assert (Hw1' : writes key [] w w1).
  { apply Hw1; [| apply K_offline_not_cooldown].
    destruct (offline_alerts_enabled config);
      [apply touches__check_offline_status | apply touches_ret]. }
  clear Hw1.
  destruct (threshold_alerts_enabled config); [| apply Hnone, Hw1'].
  unfold _check_tag_thresholds.
  destruct (tag_thresholds config) as [| r rs]; [apply Hnone, Hw1' |].
  step. cbv beta iota.
  destruct (get_aggregate e (w_api w1)) as [tag_values |];
    [| apply Hnone; eapply writes_same_store; [| | exact Hw1']; reflexivity].
  match goal with
  | |- context [(_get_device_name config e ≫= _) ?W] =>
      destruct (_get_device_name_ok config e W)
        as (name & w2 & Hrun2 & Ht2 & Hl2 & Ho2 & Hc2)
  end.
  step_with Hrun2. step. simpl in Ht2, Hl2.
  destruct (Hrt (w_clock w2)) as (Hset & Hparse).
  match goal with
  | |- context [for_each _ _ ?W] =>
      destruct (for_each_rule_writes tag_values name (clock e (w_clock w2))
                  (r :: rs) Hset Hparse Hpos W)
        as (vs & Hw & Hvs & Hcool)
  end.
  exists vs. split; [| split].
  - eapply writes_nil_then; [exact Hw1' |].
    eapply writes_same_store; [| | exact Hw]; simpl; congruence.
  - destruct Hvs as [-> | ->]; [now left | right; eauto].
  - intros Hc. apply Hcool. intros rule Hin Htag. simpl. rewrite Ht2.
    destruct Hw1' as (_ & Ht1). simpl in Ht1. rewrite Ht1. now apply Hc.
Qed.

End Cooldown.

(** Ticks of a device that stays offline, with reminders off, after its
    alert: no further offline alert. *)
Lemma run_ticks_reminders_off `{PyLib} (config : SlackProcessorConfig)
    (es : list env) (w : world) :
  offline_reminder_interval_minutes config <= 0 ->
  truthy (default (PBool false) (w_tags w !! "offline_alert_sent")) = true ->
  (forall e, In e es -> forall n info, get_agent_connection e n = Some info ->
     eq_str (dict_get info "determination") "online" = false) ->
  exists posts,
    w_outbox (run_ticks config es w) = w_outbox w ++ posts
    /\ forall p, In p posts -> pc_title p <> "Device Offline Alert".
Proof.
  intros Hoff. revert w. induction es as [| e es IH]; intros w Hsent Hconn; simpl.
  - exists []. split; [now rewrite app_nil_r | intros p []].
  - destruct (tick_reminders_off config e w Hoff Hsent) as (ps & Hout & Hps & Hflag).
    { intros n info. apply Hconn. now left. }
    destruct (IH (on_schedule config e w).2) as (ps' & Hout' & Hps').
    { now rewrite Hflag. }
    { intros e' Hin. apply Hconn. now right. }
    exists (ps ++ ps'). split.
    + rewrite Hout', Hout. now rewrite app_assoc.
    + intros p Hin. apply in_app_iff in Hin as [Hin | Hin]; auto.
Qed.

(** ** The handlers on the device of [Scenario] *)

(** A first tick of an offline device, thirty-nine minutes after it was last
    seen, with a temperature above its upper limit: two alerts. *)
Example first_tick_posts :
  map pc_text
    (w_outbox (on_schedule (H := Ref.lib) Scenario.cfg
                 (Scenario.device (Some Scenario.offline) Scenario.t0)
                 Scenario.fresh).2)
  = ["Device *pump-1* has gone offline";
     "temp is 150.0 (threshold: >100) on pump-1"].
Proof. vm_compute. reflexivity. Qed.

Example first_tick_log :
  w_log (on_schedule (H := Ref.lib) Scenario.cfg
           (Scenario.device (Some Scenario.offline) Scenario.t0)
           Scenario.fresh).2
  = [Get "offline_alert_sent"; Get "last_offline_reminder";
     Set_ "offline_alert_sent" (PBool true);
     Set_ "last_offline_reminder" (PStr "2026-11-04T09:39:03+00:00");
     Get "offline_alerts_sent"; Set_ "offline_alerts_sent" (PInt 1);
     Set_ "offline_alerts_sent_last" (PStr "2026-11-04T09:39:04.500000+00:00");
     Get "threshold_cooldown_temp";
     Set_ "threshold_cooldown_temp" (PStr "2026-11-04T09:39:06+00:00");
     Get "threshold_alerts_sent"; Set_ "threshold_alerts_sent" (PInt 1);
     Set_ "threshold_alerts_sent_last" (PStr "2026-11-04T09:39:09+00:00")].
Proof. vm_compute. reflexivity. Qed.

(** An hour later (the reminder interval is 60 minutes, the last reminder is
    from 09:31): a reminder. *)
Example reminder_after_an_hour :
  map pc_text
    (w_outbox (_check_offline_status (H := Ref.lib) Scenario.cfg
                 (Scenario.device (Some Scenario.offline)
                    (Scenario.t0 + 60 * Scenario.minute))
                 Scenario.alerted).2)
  = ["Device *pump-1* is still offline (duration: 99 minutes)"].
Proof. vm_compute. reflexivity. Qed.

(** Two ticks five minutes apart post one threshold alert (the cooldown is
    15 minutes); two ticks fifteen minutes apart post two. *)
Example two_ticks_in_cooldown :
  map pc_title
    (w_outbox (on_schedule (H := Ref.lib) Scenario.cfg
                 (Scenario.frozen (Some Scenario.online)
                    (Scenario.t0 + 5 * Scenario.minute))
                 (on_schedule (H := Ref.lib) Scenario.cfg
                    (Scenario.frozen (Some Scenario.online) Scenario.t0)
                    Scenario.fresh).2).2)
  = ["Threshold Alert: High Value"].
Proof. vm_compute. reflexivity. Qed.

Example two_ticks_after_cooldown :
  map pc_title
    (w_outbox (on_schedule (H := Ref.lib) Scenario.cfg
                 (Scenario.frozen (Some Scenario.online)
                    (Scenario.t0 + 15 * Scenario.minute))
                 (on_schedule (H := Ref.lib) Scenario.cfg
                    (Scenario.frozen (Some Scenario.online) Scenario.t0)
                    Scenario.fresh).2).2)
  = ["Threshold Alert: High Value"; "Threshold Alert: High Value"].
Proof. vm_compute. reflexivity. Qed.

(** [str.format] on malformed templates. *)
Example format_errors :
  format (H := Ref.lib) "a } b" [] = Raise ValueError
  /\ format (H := Ref.lib) "{0}" [] = Raise IndexError
  /\ format (H := Ref.lib) "{tag" [("tag", PStr "temp")] = Raise ValueError
  /\ format (H := Ref.lib) "{{{tag}}}" [("tag", PStr "temp")] = Ok "{temp}".
Proof. repeat split; vm_compute; reflexivity. Qed.

(** ** Threshold alerts and cooldown writes go together *)

Lemma filter_none {A} (f : A -> bool) (l : list A) :
  (forall x, In x l -> f x = false) -> List.filter f l = [].
Proof.
  induction l as [| x l IH]; intros Hf; [reflexivity |].
  simpl. rewrite (Hf x) by now left. apply IH. intros y Hin. apply Hf. now right.
Qed.

Lemma prefix_append (s t : string) : String.prefix s (s +:+ t) = true.
Proof.
  induction s as [| c s IH]; [now destruct t |].
  rewrite append_cons. simpl. rewrite IH.
  now destruct (Ascii.ascii_dec c c).
Qed.

Lemma length_filter_write_of key ops :
  length (List.filter (write_of key) ops) = length (sets_of key ops).
Proof.
  induction ops as [| op ops IH]; [reflexivity |].
  unfold sets_of in *. simpl. rewrite length_app, <- IH.
  destruct op as [k | k v]; simpl; [reflexivity |].
  now destruct (String.eqb k key).
Qed.

Lemma linked_ret {A} c (a : A) : linked c (mret a).
Proof. intros w. exists [], []. simpl. now rewrite !app_nil_r. Qed.

Lemma linked_lift {A} c (o : outcome A) : linked c (lift o).
Proof. intros w. exists [], []. simpl. now rewrite !app_nil_r. Qed.

Lemma linked_bind {A B} c (m : M A) (f : A -> M B) :
  linked c m -> (forall a, linked c (f a)) -> linked c (m ≫= f).
Proof.
  intros Hm Hf w. destruct (Hm w) as (ps & ops & Ho & Hl & Hn).
  unfold mbind, M_bind. destruct (m w) as [[a | err] w1]; simpl in *.
  - destruct (Hf a w1) as (ps' & ops' & Ho' & Hl' & Hn').
    exists (ps ++ ps'), (ops ++ ops').
    rewrite Ho', Ho, Hl', Hl, !List.filter_app, !length_app, !app_assoc. auto.
  - exists ps, ops. auto.
Qed.

Lemma linked_for_each_in {A} c (body : A -> M unit) xs :
  (forall x, In x xs -> linked c (body x)) -> linked c (for_each body xs).
Proof.
  induction xs as [| x xs IH]; intros Hb; simpl.
  - apply linked_ret.
  - apply linked_bind; [apply Hb; now left |].
    intros _. apply IH. intros y Hin. apply Hb. now right.
Qed.

(** A step that posts no threshold alert and writes no key that [c] counts. *)
Lemma linked_of_touches {A} c (K T : string -> Prop) (m : M A) :
  touches K T m ->
  (forall k, c (Get k) = false) ->
  (forall k v, K k -> c (Set_ k v) = false) ->
  (forall p, T (pc_title p) -> threshold_post p = false) ->
  linked c m.
Proof.
  intros Hm Hget Hset HT w.
  destruct (Hm w) as (ps & (Ho & (ops & Hl & Hops) & _) & Hps).
  exists ps, ops. split; [exact Ho |]. split; [exact Hl |].
  rewrite !filter_none; [reflexivity | |].
  - intros [k | k v] Hin; [apply Hget | apply Hset; eauto].
  - intros p Hin. apply HT. auto.
Qed.

(** Two runs one after the other. *)
Lemma linked_then {A B} c (m1 : M A) (m2 : M B) :
  linked c m1 -> linked c m2 ->
  forall w, exists posts ops,
    w_outbox (m2 (m1 w).2).2 = w_outbox w ++ posts
    /\ w_log (m2 (m1 w).2).2 = w_log w ++ ops
    /\ length (List.filter threshold_post posts) = length (List.filter c ops).
Proof.
  intros H1 H2 w. destruct (H1 w) as (ps & ops & Ho & Hl & Hn).
  destruct (H2 (m1 w).2) as (ps' & ops' & Ho' & Hl' & Hn').
  exists (ps ++ ps'), (ops ++ ops').
  rewrite Ho', Ho, Hl', Hl, !List.filter_app, !length_app, !app_assoc. auto.
Qed.

Section Linked.
Context `{PyLib} (config : SlackProcessorConfig) (e : env).
Context (c : store_op -> bool).
Hypothesis c_get : forall k, c (Get k) = false.
Hypothesis c_offline : forall k v, K_offline k -> c (Set_ k v) = false.
Hypothesis c_stat :
  forall k v, K_stat "threshold_alerts_sent" k -> c (Set_ k v) = false.

Lemma c_error k v : K_error k -> c (Set_ k v) = false.
Proof. intros Hk. apply c_offline. now left. Qed.

Lemma no_threshold_post_False (p : post_call) : False -> threshold_post p = false.
Proof. intros []. Qed.

(** Lines 220-232 and 237-249: with a webhook URL, the alert of a rule is
    posted exactly when its cooldown tag is written. *)
Lemma linked_threshold_alert template tag value name now limit title color :
  str_set (slack_webhook_url config) = true ->
  T_threshold title ->
  (forall v, c (Set_ ("threshold_cooldown_" +:+ tag) v) = true) ->
  linked c
    (threshold_alert config e template tag ("threshold_cooldown_" +:+ tag)
       value name now limit title color).
Proof.
  intros Hurl Htitle Hc w. unfold threshold_alert.
  destruct (format template _) as [message | err].
  - destruct (_send_slack_message_ok config e message title color w Hurl)
      as (w1 & p & Hrun1 & (Ho1 & (ops1 & Hl1 & Hops1) & _) & Hp & _).
    step. step_with Hrun1. step.
    match goal with
    | |- context [_increment_stat e "threshold_alerts_sent" ?W] =>
        pose proof (quiet _ _ W
                      (touches__increment_stat e (fun _ => False)
                         "threshold_alerts_sent"))
          as (Ho3 & (ops3 & Hl3 & Hops3) & _)
    end.
    simpl in Ho3, Hl3.
    exists [p], (ops1 ++ [Set_ ("threshold_cooldown_" +:+ tag) (PStr (isoformat now))]
                 ++ ops3).
    split; [now rewrite Ho3, app_nil_r, Ho1 |].
    split; [now rewrite Hl3, Hl1, <- !app_assoc |].
    rewrite !List.filter_app, !length_app.
    rewrite (filter_none c ops1), (filter_none c ops3).
    + simpl. rewrite Hc. unfold threshold_post. rewrite Hp.
      now destruct Htitle as [-> | ->].
    + intros [k | k v] Hin; [apply c_get | apply c_stat; eauto].
    + intros [k | k v] Hin; [apply c_get | apply c_error; eauto].
  - exists [], []. simpl. now rewrite !app_nil_r.
Qed.

Lemma linked_check_limits rule tag value name now :
  str_set (slack_webhook_url config) = true ->
  (forall v, c (Set_ ("threshold_cooldown_" +:+ tag) v) = true) ->
  linked c (check_limits config e rule tag value name now).
Proof.
  intros Hurl Hc. unfold check_limits. cbv zeta.
  apply linked_bind.
  - apply (linked_of_touches c (fun _ => False) (fun _ => False));
      [apply touches_in_cooldown | exact c_get | intros k v [] | intros p []].
  - intros skip. destruct skip; [apply linked_ret |].
    destruct (crossed (upper_limit rule) _);
      [apply linked_threshold_alert; [exact Hurl | now left | exact Hc] |].
    destruct (crossed (lower_limit rule) _);
      [apply linked_threshold_alert; [exact Hurl | now right | exact Hc] |].
    apply linked_ret.
Qed.

Lemma linked_threshold_rule tag_values name now rule :
  str_set (slack_webhook_url config) = true ->
  (forall tag v, tag_name rule = Some tag ->
     c (Set_ ("threshold_cooldown_" +:+ tag) v) = true) ->
  linked c (threshold_rule config e tag_values name now rule).
Proof.
  intros Hurl Hc. unfold threshold_rule.
  destruct (tag_name rule) as [tag |]; [| apply linked_ret].
  destruct (String.eqb tag ""); [apply linked_ret |].
  assert (Hgo : forall raw, linked c
    match py_float raw with
    | Ok value => check_limits config e rule tag value name now
    | Raise TypeError | Raise ValueError => mret tt
    | Raise err => lift (Raise err)
    end).
  { intros raw. destruct (py_float raw) as [value | err].
    - apply linked_check_limits; [exact Hurl | intros v; now apply Hc].
    - destruct err; first [apply linked_ret | apply linked_lift]. }
  destruct (dict_get tag_values tag) eqn:Hraw; first [apply linked_ret | apply Hgo].
Qed.

Lemma linked__check_tag_thresholds :
  str_set (slack_webhook_url config) = true ->
  (forall rule tag v, In rule (tag_thresholds config) -> tag_name rule = Some tag ->
     c (Set_ ("threshold_cooldown_" +:+ tag) v) = true) ->
  linked c (_check_tag_thresholds config e).
Proof.
  intros Hurl Hc. unfold _check_tag_thresholds.
  destruct (tag_thresholds config) as [| r rs]; [apply linked_ret |].
  apply linked_bind.
  { apply (linked_of_touches c (fun _ => False) (fun _ => False));
      [apply touches_api_call | exact c_get | intros k v [] | intros p []]. }
  intros [tag_values |]; [| apply linked_ret].
  apply linked_bind.
  { apply (linked_of_touches c (fun _ => False) (fun _ => False));
      [apply touches__get_device_name | exact c_get | intros k v [] | intros p []]. }
  intros name. apply linked_bind.
  { apply (linked_of_touches c (fun _ => False) (fun _ => False));
      [apply touches_datetime_now | exact c_get | intros k v [] | intros p []]. }
  intros now. apply linked_for_each_in. intros rule Hin.
  apply linked_threshold_rule; [exact Hurl |].
  intros tag v Htag. now apply (Hc rule).
Qed.

(** One tick: as many threshold alerts in the outbox as counted writes. *)
Lemma linked_on_schedule :
  (forall rule tag v, In rule (tag_thresholds config) -> tag_name rule = Some tag ->
     c (Set_ ("threshold_cooldown_" +:+ tag) v) = true) ->
  linked c (on_schedule config e).
Proof.
  intros Hc. unfold on_schedule.
  destruct (str_set (slack_webhook_url config)) eqn:Hurl; [| apply linked_ret].
  simpl. apply linked_bind.
  - destruct (offline_alerts_enabled config); [| apply linked_ret].
    apply (linked_of_touches c K_offline T_offline);
      [apply touches__check_offline_status | exact c_get | exact c_offline |].
    intros p Hp. unfold threshold_post. now rewrite Hp.
  - intros _. destruct (threshold_alerts_enabled config); [| apply linked_ret].
    now apply linked__check_tag_thresholds.
Qed.

End Linked.

(** The two ways of counting: the writes of every cooldown tag, and the
    writes of the cooldown tag of one tag. *)
Lemma cooldown_write_offline k v : K_offline k -> cooldown_write (Set_ k v) = false.
Proof.
  intros [[-> | ->] | [[-> | ->] | [-> | ->]]]; reflexivity.
Qed.

Lemma cooldown_write_stat k v :
  K_stat "threshold_alerts_sent" k -> cooldown_write (Set_ k v) = false.
Proof. intros [-> | ->]; reflexivity. Qed.

Lemma write_of_offline tag k v :
  K_offline k -> write_of ("threshold_cooldown_" +:+ tag) (Set_ k v) = false.
Proof.
  intros Hk. simpl. apply String.eqb_neq. intros ->.
  now apply (K_offline_not_cooldown tag).
Qed.

Lemma write_of_stat tag k v :
  K_stat "threshold_alerts_sent" k ->
  write_of ("threshold_cooldown_" +:+ tag) (Set_ k v) = false.
Proof.
  intros Hk. simpl. apply String.eqb_neq. intros ->.
  destruct Hk as [Hk | Hk]; simpl in Hk; discriminate.
Qed.

(** ** A template error in the alert of a rule *)

Lemma for_each_app_ok {A} (body : A -> M unit) xs ys w w1 :
  for_each body xs w = (Ok tt, w1) ->
  for_each body (xs ++ ys) w = for_each body ys w1.
Proof.
  revert w. induction xs as [| x xs IH]; intros w Hrun; simpl in *.
  - now inversion Hrun.
  - unfold mbind, M_bind in *.
    destruct (body x w) as [[[] | err] w2]; [| discriminate]. now apply IH.
Qed.

Section TemplateError.
Context `{PyLib} (config : SlackProcessorConfig) (e : env).

(** A rule that alerts with a template that names an unknown field: the
    rule reads its cooldown tag, then [format] raises. *)
Lemma rule_template_error tag_values device_name now rule w tag raw value
    pre name tail :
  plain_name name = true ->
  tag_name rule = Some tag -> tag <> "" ->
  tag_values !! tag = Some raw -> raw <> PNone ->
  py_float raw = Ok value ->
  cooled_down (default PNone (w_tags w !! ("threshold_cooldown_" +:+ tag)))
    (default 15 (cooldown_minutes rule)) now ->
  crossed (upper_limit rule) (value_gt value) <> None
  \/ crossed (lower_limit rule) (value_lt value) <> None ->
  alert_message rule = Some (pre +:+ String "{" (name +:+ String "}" tail)) ->
  known_prefix ["tag"; "value"; "limit"; "device"] pre ->
  ~ In name ["tag"; "value"; "limit"; "device"] ->
  exists w',
    threshold_rule config e tag_values device_name now rule w
    = (Raise (KeyError name), w')
    /\ w_outbox w' = w_outbox w /\ w_tags w' = w_tags w
    /\ w_log w' = w_log w ++ [Get ("threshold_cooldown_" +:+ tag)].
Proof.
  intros Hname Htag Hne Hraw Hnone Hfloat Hcool Hcross Hmsg Hpre Hnot.
  assert (Hfmt : forall limit,
            format (pre +:+ String "{" (name +:+ String "}" tail))
              [("tag", PStr tag); ("value", PFloat value);
               ("limit", PStr limit); ("device", device_name)]
            = Raise (KeyError name)).
  { intros limit.
    now apply (format_unknown_placeholder
                 [("tag", PStr tag); ("value", PFloat value);
                  ("limit", PStr limit); ("device", device_name)]). }
  destruct (in_cooldown_cooled _ _ _ w Hcool) as (w1 & Hrun1 & Ht1 & Ho1 & Hl1).
  exists w1. split; [| auto].
  rewrite (threshold_rule_numeric config e tag_values device_name now rule tag
             raw value w Htag Hne Hraw Hnone Hfloat).
  unfold check_limits. cbv zeta. step_with Hrun1. rewrite Hmsg.
  change (default default_alert_message (Some ?t)) with t.
  destruct (crossed (upper_limit rule) (value_gt value)) as [upper |].
  + unfold threshold_alert. rewrite Hfmt. reflexivity.
  + destruct (crossed (lower_limit rule) (value_lt value)) as [lower |].
    * unfold threshold_alert. rewrite Hfmt. reflexivity.
    * now destruct Hcross.
Qed.

End TemplateError.

(** The threshold check with such a rule after rules that ran normally. *)
Lemma thresholds_template_error `{PyLib} (config : SlackProcessorConfig)
    (e : env) earlier rest rule tag_values w0 w1 tag raw value pre name tail :
  _check_tag_thresholds (Scenario.with_rules earlier config) e w0 = (Ok tt, w1) ->
  (forall n, get_aggregate e n = Some tag_values) ->
  plain_name name = true ->
  tag_name rule = Some tag -> tag <> "" ->
  tag_values !! tag = Some raw -> raw <> PNone ->
  py_float raw = Ok value ->
  (forall n,
     cooled_down (default PNone (w_tags w1 !! ("threshold_cooldown_" +:+ tag)))
       (default 15 (cooldown_minutes rule)) (clock e n)) ->
  crossed (upper_limit rule) (value_gt value) <> None
  \/ crossed (lower_limit rule) (value_lt value) <> None ->
  alert_message rule = Some (pre +:+ String "{" (name +:+ String "}" tail)) ->
  known_prefix ["tag"; "value"; "limit"; "device"] pre ->
  ~ In name ["tag"; "value"; "limit"; "device"] ->
  exists w',
    _check_tag_thresholds
      (Scenario.with_rules (earlier ++ rule :: rest) config) e w0
    = (Raise (KeyError name), w')
    /\ w_outbox w' = w_outbox w1 /\ w_tags w' = w_tags w1
    /\ w_log w' = w_log w1 ++ [Get ("threshold_cooldown_" +:+ tag)].
Proof.
  intros Hearlier Hagg Hname Htag Hne Hraw Hnone Hfloat Hcool Hcross Hmsg Hpre Hnot.
  unfold _check_tag_thresholds in *.
  change (tag_thresholds (Scenario.with_rules earlier config)) with earlier
    in Hearlier.
  change (tag_thresholds (Scenario.with_rules (earlier ++ rule :: rest) config))
    with (earlier ++ rule :: rest).
  destruct earlier as [| r rs].
  - inversion Hearlier; subst w1. clear Hearlier.
    cbn [app]. step. cbv beta iota. rewrite Hagg.
    match goal with
    | |- context [(_get_device_name ?c e ≫= _) ?W] =>
        destruct (_get_device_name_ok c e W)
          as (device_name & w2 & Hrun & Ht & Hl & Ho & Hc)
    end.
    step_with Hrun. step. simpl in Ht, Hl, Ho.
    match goal with
    | |- context [for_each (threshold_rule ?c e tag_values device_name ?now) _ ?W] =>
        destruct (rule_template_error c e tag_values device_name now rule W tag raw
                    value pre name tail Hname Htag Hne Hraw Hnone Hfloat)
          as (w' & Hrun' & Ho' & Ht' & Hl'); auto
    end.
    { cbn [w_tags]. rewrite Ht. apply Hcool. }
    exists w'. split; [now apply for_each_raise |].
    cbn [w_tags w_log w_outbox] in Ho', Ht', Hl'.
    rewrite Ho', Ht', Hl', Ho, Ht, Hl. auto.
  - revert Hearlier. cbn [app]. step. step. cbv beta iota. rewrite Hagg.
    change (_get_device_name (Scenario.with_rules (r :: rs) config) e)
      with (_get_device_name config e).
    change (_get_device_name
              (Scenario.with_rules (r :: rs ++ rule :: rest) config) e)
      with (_get_device_name config e).
    match goal with
    | |- context [(_get_device_name config e ≫= _) ?W] =>
        destruct (_get_device_name_ok config e W)
          as (device_name & w2 & Hrun & _)
    end.
    rewrite !(bind_ok _ _ _ _ _ Hrun). step. step.
    change (threshold_rule (Scenario.with_rules (r :: rs) config) e)
      with (threshold_rule config e).
    change (threshold_rule
              (Scenario.with_rules (r :: rs ++ rule :: rest) config) e)
      with (threshold_rule config e).
    intros Hearlier.
    change (r :: rs ++ rule :: rest) with ((r :: rs) ++ rule :: rest).
    rewrite (for_each_app_ok _ _ _ _ _ Hearlier).
    match goal with
    | |- context [for_each (threshold_rule config e tag_values device_name ?now)] =>
        destruct (rule_template_error config e tag_values device_name now rule w1
                    tag raw value pre name tail Hname Htag Hne Hraw Hnone Hfloat)
          as (w' & Hrun' & Hrest); auto
    end.
    exists w'. split; [now apply for_each_raise | exact Hrest].
Qed.

(** ** The claims

    Each claim is proved for every instance of [PyLib]; its example runs the
    handlers on the device of [Scenario] with the instance [Ref.lib]. *)

(** C10: without a webhook URL (empty or unset) [on_schedule] returns before
    either check: the world is left as it was, so no tag is read or written,
    no collaborator is asked, and a stale offline flag of a device that is
    online again stays. *)
Theorem C10_no_webhook_no_checks `{PyLib} (config : SlackProcessorConfig)
    (e : env) (w : world) :
  str_set (slack_webhook_url config) = false ->
  on_schedule config e w = (Ok tt, w).
Proof.
  intros Hurl. unfold on_schedule. now rewrite Hurl.
Qed.

Lemma C10_witness :
  str_set (slack_webhook_url (Scenario.with_webhook (Some "") Scenario.cfg)) = false
  /\ on_schedule (H := Ref.lib) (Scenario.with_webhook (Some "") Scenario.cfg)
       (Scenario.device (Some Scenario.online) Scenario.t0) Scenario.alerted
     = (Ok tt, Scenario.alerted).
Proof.
  split; [reflexivity |].
  apply (C10_no_webhook_no_checks (H := Ref.lib)). reflexivity.
Defined.

(** C9: when the connection lookup fails, [_check_offline_status] returns
    normally, posts nothing and leaves the tag store alone: no operation on
    it at all, not even a read.  The tick goes on with the threshold check
    from there. *)
Theorem C9_lookup_failure_is_silent `{PyLib} (config : SlackProcessorConfig)
    (e : env) (w : world) :
  get_agent_connection e (w_api w) = None ->
  exists w', _check_offline_status config e w = (Ok tt, w')
    /\ w_tags w' = w_tags w /\ w_log w' = w_log w /\ w_outbox w' = w_outbox w
    /\ (str_set (slack_webhook_url config) = true ->
        offline_alerts_enabled config = true ->
        on_schedule config e w
        = (if threshold_alerts_enabled config then _check_tag_thresholds config e
           else mret tt) w').
Proof.
  intros Hconn.
  assert (Hrun : exists w', _check_offline_status config e w = (Ok tt, w')
            /\ w_tags w' = w_tags w /\ w_log w' = w_log w
            /\ w_outbox w' = w_outbox w).
  { unfold _check_offline_status, mbind, M_bind, api_call.
    rewrite Hconn. eexists. split; [reflexivity | easy]. }
  destruct Hrun as (w' & Hrun & Ht & Hl & Ho).
  exists w'. repeat split; auto.
  intros Hurl Hen. unfold on_schedule. rewrite Hurl, Hen. simpl.
  now step_with Hrun.
Qed.

Lemma C9_witness :
  exists w', _check_offline_status (H := Ref.lib) Scenario.cfg
               (Scenario.device None Scenario.t0) Scenario.alerted = (Ok tt, w')
    /\ w_tags w' = w_tags Scenario.alerted /\ w_log w' = w_log Scenario.alerted
    /\ w_outbox w' = w_outbox Scenario.alerted
    /\ (str_set (slack_webhook_url Scenario.cfg) = true ->
        offline_alerts_enabled Scenario.cfg = true ->
        on_schedule (H := Ref.lib) Scenario.cfg
          (Scenario.device None Scenario.t0) Scenario.alerted
        = (if threshold_alerts_enabled Scenario.cfg
           then _check_tag_thresholds (H := Ref.lib) Scenario.cfg
                  (Scenario.device None Scenario.t0)
           else mret tt) w').
Proof.
  apply (C9_lookup_failure_is_silent (H := Ref.lib)). reflexivity.
Defined.

(** C8: a rule without a tag name, a rule whose tag has no value, and a rule
    whose value [float] rejects with a [TypeError] or a [ValueError] end
    normally in the world they started in, and the loop goes on with the
    next rule. *)
Theorem C8_malformed_rule_is_skipped `{PyLib} (config : SlackProcessorConfig)
    (e : env) (tag_values : gmap string pyval) (name : pyval) (now : Z)
    (rule : ThresholdRule) (rest : list ThresholdRule) (w : world) :
  tag_name rule = None \/ tag_name rule = Some ""
  \/ (exists tag, tag_name rule = Some tag
        /\ (tag_values !! tag = None
            \/ exists raw, tag_values !! tag = Some raw
                 /\ (py_float raw = Raise TypeError
                     \/ py_float raw = Raise ValueError))) ->
  threshold_rule config e tag_values name now rule w = (Ok tt, w)
  /\ for_each (threshold_rule config e tag_values name now) (rule :: rest) w
     = for_each (threshold_rule config e tag_values name now) rest w.
Proof.
  intros Hbad.
  assert (Hskip : threshold_rule config e tag_values name now rule w = (Ok tt, w)).
  { unfold threshold_rule.
    destruct Hbad as [-> | [-> | (tag & -> & Hval)]]; [reflexivity | reflexivity |].
    destruct (String.eqb tag ""); [reflexivity |].
    unfold dict_get.
    destruct Hval as [-> | (raw & -> & Hraw)]; [reflexivity |].
    simpl. destruct raw; try reflexivity; destruct Hraw as [Hraw | Hraw];
      simpl in Hraw; try discriminate; simpl; now rewrite Hraw. }
  split; [exact Hskip | now apply for_each_ok].
Qed.

Lemma C8_witness :
  threshold_rule (H := Ref.lib) Scenario.cfg (Scenario.device (Some Scenario.offline) Scenario.t0)
    {[ "temp" := PStr "n/a" ]} (PStr "pump-1") Scenario.t0 Scenario.rule_temp
    Scenario.fresh = (Ok tt, Scenario.fresh)
  /\ for_each (threshold_rule (H := Ref.lib) Scenario.cfg
                 (Scenario.device (Some Scenario.offline) Scenario.t0)
                 {[ "temp" := PStr "n/a" ]} (PStr "pump-1") Scenario.t0)
       [Scenario.rule_temp; Scenario.rule_temp] Scenario.fresh
     = for_each (threshold_rule (H := Ref.lib) Scenario.cfg
                   (Scenario.device (Some Scenario.offline) Scenario.t0)
                   {[ "temp" := PStr "n/a" ]} (PStr "pump-1") Scenario.t0)
         [Scenario.rule_temp] Scenario.fresh.
Proof.
  apply (C8_malformed_rule_is_skipped (H := Ref.lib)).
  right. right. exists "temp". split; [reflexivity |].
  right. exists (PStr "n/a"). split; [reflexivity |]. right. reflexivity.
Defined.

(** C1: on a tick where the offline check runs and the connection lookup
    says [online], the tick ends (however the threshold check that follows
    goes) with [offline_alert_sent] at [False] and [last_offline_reminder] at
    [None], whatever they were, and none of the alerts of the tick is an
    offline alert. *)
Theorem C1_online_resets_offline_state `{PyLib} (config : SlackProcessorConfig)
    (e : env) (w : world) (connection_info : gmap string pyval) :
  str_set (slack_webhook_url config) = true ->
  offline_alerts_enabled config = true ->
  get_agent_connection e (w_api w) = Some connection_info ->
  eq_str (dict_get connection_info "determination") "online" = true ->
  exists posts,
    w_tags (on_schedule config e w).2 !! "offline_alert_sent" = Some (PBool false)
    /\ w_tags (on_schedule config e w).2 !! "last_offline_reminder" = Some PNone
    /\ w_outbox (on_schedule config e w).2 = w_outbox w ++ posts
    /\ forall p, In p posts -> pc_title p <> "Device Offline Alert".
Proof.
  intros Hurl Hen Hconn Honline.
  unfold on_schedule. rewrite Hurl, Hen. simpl.
  assert (Hoff : exists w1, _check_offline_status config e w = (Ok tt, w1)
            /\ w_tags w1 !! "offline_alert_sent" = Some (PBool false)
            /\ w_tags w1 !! "last_offline_reminder" = Some PNone
            /\ w_outbox w1 = w_outbox w).
  { unfold _check_offline_status, mbind, M_bind, api_call.
    rewrite Hconn. cbv beta iota zeta. rewrite Honline.
    eexists. split; [reflexivity |]. simpl. split; [| split; [| reflexivity]].
    - rewrite lookup_insert_ne by discriminate. apply lookup_insert_eq.
    - apply lookup_insert_eq. }
  destruct Hoff as (w1 & Hrun & Hflag & Hrem & Hout).
  rewrite (bind_ok _ _ _ _ _ Hrun).
  destruct (touches_threshold_part config e w1) as (ps & Hfr & HT).
  destruct Hfr as (Ho & _ & Htags & _).
  exists ps. repeat split.
  - rewrite (Htags _ K_threshold_not_offline_flag). exact Hflag.
  - rewrite (Htags _ K_threshold_not_reminder). exact Hrem.
  - rewrite Ho, Hout. reflexivity.
  - intros p Hin. apply T_threshold_not_offline. auto.
Qed.

Lemma C1_witness :
  exists posts,
    w_tags (on_schedule (H := Ref.lib) Scenario.cfg
              (Scenario.device (Some Scenario.online) Scenario.t0)
              Scenario.alerted).2 !! "offline_alert_sent" = Some (PBool false)
    /\ w_tags (on_schedule (H := Ref.lib) Scenario.cfg
                 (Scenario.device (Some Scenario.online) Scenario.t0)
                 Scenario.alerted).2 !! "last_offline_reminder" = Some PNone
    /\ w_outbox (on_schedule (H := Ref.lib) Scenario.cfg
                   (Scenario.device (Some Scenario.online) Scenario.t0)
                   Scenario.alerted).2 = w_outbox Scenario.alerted ++ posts
    /\ forall p, In p posts -> pc_title p <> "Device Offline Alert".
Proof.
  apply (C1_online_resets_offline_state (H := Ref.lib) Scenario.cfg
           (Scenario.device (Some Scenario.online) Scenario.t0)
           Scenario.alerted Scenario.online); reflexivity.
Defined.

(** C3: an offline device whose last-online timestamp is less than
    [offline_threshold_minutes] before the reading of the clock: the offline
    check ends normally without a post and without any operation on the tag
    store, and on the whole tick no offline alert is posted and neither
    [offline_alert_sent] nor [last_offline_reminder] is written. *)
Theorem C3_debounce_window_is_silent `{PyLib} (config : SlackProcessorConfig)
    (e : env) (w : world) (connection_info : gmap string pyval) (last_online : Z) :
  str_set (slack_webhook_url config) = true ->
  offline_alerts_enabled config = true ->
  get_agent_connection e (w_api w) = Some connection_info ->
  eq_str (dict_get connection_info "determination") "online" = false ->
  truthy (dict_get connection_info "online_at") = true ->
  parse_time (dict_get connection_info "online_at") = Ok (Aware last_online) ->
  clock e (w_clock w) - last_online < offline_threshold_minutes config * 60000000 ->
  (exists w1, _check_offline_status config e w = (Ok tt, w1)
     /\ w_tags w1 = w_tags w /\ w_log w1 = w_log w /\ w_outbox w1 = w_outbox w)
  /\ (exists posts ops,
        w_outbox (on_schedule config e w).2 = w_outbox w ++ posts
        /\ (forall p, In p posts -> pc_title p <> "Device Offline Alert")
        /\ w_log (on_schedule config e w).2 = w_log w ++ ops
        /\ (forall k v, In (Set_ k v) ops ->
              k <> "offline_alert_sent" /\ k <> "last_offline_reminder")
        /\ w_tags (on_schedule config e w).2 !! "offline_alert_sent"
           = w_tags w !! "offline_alert_sent"
        /\ w_tags (on_schedule config e w).2 !! "last_offline_reminder"
           = w_tags w !! "last_offline_reminder").
Proof.
  intros Hurl Hen Hconn Honline Htruthy Hparse Hlt.
  destruct (offline_check_debounced config e _ _ _ Hconn Honline Htruthy Hparse Hlt)
    as (w1 & Hrun & Ht & Hl & Ho).
  split; [now exists w1 |].
  unfold on_schedule. rewrite Hurl, Hen. simpl. step_with Hrun.
  destruct (touches_threshold_part config e w1)
    as (ps & (Hout & (ops & Hlog & Hops) & Htags & _) & HT).
  exists ps, ops. repeat split.
  - now rewrite Hout, Ho.
  - intros p Hin. apply T_threshold_not_offline. auto.
  - now rewrite Hlog, Hl.
  - intros ->. apply K_threshold_not_offline_flag. eauto.
  - intros ->. apply K_threshold_not_reminder. eauto.
  - rewrite (Htags _ K_threshold_not_offline_flag). now rewrite Ht.
  - rewrite (Htags _ K_threshold_not_reminder). now rewrite Ht.
Qed.

Lemma C3_witness :
  (exists w1, _check_offline_status (H := Ref.lib) Scenario.cfg
                (Scenario.device (Some (Scenario.offline_since "2026-11-04T09:20:00Z"))
                   Scenario.t0) Scenario.fresh = (Ok tt, w1)
     /\ w_tags w1 = w_tags Scenario.fresh /\ w_log w1 = w_log Scenario.fresh
     /\ w_outbox w1 = w_outbox Scenario.fresh)
  /\ (exists posts ops,
        w_outbox (on_schedule (H := Ref.lib) Scenario.cfg
                    (Scenario.device
                       (Some (Scenario.offline_since "2026-11-04T09:20:00Z"))
                       Scenario.t0) Scenario.fresh).2
        = w_outbox Scenario.fresh ++ posts
        /\ (forall p, In p posts -> pc_title p <> "Device Offline Alert")
        /\ w_log (on_schedule (H := Ref.lib) Scenario.cfg
                    (Scenario.device
                       (Some (Scenario.offline_since "2026-11-04T09:20:00Z"))
                       Scenario.t0) Scenario.fresh).2
           = w_log Scenario.fresh ++ ops
        /\ (forall k v, In (Set_ k v) ops ->
              k <> "offline_alert_sent" /\ k <> "last_offline_reminder")
        /\ w_tags (on_schedule (H := Ref.lib) Scenario.cfg
                     (Scenario.device
                        (Some (Scenario.offline_since "2026-11-04T09:20:00Z"))
                        Scenario.t0) Scenario.fresh).2 !! "offline_alert_sent"
           = w_tags Scenario.fresh !! "offline_alert_sent"
        /\ w_tags (on_schedule (H := Ref.lib) Scenario.cfg
                     (Scenario.device
                        (Some (Scenario.offline_since "2026-11-04T09:20:00Z"))
                        Scenario.t0) Scenario.fresh).2 !! "last_offline_reminder"
           = w_tags Scenario.fresh !! "last_offline_reminder").
Proof.
  apply (C3_debounce_window_is_silent (H := Ref.lib) Scenario.cfg
           (Scenario.device (Some (Scenario.offline_since "2026-11-04T09:20:00Z"))
              Scenario.t0)
           Scenario.fresh (Scenario.offline_since "2026-11-04T09:20:00Z")
           (Scenario.t0 - 19 * Scenario.minute)); try reflexivity.
Defined.

(** C4: an offline device past the threshold whose [offline_alert_sent] is
    false (or absent): the offline check posts exactly one alert, with the
    text "has gone offline", and ends with [offline_alert_sent] at [True] and
    [last_offline_reminder] at the ISO form of a reading of the clock taken
    during the check; the rest of the tick adds no offline alert and keeps
    the two tags. *)
Theorem C4_first_offline_alert `{PyLib} (config : SlackProcessorConfig)
    (e : env) (w : world) (connection_info : gmap string pyval) (last_online : Z) :
  str_set (slack_webhook_url config) = true ->
  offline_alerts_enabled config = true ->
  get_agent_connection e (w_api w) = Some connection_info ->
  eq_str (dict_get connection_info "determination") "online" = false ->
  truthy (dict_get connection_info "online_at") = true ->
  parse_time (dict_get connection_info "online_at") = Ok (Aware last_online) ->
  offline_threshold_minutes config * 60000000 <= clock e (w_clock w) - last_online ->
  truthy (default (PBool false) (w_tags w !! "offline_alert_sent")) = false ->
  exists w1 p name k posts,
    _check_offline_status config e w = (Ok tt, w1)
    /\ w_outbox w1 = w_outbox w ++ [p]
    /\ pc_title p = "Device Offline Alert"
    /\ pc_text p = "Device *" +:+ name +:+ "* has gone offline"
    /\ w_tags w1 !! "offline_alert_sent" = Some (PBool true)
    /\ w_tags w1 !! "last_offline_reminder" = Some (PStr (isoformat (clock e k)))
    /\ (w_clock w <= k < w_clock w1)%nat
    /\ w_outbox (on_schedule config e w).2 = w_outbox w ++ p :: posts
    /\ (forall q, In q posts -> pc_title q <> "Device Offline Alert")
    /\ w_tags (on_schedule config e w).2 !! "offline_alert_sent" = Some (PBool true)
    /\ w_tags (on_schedule config e w).2 !! "last_offline_reminder"
       = Some (PStr (isoformat (clock e k))).
Proof.
  intros Hurl Hen Hconn Honline Htruthy Hparse Hge Hflag.
  destruct (offline_check_past_threshold config e _ _ _ Hconn Honline Htruthy
              Hparse Hge) as (w0 & Heq & Ht0 & Hl0 & Ho0 & Hc0).
  destruct (alert_or_remind_first config e
              (Some (clock e (w_clock w) - last_online)) w0 Hurl)
    as (w1 & p & name & k & Hrun & Hout & Htitle & Htext & Hf & Hr & Hk).
  { now rewrite Ht0. }
  rewrite <- Heq in Hrun.
  destruct (touches_threshold_part config e w1)
    as (ps & (Hout' & _ & Htags & _) & HT).
  exists w1, p, name, k, ps.
  unfold on_schedule. rewrite Hurl, Hen. simpl. step_with Hrun.
  repeat split; auto; try lia.
  - now rewrite Hout, Ho0.
  - rewrite Hout', Hout, Ho0. now rewrite <- app_assoc.
  - intros q Hin. apply T_threshold_not_offline. auto.
  - now rewrite (Htags _ K_threshold_not_offline_flag).
  - now rewrite (Htags _ K_threshold_not_reminder).
Qed.

Lemma C4_witness :
  exists w1 p name k posts,
    _check_offline_status (H := Ref.lib) Scenario.cfg
      (Scenario.device (Some Scenario.offline) Scenario.t0) Scenario.fresh
    = (Ok tt, w1)
    /\ w_outbox w1 = w_outbox Scenario.fresh ++ [p]
    /\ pc_title p = "Device Offline Alert"
    /\ pc_text p = "Device *" +:+ name +:+ "* has gone offline"
    /\ w_tags w1 !! "offline_alert_sent" = Some (PBool true)
    /\ w_tags w1 !! "last_offline_reminder"
       = Some (PStr (Ref.iso_string
                       (clock (Scenario.device (Some Scenario.offline) Scenario.t0) k)))
    /\ (w_clock Scenario.fresh <= k < w_clock w1)%nat
    /\ w_outbox (on_schedule (H := Ref.lib) Scenario.cfg
                   (Scenario.device (Some Scenario.offline) Scenario.t0)
                   Scenario.fresh).2 = w_outbox Scenario.fresh ++ p :: posts
    /\ (forall q, In q posts -> pc_title q <> "Device Offline Alert")
    /\ w_tags (on_schedule (H := Ref.lib) Scenario.cfg
                 (Scenario.device (Some Scenario.offline) Scenario.t0)
                 Scenario.fresh).2 !! "offline_alert_sent" = Some (PBool true)
    /\ w_tags (on_schedule (H := Ref.lib) Scenario.cfg
                 (Scenario.device (Some Scenario.offline) Scenario.t0)
                 Scenario.fresh).2 !! "last_offline_reminder"
       = Some (PStr (Ref.iso_string
                       (clock (Scenario.device (Some Scenario.offline) Scenario.t0) k))).
Proof.
  apply (C4_first_offline_alert (H := Ref.lib) Scenario.cfg
           (Scenario.device (Some Scenario.offline) Scenario.t0)
           Scenario.fresh Scenario.offline
           (Scenario.t0 - 39 * Scenario.minute)); try reflexivity.
  vm_compute. discriminate.
Defined.

(** C5: an offline device past the threshold whose alert was sent
    ([offline_alert_sent] true).  Either a reminder is due (the interval is
    positive, [last_offline_reminder] is set and parses, and at least the
    interval has passed since, at the second reading of the clock) and
    exactly one "is still offline" reminder is posted; or no reminder is due
    and nothing is posted nor written.  And with an interval of 0, however
    many ticks follow while the device is not online, none of them posts an
    offline alert. *)
Theorem C5_reminder_iff_due `{PyLib} (config : SlackProcessorConfig) :
  (forall (e : env) (w : world) (connection_info : gmap string pyval)
          (last_online : Z),
     str_set (slack_webhook_url config) = true ->
     get_agent_connection e (w_api w) = Some connection_info ->
     eq_str (dict_get connection_info "determination") "online" = false ->
     truthy (dict_get connection_info "online_at") = true ->
     parse_time (dict_get connection_info "online_at") = Ok (Aware last_online) ->
     offline_threshold_minutes config * 60000000
       <= clock e (w_clock w) - last_online ->
     truthy (default (PBool false) (w_tags w !! "offline_alert_sent")) = true ->
     (reminder_due config (default PNone (w_tags w !! "last_offline_reminder"))
        (clock e (S (w_clock w)))
      /\ exists w1 p name mins,
           _check_offline_status config e w = (Ok tt, w1)
           /\ w_outbox w1 = w_outbox w ++ [p]
           /\ pc_title p = "Device Offline Alert"
           /\ pc_text p = "Device *" +:+ name +:+ "* is still offline (duration: "
                          +:+ mins +:+ " minutes)")
     \/ (~ reminder_due config (default PNone (w_tags w !! "last_offline_reminder"))
           (clock e (S (w_clock w)))
         /\ w_outbox (_check_offline_status config e w).2 = w_outbox w
         /\ w_tags (_check_offline_status config e w).2 = w_tags w))
  /\ (forall (es : list env) (w : world),
        offline_reminder_interval_minutes config = 0 ->
        truthy (default (PBool false) (w_tags w !! "offline_alert_sent")) = true ->
        (forall e, In e es -> forall n info,
           get_agent_connection e n = Some info ->
           eq_str (dict_get info "determination") "online" = false) ->
        exists posts,
          w_outbox (run_ticks config es w) = w_outbox w ++ posts
          /\ forall p, In p posts -> pc_title p <> "Device Offline Alert").
Proof.
  split.
  - intros e w connection_info last_online Hurl Hconn Honline Htruthy Hparse Hge Hsent.
    destruct (offline_check_past_threshold config e _ _ _ Hconn Honline Htruthy
                Hparse Hge) as (w0 & Heq & Ht0 & Hl0 & Ho0 & Hc0).
    rewrite Heq. rewrite <- Ht0, <- Hc0 in *.
    destruct (reminder_due_dec config
                (default PNone (w_tags w0 !! "last_offline_reminder"))
                (clock e (w_clock w0))) as [Hdue | Hnot].
    + left. split; [exact Hdue |].
      destruct (alert_or_remind_due config e
                  (Some (clock e (w_clock w) - last_online)) w0 Hurl Hsent Hdue)
        as (w1 & p & name & mins & k & Hrun & Hout & Htitle & Htext & _).
      exists w1, p, name, mins. rewrite Ho0 in Hout. auto.
    + right. split; [exact Hnot |].
      destruct (alert_or_remind_not_due config e
                  (Some (clock e (w_clock w) - last_online)) w0 Hsent Hnot)
        as (Hout & _ & Htags & _).
      split.
      * rewrite Hout, Ho0. apply app_nil_r.
      * apply map_eq. intros k. apply Htags. tauto.
  - intros es w Hzero Hsent Hconn.
    apply run_ticks_reminders_off; auto. lia.
Qed.

Lemma C5_witness :
  ((reminder_due (H := Ref.lib) Scenario.cfg
      (default PNone (w_tags Scenario.alerted !! "last_offline_reminder"))
      (clock (Scenario.device (Some Scenario.offline) Scenario.t0)
         (S (w_clock Scenario.alerted)))
    /\ exists w1 p name mins,
         _check_offline_status (H := Ref.lib) Scenario.cfg
           (Scenario.device (Some Scenario.offline) Scenario.t0) Scenario.alerted
         = (Ok tt, w1)
         /\ w_outbox w1 = w_outbox Scenario.alerted ++ [p]
         /\ pc_title p = "Device Offline Alert"
         /\ pc_text p = "Device *" +:+ name +:+ "* is still offline (duration: "
                        +:+ mins +:+ " minutes)")
   \/ (~ reminder_due (H := Ref.lib) Scenario.cfg
         (default PNone (w_tags Scenario.alerted !! "last_offline_reminder"))
         (clock (Scenario.device (Some Scenario.offline) Scenario.t0)
            (S (w_clock Scenario.alerted)))
       /\ w_outbox (_check_offline_status (H := Ref.lib) Scenario.cfg
                      (Scenario.device (Some Scenario.offline) Scenario.t0)
                      Scenario.alerted).2 = w_outbox Scenario.alerted
       /\ w_tags (_check_offline_status (H := Ref.lib) Scenario.cfg
                    (Scenario.device (Some Scenario.offline) Scenario.t0)
                    Scenario.alerted).2 = w_tags Scenario.alerted))
  /\ exists posts,
       w_outbox (run_ticks (H := Ref.lib)
                   (Scenario.with_reminder_interval 0 Scenario.cfg)
                   [Scenario.device (Some Scenario.offline) Scenario.t0;
                    Scenario.device (Some Scenario.offline)
                      (Scenario.t0 + 600 * Scenario.minute)]
                   Scenario.alerted)
       = w_outbox Scenario.alerted ++ posts
       /\ forall p, In p posts -> pc_title p <> "Device Offline Alert".
Proof.
  split.
  - apply (proj1 (C5_reminder_iff_due (H := Ref.lib) Scenario.cfg)
             (Scenario.device (Some Scenario.offline) Scenario.t0)
             Scenario.alerted Scenario.offline
             (Scenario.t0 - 39 * Scenario.minute)); try reflexivity.
    vm_compute. discriminate.
  - apply (proj2 (C5_reminder_iff_due (H := Ref.lib)
                    (Scenario.with_reminder_interval 0 Scenario.cfg)));
      try reflexivity.
    intros e [<- | [<- | []]] n info Hinfo; inversion Hinfo; reflexivity.
Defined.

(** C6: a rule whose tag has a numeric value, out of its cooldown period,
    with an upper limit that the value exceeds, and whose template formats:
    the rule posts exactly one alert, titled "Threshold Alert: High Value",
    whose text is the template with the limit rendered as [>] followed by
    the upper limit; it writes the time of the tick to the cooldown tag; and
    the lower limit plays no part, since the rule does the same with any
    other lower limit. *)
Theorem C6_upper_limit_takes_priority `{PyLib} (config : SlackProcessorConfig)
    (e : env) (tag_values : gmap string pyval) (name : pyval) (now : Z)
    (rule : ThresholdRule) (w : world) (tag : string) (raw : pyval)
    (value : pyfloat) (upper : pynum) (message : string) :
  str_set (slack_webhook_url config) = true ->
  tag_name rule = Some tag -> tag <> "" ->
  tag_values !! tag = Some raw -> raw <> PNone ->
  py_float raw = Ok value ->
  cooled_down (default PNone (w_tags w !! ("threshold_cooldown_" +:+ tag)))
    (default 15 (cooldown_minutes rule)) now ->
  upper_limit rule = Some upper ->
  value_gt value upper = true ->
  format (default default_alert_message (alert_message rule))
    [("tag", PStr tag); ("value", PFloat value);
     ("limit", PStr (">" +:+ py_str (val_of_num upper))); ("device", name)]
  = Ok message ->
  exists w' p,
    threshold_rule config e tag_values name now rule w = (Ok tt, w')
    /\ w_outbox w' = w_outbox w ++ [p]
    /\ pc_title p = "Threshold Alert: High Value"
    /\ pc_text p = message
    /\ pc_color p = "#ff9900"
    /\ w_tags w' !! ("threshold_cooldown_" +:+ tag) = Some (PStr (isoformat now))
    /\ forall lower,
         threshold_rule config e tag_values name now
           (with_limits (Some upper) lower rule) w
         = threshold_rule config e tag_values name now rule w.
Proof.
  intros Hurl Htag Hne Hraw Hnone Hfloat Hcool Hupper Hgt Hfmt.
  assert (Hgo : forall lower, exists w' p,
            threshold_rule config e tag_values name now
              (with_limits (Some upper) lower rule) w = (Ok tt, w')
            /\ (threshold_rule config e tag_values name now
                  (with_limits (Some upper) lower rule) w
                = threshold_rule config e tag_values name now rule w)
            /\ w_outbox w' = w_outbox w ++ [p]
            /\ pc_title p = "Threshold Alert: High Value"
            /\ pc_text p = message /\ pc_color p = "#ff9900"
            /\ w_tags w' !! ("threshold_cooldown_" +:+ tag)
               = Some (PStr (isoformat now))).
  { intros lower.
    rewrite (threshold_rule_numeric config e tag_values name now
               (with_limits (Some upper) lower rule) tag raw value w
               Htag Hne Hraw Hnone Hfloat).
    rewrite (threshold_rule_numeric config e tag_values name now rule tag raw
               value w Htag Hne Hraw Hnone Hfloat).
    unfold check_limits. cbv zeta. simpl. rewrite Hupper.
    destruct (in_cooldown_cooled _ _ _ w Hcool) as (w1 & Hrun1 & Ht1 & Ho1 & _).
    rewrite !(bind_ok _ _ _ _ _ Hrun1). unfold crossed. rewrite Hgt.
    destruct (threshold_alert_run config e
                (default default_alert_message (alert_message rule)) tag value
                name now (">" +:+ py_str (val_of_num upper))
                "Threshold Alert: High Value" "#ff9900" message w1 Hurl Hfmt)
      as (w2 & p & Hrun2 & Ho2 & Hp).
    exists w2, p. split; [exact Hrun2 |]. split; [reflexivity |].
    split; [now rewrite Ho2, Ho1 | exact Hp]. }
  destruct (Hgo (lower_limit rule)) as (w' & p & Hrun & Hsame & Hrest).
  rewrite Hsame in Hrun.
  exists w', p. split; [exact Hrun |].
  destruct Hrest as (Ho & Ht & Hx & Hc & Hk).
  repeat split; auto.
  intros lower. destruct (Hgo lower) as (_ & _ & _ & Heq & _). exact Heq.
Qed.

Lemma C6_witness :
  exists w' p,
    threshold_rule (H := Ref.lib) Scenario.cfg
      (Scenario.device (Some Scenario.online) Scenario.t0)
      {[ "temp" := PFloat (Fin (150 # 1)) ]} (PStr "pump-1") Scenario.t0
      Scenario.rule_temp Scenario.fresh = (Ok tt, w')
    /\ w_outbox w' = w_outbox Scenario.fresh ++ [p]
    /\ pc_title p = "Threshold Alert: High Value"
    /\ pc_text p = "temp is 150.0 (threshold: >100) on pump-1"
    /\ pc_color p = "#ff9900"
    /\ w_tags w' !! ("threshold_cooldown_" +:+ "temp")
       = Some (PStr (Ref.iso_string Scenario.t0))
    /\ forall lower,
         threshold_rule (H := Ref.lib) Scenario.cfg
           (Scenario.device (Some Scenario.online) Scenario.t0)
           {[ "temp" := PFloat (Fin (150 # 1)) ]} (PStr "pump-1") Scenario.t0
           (with_limits (Some (NInt 100)) lower Scenario.rule_temp) Scenario.fresh
         = threshold_rule (H := Ref.lib) Scenario.cfg
             (Scenario.device (Some Scenario.online) Scenario.t0)
             {[ "temp" := PFloat (Fin (150 # 1)) ]} (PStr "pump-1") Scenario.t0
             Scenario.rule_temp Scenario.fresh.
Proof.
  apply (C6_upper_limit_takes_priority (H := Ref.lib) Scenario.cfg
           (Scenario.device (Some Scenario.online) Scenario.t0)
           {[ "temp" := PFloat (Fin (150 # 1)) ]} (PStr "pump-1") Scenario.t0
           Scenario.rule_temp Scenario.fresh "temp" (PFloat (Fin (150 # 1)))
           (Fin (150 # 1)) (NInt 100)
           "temp is 150.0 (threshold: >100) on pump-1");
    try reflexivity; try discriminate.
  left. reflexivity.
Defined.

(** C6, the claim as the spec words it, against the code.  The rule of
    [Scenario.rule_unit] is evaluated on a tick with the numeric value 150,
    its tag is not in cooldown, its upper limit 100 is set and exceeded; yet
    its template names [{unit}], so line 220 raises [KeyError]: no High Value
    alert is posted and the cooldown tag is not written, in the loop body
    and on the whole tick. *)
Lemma C6_counterexample :
  tag_name Scenario.rule_unit = Some "temp"
  /\ py_float (H := Ref.lib) (dict_get Scenario.readings "temp")
     = Ok (Fin (150 # 1))
  /\ w_tags Scenario.fresh !! ("threshold_cooldown_" +:+ "temp") = None
  /\ upper_limit Scenario.rule_unit = Some (NInt 100)
  /\ value_gt (Fin (150 # 1)) (NInt 100) = true
  /\ (threshold_rule (H := Ref.lib) Scenario.cfg
        (Scenario.device (Some Scenario.online) Scenario.t0) Scenario.readings
        (PStr "pump-1") Scenario.t0 Scenario.rule_unit Scenario.fresh).1
     = Raise (KeyError "unit")
  /\ w_outbox (threshold_rule (H := Ref.lib) Scenario.cfg
                 (Scenario.device (Some Scenario.online) Scenario.t0)
                 Scenario.readings (PStr "pump-1") Scenario.t0
                 Scenario.rule_unit Scenario.fresh).2 = []
  /\ w_tags (threshold_rule (H := Ref.lib) Scenario.cfg
               (Scenario.device (Some Scenario.online) Scenario.t0)
               Scenario.readings (PStr "pump-1") Scenario.t0
               Scenario.rule_unit Scenario.fresh).2
       !! ("threshold_cooldown_" +:+ "temp") = None
  /\ (on_schedule (H := Ref.lib)
        (Scenario.with_rules [Scenario.rule_unit] Scenario.cfg)
        (Scenario.device (Some Scenario.online) Scenario.t0) Scenario.fresh).1
     = Raise (KeyError "unit")
  /\ w_outbox (on_schedule (H := Ref.lib)
                 (Scenario.with_rules [Scenario.rule_unit] Scenario.cfg)
                 (Scenario.device (Some Scenario.online) Scenario.t0)
                 Scenario.fresh).2 = []
  /\ w_tags (on_schedule (H := Ref.lib)
               (Scenario.with_rules [Scenario.rule_unit] Scenario.cfg)
               (Scenario.device (Some Scenario.online) Scenario.t0)
               Scenario.fresh).2
       !! ("threshold_cooldown_" +:+ "temp") = None.
Proof. repeat split; vm_compute; reflexivity. Qed.

(** C7: a rule on a tag that is in its cooldown period (the time of the last
    alert is set, parses, and lies less than the rule's cooldown back) posts
    nothing and writes nothing, whatever its limits are.  And over two
    consecutive ticks, when every reading of the clock in the second is less
    than the cooldown (of every rule on the tag) after every reading in the
    first and not before it: the cooldown tag of the tag is written at most
    once; the threshold alerts that the two ticks added to the outbox are
    exactly as many as the writes of cooldown tags, one write with each
    alert; so when the rules are all on the tag, the outbox has at most one
    threshold alert more than before the two ticks.  A post does not name its
    tag; what ties the alerts of the tag to its cooldown tag is that a rule
    on the tag, evaluated with a webhook URL, posts as many threshold alerts
    as it makes writes of that cooldown tag. *)
Theorem C7_cooldown_suppresses_alerts `{PyLib} (config : SlackProcessorConfig)
    (tag : string) :
  (forall (e : env) (tag_values : gmap string pyval) (name : pyval) (now : Z)
          (rule : ThresholdRule) (w : world),
     tag_name rule = Some tag ->
     cooling (default PNone (w_tags w !! ("threshold_cooldown_" +:+ tag)))
       (default 15 (cooldown_minutes rule)) now ->
     w_outbox (threshold_rule config e tag_values name now rule w).2 = w_outbox w
     /\ w_tags (threshold_rule config e tag_values name now rule w).2 = w_tags w
     /\ forall upper lower,
          threshold_rule config e tag_values name now
            (with_limits upper lower rule) w
          = threshold_rule config e tag_values name now rule w)
  /\ (forall (e : env) (tag_values : gmap string pyval) (name : pyval) (now : Z)
             (rule : ThresholdRule) (w : world),
        str_set (slack_webhook_url config) = true ->
        tag_name rule = Some tag ->
        exists posts ops,
          w_outbox (threshold_rule config e tag_values name now rule w).2
          = w_outbox w ++ posts
          /\ w_log (threshold_rule config e tag_values name now rule w).2
             = w_log w ++ ops
          /\ length (List.filter threshold_post posts)
             = length (sets_of ("threshold_cooldown_" +:+ tag) ops))
  /\ (forall (e1 e2 : env) (w : world),
        (forall n, truthy (PStr (isoformat (clock e1 n))) = true
                   /\ parse_time (PStr (isoformat (clock e1 n)))
                      = Ok (Aware (clock e1 n))) ->
        (forall n, truthy (PStr (isoformat (clock e2 n))) = true
                   /\ parse_time (PStr (isoformat (clock e2 n)))
                      = Ok (Aware (clock e2 n))) ->
        (forall rule, In rule (tag_thresholds config) -> tag_name rule = Some tag ->
           forall n m, 0 <= clock e2 m - clock e1 n
                       < default 15 (cooldown_minutes rule) * 60000000) ->
        exists ops posts,
          w_log (on_schedule config e2 (on_schedule config e1 w).2).2
          = w_log w ++ ops
          /\ w_outbox (on_schedule config e2 (on_schedule config e1 w).2).2
             = w_outbox w ++ posts
          /\ (length (sets_of ("threshold_cooldown_" +:+ tag) ops) <= 1)%nat
          /\ length (List.filter threshold_post posts)
             = length (List.filter cooldown_write ops)
          /\ ((forall rule t, In rule (tag_thresholds config) ->
                 tag_name rule = Some t -> t = tag) ->
              (length (List.filter threshold_post posts) <= 1)%nat)).
Proof.
  split; [| split].
  - intros e tag_values name now rule w Htag Hcool.
    assert (Hrun : forall upper lower, exists w',
              threshold_rule config e tag_values name now
                (with_limits upper lower rule) w
              = threshold_rule config e tag_values name now rule w
              /\ (threshold_rule config e tag_values name now rule w).2 = w'
              /\ w_outbox w' = w_outbox w /\ w_tags w' = w_tags w).
    { intros upper lower. unfold threshold_rule. simpl. rewrite Htag.
      destruct (String.eqb tag ""); [now exists w |].
      assert (Hgo : forall raw, exists w',
                match py_float raw with
                | Ok value =>
                    check_limits config e (with_limits upper lower rule) tag value
                      name now
                | Raise TypeError | Raise ValueError => mret tt
                | Raise err => lift (Raise err)
                end w
                = match py_float raw with
                  | Ok value => check_limits config e rule tag value name now
                  | Raise TypeError | Raise ValueError => mret tt
                  | Raise err => lift (Raise err)
                  end w
                /\ (match py_float raw with
                    | Ok value => check_limits config e rule tag value name now
                    | Raise TypeError | Raise ValueError => mret tt
                    | Raise err => lift (Raise err)
                    end w).2 = w'
                /\ w_outbox w' = w_outbox w /\ w_tags w' = w_tags w).
      { intros raw. destruct (py_float raw) as [value | err].
        - unfold check_limits. cbv zeta. simpl.
          destruct (in_cooldown_cooling _ _ _ w Hcool) as (w1 & Hin & Ht & Ho & _).
          rewrite !(bind_ok _ _ _ _ _ Hin). exists w1. auto.
        - exists w. destruct err; auto. }
      specialize (Hgo (dict_get tag_values tag)).
      destruct (dict_get tag_values tag); first [now exists w | exact Hgo]. }
    destruct (Hrun None None) as (w' & _ & Hw' & Ho & Ht). rewrite Hw'.
    split; [exact Ho |]. split; [exact Ht |].
    intros upper lower. destruct (Hrun upper lower) as (_ & Heq & _). exact Heq.
  - intros e tag_values name now rule w Hurl Htag.
    destruct (linked_threshold_rule config e
                (write_of ("threshold_cooldown_" +:+ tag)) (fun _ => eq_refl)
                (write_of_offline tag) (write_of_stat tag) tag_values name now
                rule Hurl) with (w := w) as (posts & ops & Ho & Hl & Hn).
    { intros tag' v Htag'. rewrite Htag in Htag'. inversion Htag'; subst tag'.
      simpl. apply String.eqb_refl. }
    exists posts, ops. rewrite <- length_filter_write_of. auto.
  - intros e1 e2 w Hrt1 Hrt2 Hwin.
    assert (Hpos : forall rule, In rule (tag_thresholds config) ->
              tag_name rule = Some tag -> 0 < default 15 (cooldown_minutes rule)).
    { intros rule Hin Htag. specialize (Hwin rule Hin Htag O O). lia. }
    destruct (on_schedule_writes config e1 tag w Hrt1 Hpos) as (vs1 & Hw1 & Hvs1 & _).
    destruct (on_schedule_writes config e2 tag (on_schedule config e1 w).2 Hrt2 Hpos)
      as (vs2 & Hw2 & Hvs2 & Hcool2).
    destruct (writes_trans _ _ _ _ _ _ Hw1 Hw2) as ((ops & Hlog & Hsets) & _).
    assert (Hone : (length (sets_of ("threshold_cooldown_" +:+ tag) ops) <= 1)%nat).
    { rewrite Hsets.
      destruct Hvs1 as [-> | (n & ->)].
      + destruct Hvs2 as [-> | (m & ->)]; simpl; lia.
      + assert (vs2 = []) as ->; [| simpl; lia].
        apply Hcool2. intros m rule Hin Htag.
        destruct Hw1 as (_ & Ht1). simpl in Ht1. rewrite Ht1. simpl.
        destruct (Hrt1 n) as (Hset & Hparse).
        split; [exact Hset |]. exists (clock e1 n). split; [exact Hparse |].
        specialize (Hwin rule Hin Htag n m). lia. }
    destruct (linked_then cooldown_write (on_schedule config e1)
                (on_schedule config e2)
                (linked_on_schedule config e1 cooldown_write (fun _ => eq_refl)
                   cooldown_write_offline cooldown_write_stat
                   (fun _ t _ _ _ => prefix_append "threshold_cooldown_" t))
                (linked_on_schedule config e2 cooldown_write (fun _ => eq_refl)
                   cooldown_write_offline cooldown_write_stat
                   (fun _ t _ _ _ => prefix_append "threshold_cooldown_" t)) w)
      as (posts & ops' & Hout & Hlog' & Hlen).
    rewrite Hlog in Hlog'. apply app_inv_head in Hlog'. subst ops'.
    exists ops, posts.
    split; [exact Hlog |]. split; [exact Hout |]. split; [exact Hone |].
    split; [exact Hlen |].
    intros Hall.
    assert (Hkey : forall rule t v, In rule (tag_thresholds config) ->
              tag_name rule = Some t ->
              write_of ("threshold_cooldown_" +:+ tag)
                (Set_ ("threshold_cooldown_" +:+ t) v) = true).
    { intros rule t v Hin Ht. rewrite (Hall rule t Hin Ht). simpl.
      apply String.eqb_refl. }
    destruct (linked_then (write_of ("threshold_cooldown_" +:+ tag))
                (on_schedule config e1) (on_schedule config e2)
                (linked_on_schedule config e1 _ (fun _ => eq_refl)
                   (write_of_offline tag) (write_of_stat tag) Hkey)
                (linked_on_schedule config e2 _ (fun _ => eq_refl)
                   (write_of_offline tag) (write_of_stat tag) Hkey) w)
      as (posts' & ops' & Hout' & Hlog' & Hlen').
    rewrite Hlog in Hlog'. apply app_inv_head in Hlog'. subst ops'.
    rewrite Hout in Hout'. apply app_inv_head in Hout'. subst posts'.
    rewrite Hlen', length_filter_write_of. exact Hone.
Qed.

Lemma C7_witness :
  exists ops posts,
    w_log (on_schedule (H := Ref.lib) Scenario.cfg
             (Scenario.frozen (Some Scenario.online)
                (Scenario.t0 + 5 * Scenario.minute))
             (on_schedule (H := Ref.lib) Scenario.cfg
                (Scenario.frozen (Some Scenario.online) Scenario.t0)
                Scenario.fresh).2).2
    = w_log Scenario.fresh ++ ops
    /\ w_outbox (on_schedule (H := Ref.lib) Scenario.cfg
                   (Scenario.frozen (Some Scenario.online)
                      (Scenario.t0 + 5 * Scenario.minute))
                   (on_schedule (H := Ref.lib) Scenario.cfg
                      (Scenario.frozen (Some Scenario.online) Scenario.t0)
                      Scenario.fresh).2).2
       = w_outbox Scenario.fresh ++ posts
    /\ (length (sets_of ("threshold_cooldown_" +:+ "temp") ops) <= 1)%nat
    /\ length (List.filter threshold_post posts)
       = length (List.filter cooldown_write ops)
    /\ (length (List.filter threshold_post posts) <= 1)%nat.
Proof.
  destruct (proj2 (proj2 (C7_cooldown_suppresses_alerts (H := Ref.lib)
                            Scenario.cfg "temp"))
              (Scenario.frozen (Some Scenario.online) Scenario.t0)
              (Scenario.frozen (Some Scenario.online)
                 (Scenario.t0 + 5 * Scenario.minute))
              Scenario.fresh)
    as (ops & posts & Hlog & Hout & Hone & Hlen & Hall).
  - intros n. split; reflexivity.
  - intros n. split; reflexivity.
  - intros rule [<- | []] _ n m. vm_compute. split; [discriminate | reflexivity].
  - exists ops, posts.
    split; [exact Hlog |]. split; [exact Hout |]. split; [exact Hone |].
    split; [exact Hlen |].
    apply Hall. intros rule t [<- | []] Ht. simpl in Ht. congruence.
Defined.

(** C2, as the code has it: a template in which a placeholder with a plain
    name outside the keyword arguments follows text and placeholders that
    format makes [str.format] raise [KeyError].  In [on_message_create] the
    exception leaves the handler: nothing is posted, and the tag store is
    neither read nor written.  In the loop over the threshold rules it
    leaves the loop at the rule whose alert it is: that alert is not posted,
    its cooldown is not written, and the rules after it are not evaluated.
    And it leaves [on_schedule]: when the tick with the rules before that
    rule alone ends normally, the tick with that rule and any rules after it
    raises the [KeyError] with the outbox and the tags of that shorter tick,
    after one more read, of the cooldown tag of the rule. *)
Theorem C2_template_error_propagates `{PyLib} (config : SlackProcessorConfig)
    (e : env) (pre name tail : string) :
  plain_name name = true ->
  (forall (event : MessageCreateEvent) (w : world),
     channel_alerts_enabled config = true ->
     str_set (slack_webhook_url config) = true ->
     channel_message_template config
     = pre +:+ String "{" (name +:+ String "}" tail) ->
     known_prefix ["channel"; "data"; "device"] pre ->
     ~ In name ["channel"; "data"; "device"] ->
     exists w', on_message_create config e event w = (Raise (KeyError name), w')
       /\ w_outbox w' = w_outbox w /\ w_tags w' = w_tags w /\ w_log w' = w_log w)
  /\ (forall (tag_values : gmap string pyval) (device_name : pyval) (now : Z)
             (rule : ThresholdRule) (rest : list ThresholdRule) (w : world)
             (tag : string) (raw : pyval) (value : pyfloat),
        tag_name rule = Some tag -> tag <> "" ->
        tag_values !! tag = Some raw -> raw <> PNone ->
        py_float raw = Ok value ->
        cooled_down (default PNone (w_tags w !! ("threshold_cooldown_" +:+ tag)))
          (default 15 (cooldown_minutes rule)) now ->
        crossed (upper_limit rule) (value_gt value) <> None
        \/ crossed (lower_limit rule) (value_lt value) <> None ->
        alert_message rule = Some (pre +:+ String "{" (name +:+ String "}" tail)) ->
        known_prefix ["tag"; "value"; "limit"; "device"] pre ->
        ~ In name ["tag"; "value"; "limit"; "device"] ->
        exists w',
          for_each (threshold_rule config e tag_values device_name now)
            (rule :: rest) w = (Raise (KeyError name), w')
          /\ w_outbox w' = w_outbox w /\ w_tags w' = w_tags w)
  /\ (forall (tag_values : gmap string pyval) (rule : ThresholdRule)
             (earlier rest : list ThresholdRule) (w w1 : world)
             (tag : string) (raw : pyval) (value : pyfloat),
        str_set (slack_webhook_url config) = true ->
        threshold_alerts_enabled config = true ->
        on_schedule (Scenario.with_rules earlier config) e w = (Ok tt, w1) ->
        (forall n, get_aggregate e n = Some tag_values) ->
        tag_name rule = Some tag -> tag <> "" ->
        tag_values !! tag = Some raw -> raw <> PNone ->
        py_float raw = Ok value ->
        (forall n,
           cooled_down
             (default PNone (w_tags w1 !! ("threshold_cooldown_" +:+ tag)))
             (default 15 (cooldown_minutes rule)) (clock e n)) ->
        crossed (upper_limit rule) (value_gt value) <> None
        \/ crossed (lower_limit rule) (value_lt value) <> None ->
        alert_message rule = Some (pre +:+ String "{" (name +:+ String "}" tail)) ->
        known_prefix ["tag"; "value"; "limit"; "device"] pre ->
        ~ In name ["tag"; "value"; "limit"; "device"] ->
        exists w',
          on_schedule (Scenario.with_rules (earlier ++ rule :: rest) config) e w
          = (Raise (KeyError name), w')
          /\ w_outbox w' = w_outbox w1 /\ w_tags w' = w_tags w1
          /\ w_log w' = w_log w1 ++ [Get ("threshold_cooldown_" +:+ tag)]).
Proof.
  intros Hname. split; [| split].
  - intros event w Hen Hurl Htemplate Hpre Hnot.
    unfold on_message_create. rewrite Hen, Hurl. simpl.
    destruct (_get_device_name_ok config e w)
      as (device_name & w1 & Hrun & Ht & Hl & Ho & _).
    step_with Hrun. cbv zeta. rewrite Htemplate.
    match goal with
    | |- context [format _ ?kw] =>
        rewrite (format_unknown_placeholder kw pre name tail Hpre Hname Hnot)
    end.
    exists w1. split; [reflexivity | auto].
  - intros tag_values device_name now rule rest w tag raw value
      Htag Hne Hraw Hnone Hfloat Hcool Hcross Hmsg Hpre Hnot.
    assert (Hfmt : forall limit,
              format (pre +:+ String "{" (name +:+ String "}" tail))
                [("tag", PStr tag); ("value", PFloat value);
                 ("limit", PStr limit); ("device", device_name)]
              = Raise (KeyError name)).
    { intros limit.
      now apply (format_unknown_placeholder
                   [("tag", PStr tag); ("value", PFloat value);
                    ("limit", PStr limit); ("device", device_name)]). }
    destruct (in_cooldown_cooled _ _ _ w Hcool) as (w1 & Hrun1 & Ht1 & Ho1 & _).
    exists w1. split; [| auto].
    apply for_each_raise.
    rewrite (threshold_rule_numeric config e tag_values device_name now rule tag
               raw value w Htag Hne Hraw Hnone Hfloat).
    unfold check_limits. cbv zeta. step_with Hrun1. rewrite Hmsg.
    change (default default_alert_message (Some ?t)) with t.
    destruct (crossed (upper_limit rule) (value_gt value)) as [upper |].
    + unfold threshold_alert. rewrite Hfmt. reflexivity.
    + destruct (crossed (lower_limit rule) (value_lt value)) as [lower |].
      * unfold threshold_alert. rewrite Hfmt. reflexivity.
      * now destruct Hcross.
  - intros tag_values rule earlier rest w w1 tag raw value Hurl Hthr Hearlier
      Hagg Htag Hne Hraw Hnone Hfloat Hcool Hcross Hmsg Hpre Hnot.
    revert Hearlier. unfold on_schedule.
    cbn [Scenario.with_rules slack_webhook_url offline_alerts_enabled
         threshold_alerts_enabled].
    change (_check_offline_status (Scenario.with_rules earlier config) e)
      with (_check_offline_status config e).
    change (_check_offline_status
              (Scenario.with_rules (earlier ++ rule :: rest) config) e)
      with (_check_offline_status config e).
    rewrite Hurl, Hthr. cbn [negb].
    destruct ((if offline_alerts_enabled config
               then _check_offline_status config e else mret tt) w)
      as [[[] | err] w0] eqn:Hoff.
    + rewrite !(bind_ok _ _ _ _ _ Hoff). intros Hearlier.
      now apply (thresholds_template_error config e earlier rest rule tag_values
                   w0 w1 tag raw value pre name tail).
    + rewrite (bind_raise _ _ _ _ _ Hoff). discriminate.
Qed.

Lemma C2_witness :
  exists w',
    on_schedule (H := Ref.lib)
      (Scenario.with_rules
         ([Scenario.rule_pressure] ++ Scenario.rule_unit :: [Scenario.rule_temp])
         Scenario.cfg)
      (Scenario.device (Some Scenario.online) Scenario.t0) Scenario.fresh
    = (Raise (KeyError "unit"), w')
    /\ w_outbox w'
       = w_outbox (on_schedule (H := Ref.lib)
                     (Scenario.with_rules [Scenario.rule_pressure] Scenario.cfg)
                     (Scenario.device (Some Scenario.online) Scenario.t0)
                     Scenario.fresh).2
    /\ w_tags w'
       = w_tags (on_schedule (H := Ref.lib)
                   (Scenario.with_rules [Scenario.rule_pressure] Scenario.cfg)
                   (Scenario.device (Some Scenario.online) Scenario.t0)
                   Scenario.fresh).2
    /\ w_log w'
       = w_log (on_schedule (H := Ref.lib)
                  (Scenario.with_rules [Scenario.rule_pressure] Scenario.cfg)
                  (Scenario.device (Some Scenario.online) Scenario.t0)
                  Scenario.fresh).2
         ++ [Get ("threshold_cooldown_" +:+ "temp")].
Proof.
  apply (proj2 (proj2 (C2_template_error_propagates (H := Ref.lib) Scenario.cfg
                         (Scenario.device (Some Scenario.online) Scenario.t0)
                         "{tag} above {limit} " "unit" "" eq_refl))
           Scenario.readings Scenario.rule_unit [Scenario.rule_pressure]
           [Scenario.rule_temp] Scenario.fresh
           (on_schedule (H := Ref.lib)
              (Scenario.with_rules [Scenario.rule_pressure] Scenario.cfg)
              (Scenario.device (Some Scenario.online) Scenario.t0)
              Scenario.fresh).2
           "temp" (PFloat (Fin (150 # 1))) (Fin (150 # 1))).
  - reflexivity.
  - reflexivity.
  - vm_compute. reflexivity.
  - intros n. reflexivity.
  - reflexivity.
  - discriminate.
  - reflexivity.
  - discriminate.
  - reflexivity.
  - intros n. left. vm_compute. reflexivity.
  - left. discriminate.
  - reflexivity.
  - apply (known_field _ "tag" " above {limit} "); [reflexivity | simpl; tauto |].
    apply (known_text _ " above " "{limit} "); [reflexivity |].
    apply (known_field _ "limit" " "); [reflexivity | simpl; tauto |].
    apply (known_text _ " " ""); [reflexivity | apply known_nil].
  - simpl. intros [Hk | [Hk | [Hk | [Hk | []]]]]; discriminate.
Defined.

(** C2, the claim as the spec words it, against the code.  With a rule whose
    template names [{unit}] before a rule on the pressure, the tick ends in
    an uncaught [KeyError] (there is no [TemplateError], and nothing catches
    the exception inside the handler), and the alert of the pressure rule,
    which goes out when that rule is alone, is not posted; and a channel
    message with the placeholder [{payload}] ends [on_message_create] in the
    same way. *)
Lemma C2_counterexample :
  (on_schedule (H := Ref.lib)
     (Scenario.with_rules [Scenario.rule_unit; Scenario.rule_pressure] Scenario.cfg)
     (Scenario.device (Some Scenario.online) Scenario.t0) Scenario.fresh).1
  = Raise (KeyError "unit")
  /\ w_outbox (on_schedule (H := Ref.lib)
                 (Scenario.with_rules [Scenario.rule_unit; Scenario.rule_pressure]
                    Scenario.cfg)
                 (Scenario.device (Some Scenario.online) Scenario.t0)
                 Scenario.fresh).2 = []
  /\ (on_schedule (H := Ref.lib)
        (Scenario.with_rules [Scenario.rule_pressure] Scenario.cfg)
        (Scenario.device (Some Scenario.online) Scenario.t0) Scenario.fresh).1
     = Ok tt
  /\ map pc_text
       (w_outbox (on_schedule (H := Ref.lib)
                    (Scenario.with_rules [Scenario.rule_pressure] Scenario.cfg)
                    (Scenario.device (Some Scenario.online) Scenario.t0)
                    Scenario.fresh).2)
     = ["pressure is 9.0 (threshold: >5) on pump-1"]
  /\ (on_message_create (H := Ref.lib)
        (Scenario.with_template "{channel}: {payload}" Scenario.cfg)
        (Scenario.device (Some Scenario.online) Scenario.t0)
        Scenario.ui_event Scenario.fresh).1
     = Raise (KeyError "payload").
Proof. repeat split; vm_compute; reflexivity. Qed.

(** * Further properties *)

(** ** What a step posts *)

Lemma emits_weaken {A} (P P' : post_call -> Prop) n n' (m : M A) :
  (forall p, P p -> P' p) -> (n <= n')%nat -> emits P n m -> emits P' n' m.
Proof.
  intros HP Hn Hm w. destruct (Hm w) as (ps & Ho & Hlen & Hps).
  exists ps. repeat split; auto. lia.
Qed.

Lemma emits_silent {A} P n (m : M A) :
  (forall w, w_outbox (m w).2 = w_outbox w) -> emits P n m.
Proof.
  intros Hm w. exists []. rewrite Hm, app_nil_r.
  repeat split; [simpl; lia | intros p []].
Qed.

Lemma emits_ret {A} P n (a : A) : emits P n (mret a).
Proof. now apply emits_silent. Qed.

Lemma emits_lift {A} P n (o : outcome A) : emits P n (lift o).
Proof. now apply emits_silent. Qed.

Lemma emits_bind {A B} P n k (m : M A) (f : A -> M B) :
  emits P n m -> (forall a, emits P k (f a)) -> emits P (n + k) (m ≫= f).
Proof.
  intros Hm Hf w. destruct (Hm w) as (ps & Ho & Hlen & Hps).
  unfold mbind, M_bind. destruct (m w) as [[a | err] w1]; simpl in *.
  - destruct (Hf a w1) as (ps' & Ho' & Hlen' & Hps').
    exists (ps ++ ps'). repeat split.
    + rewrite Ho', Ho. now rewrite app_assoc.
    + rewrite length_app. lia.
    + intros p Hin. apply in_app_iff in Hin as [Hin | Hin]; auto.
  - exists ps. repeat split; auto. lia.
Qed.

Lemma emits_then {A B} P n (m : M A) (f : A -> M B) :
  emits P 0 m -> (forall a, emits P n (f a)) -> emits P n (m ≫= f).
Proof. intros Hm Hf. exact (emits_bind P 0 n m f Hm Hf). Qed.

Lemma emits_before {A B} P n (m : M A) (f : A -> M B) :
  emits P n m -> (forall a, emits P 0 (f a)) -> emits P n (m ≫= f).
Proof.
  intros Hm Hf. eapply emits_weaken; [| | exact (emits_bind P n 0 m f Hm Hf)];
    [auto | lia].
Qed.

Lemma emits_try_except {A} P n (m : M A) (h : exn -> M A) :
  emits P n m -> (forall err, emits P 0 (h err)) -> emits P n (try_except m h).
Proof.
  intros Hm Hh w. destruct (Hm w) as (ps & Ho & Hlen & Hps).
  unfold try_except. destruct (m w) as [[a | err] w1]; simpl in *.
  - exists ps. auto.
  - destruct (Hh err w1) as (ps' & Ho' & Hlen' & Hps').
    exists (ps ++ ps'). repeat split.
    + rewrite Ho', Ho. now rewrite app_assoc.
    + rewrite length_app. lia.
    + intros p Hin. apply in_app_iff in Hin as [Hin | Hin]; auto.
Qed.

Lemma emits_for_each {A} P (body : A -> M unit) xs :
  (forall x, emits P 1 (body x)) -> emits P (length xs) (for_each body xs).
Proof.
  intros Hb. induction xs as [| x xs IH]; simpl.
  - apply emits_ret.
  - exact (emits_bind P 1 (length xs) _ _ (Hb x) (fun _ => IH)).
Qed.

Section Posts.
Context `{PyLib} (config : SlackProcessorConfig) (e : env).

Lemma emits_get_tag P n key d : emits P n (get_tag key d).
Proof. now apply emits_silent. Qed.

Lemma emits_set_tag P n key v : emits P n (set_tag key v).
Proof. now apply emits_silent. Qed.

Lemma emits_datetime_now P n : emits P n (datetime_now e).
Proof. now apply emits_silent. Qed.

Lemma emits_api_call {A} P n (answer : nat -> A) : emits P n (api_call answer).
Proof. now apply emits_silent. Qed.

Lemma emits_post (P : post_call -> Prop) call : P call -> emits P 1 (post e call).
Proof.
  intros HP w. exists [call]. repeat split; [simpl; lia |].
  now intros p [<- | []].
Qed.

Lemma emits__update_error P n error : emits P n (_update_error e error).
Proof.
  unfold _update_error. apply emits_try_except; [| intros; apply emits_ret].
  apply emits_then; [apply emits_set_tag | intros _].
  apply emits_then; [apply emits_datetime_now | intros t]. apply emits_set_tag.
Qed.

Lemma emits__increment_stat P n stat_name : emits P n (_increment_stat e stat_name).
Proof.
  unfold _increment_stat. apply emits_try_except; [| intros; apply emits_ret].
  apply emits_then; [apply emits_get_tag | intros current].
  apply emits_then; [apply emits_lift | intros next].
  apply emits_then; [apply emits_set_tag | intros _].
  apply emits_then; [apply emits_datetime_now | intros t]. apply emits_set_tag.
Qed.

Lemma emits__get_device_name P n : emits P n (_get_device_name config e).
Proof.
  unfold _get_device_name. destruct (negb _); [apply emits_ret |].
  apply emits_then; [apply emits_api_call | intros [info |]]; apply emits_ret.
Qed.

(** Lines 253-285: the one request of [_send_slack_message]. *)
Lemma emits__send_slack_message text title color :
  emits (fun p => payload_ok config p /\ pc_title p = title
                  /\ pc_text p = text /\ pc_color p = color) 1
    (_send_slack_message config e text title color).
Proof.
  unfold _send_slack_message.
  destruct (slack_webhook_url config) as [url |] eqn:Hurl; [| apply emits_ret].
  destruct (String.eqb_spec url "") as [-> | Hne]; [apply emits_ret |].
  apply emits_then; [apply emits_datetime_now | intros now].
  apply emits_before.
  - apply emits_post. simpl. split; [| auto].
    unfold payload_ok. simpl. rewrite Hurl.
    split; [reflexivity |]. split; [exact Hne |].
    split; [| split; [| split; [| split; [| split; [reflexivity | split]]]]].
    + destruct (slack_username config) as [u |]; simpl; [| discriminate].
      destruct (String.eqb_spec u ""); simpl; [discriminate | assumption].
    + destruct (slack_username config) as [u |]; simpl; [| now left].
      destruct (String.eqb_spec u ""); simpl; [now left | now right].
    + destruct (slack_channel config) as [c |]; simpl; [| discriminate].
      destruct (String.eqb_spec c ""); simpl; [discriminate | congruence].
    + destruct (slack_channel config) as [c |]; simpl; [| now left].
      destruct (String.eqb_spec c ""); simpl; [now left | now right].
    + destruct (request_timeout_seconds config) as [t |]; [| discriminate].
      destruct (Z.eqb_spec t 0); [discriminate | assumption].
    + destruct (request_timeout_seconds config) as [t |]; [| now left].
      destruct (Z.eqb_spec t 0); [now left | now right].
  - intros [code body | | msg]; try apply emits__update_error.
    destruct (code =? 200); [apply emits_ret | apply emits__update_error].
Qed.

Lemma emits_send (P : post_call -> Prop) text title color :
  (forall p, payload_ok config p -> pc_title p = title -> P p) ->
  emits P 1 (_send_slack_message config e text title color).
Proof.
  intros HP. eapply emits_weaken; [| | apply emits__send_slack_message]; [| lia].
  intros p (Hok & Ht & _). auto.
Qed.

Lemma emits__check_offline_status :
  emits (fun p => payload_ok config p /\ pc_title p = "Device Offline Alert") 1
    (_check_offline_status config e).
Proof.
  unfold _check_offline_status.
  apply emits_then; [apply emits_api_call | intros [info |]]; [| apply emits_ret].
  cbv zeta. destruct (eq_str _ _).
  { apply emits_then; [| intros _]; apply emits_set_tag. }
  apply emits_then.
  { unfold offline_duration_of. destruct (truthy _); [| apply emits_ret].
    apply emits_then; [apply emits_lift | intros dt].
    apply emits_then; [apply emits_datetime_now | intros now].
    apply emits_then; [apply emits_lift | intros d]. apply emits_ret. }
  intros d.
  destruct (match d with Some d0 => _ | None => false end); [apply emits_ret |].
  unfold alert_or_remind.
  apply emits_then; [apply emits_get_tag | intros alert_sent].
  apply emits_then; [apply emits_get_tag | intros last_reminder].
  apply emits_then; [apply emits__get_device_name | intros name].
  apply emits_then.
  { unfold offline_message. destruct (negb _); [apply emits_ret |].
    destruct (_ && _); [| apply emits_ret].
    apply emits_then; [apply emits_lift | intros dt].
    apply emits_then; [apply emits_datetime_now | intros now].
    apply emits_then; [apply emits_lift | intros since].
    destruct (minutes_geb _ _); apply emits_ret. }
  intros [message |]; [| apply emits_ret].
  apply emits_before; [apply emits_send; auto | intros _].
  apply emits_then; [apply emits_set_tag | intros _].
  apply emits_then; [apply emits_datetime_now | intros now].
  apply emits_then; [apply emits_set_tag | intros _].
  apply emits__increment_stat.
Qed.

Lemma emits_threshold_rule tag_values name now rule :
  emits (fun p => payload_ok config p /\ T_threshold (pc_title p)) 1
    (threshold_rule config e tag_values name now rule).
Proof.
  assert (Halert : forall template tag key value limit title color,
            T_threshold title ->
            emits (fun p => payload_ok config p /\ T_threshold (pc_title p)) 1
              (threshold_alert config e template tag key value name now limit
                 title color)).
  { intros template tag key value limit title color HT. unfold threshold_alert.
    apply emits_then; [apply emits_lift | intros message].
    apply emits_before.
    - apply emits_send. intros p Hok ->. auto.
    - intros _. apply emits_then; [apply emits_set_tag | intros _].
      apply emits__increment_stat. }
  unfold threshold_rule.
  destruct (tag_name rule) as [tag |]; [| apply emits_ret].
  destruct (String.eqb tag ""); [apply emits_ret |].
  assert (Hgo : forall raw,
            emits (fun p => payload_ok config p /\ T_threshold (pc_title p)) 1
              match py_float raw with
              | Ok value => check_limits config e rule tag value name now
              | Raise TypeError | Raise ValueError => mret tt
              | Raise err => lift (Raise err)
              end).
  { intros raw. destruct (py_float raw) as [value | err].
    - unfold check_limits. cbv zeta.
      apply emits_then.
      { unfold in_cooldown. apply emits_then; [apply emits_get_tag | intros last].
        destruct (truthy last); [| apply emits_ret].
        apply emits_then; [apply emits_lift | intros dt].
        apply emits_then; [apply emits_lift | intros d]. apply emits_ret. }
      intros skip. destruct skip; [apply emits_ret |].
      destruct (crossed _ _); [apply Halert; now left |].
      destruct (crossed _ _); [apply Halert; now right | apply emits_ret].
    - destruct err; first [apply emits_ret | apply emits_lift]. }
  specialize (Hgo (dict_get tag_values tag)).
  destruct (dict_get tag_values tag); first [apply emits_ret | exact Hgo].
Qed.

Lemma emits__check_tag_thresholds :
  emits (fun p => payload_ok config p /\ T_threshold (pc_title p))
    (length (tag_thresholds config)) (_check_tag_thresholds config e).
Proof.
  unfold _check_tag_thresholds.
  destruct (tag_thresholds config) as [| r rs] eqn:Hrules; [apply emits_ret |].
  apply emits_then; [apply emits_api_call | intros [tag_values |]];
    [| apply emits_ret].
  apply emits_then; [apply emits__get_device_name | intros name].
  apply emits_then; [apply emits_datetime_now | intros now].
  apply emits_for_each. intros rule. apply emits_threshold_rule.
Qed.

End Posts.

(** ** The requests of a handler *)

(** X1: whatever the device, the store and the answers of Slack, a schedule
    tick makes at most one request for the offline check and one per
    threshold rule; each goes to the configured webhook URL with a username,
    the footer and a timeout, and has one of the three alert titles of the
    two checks. *)
Theorem X1_tick_requests `{PyLib} (config : SlackProcessorConfig) (e : env)
    (w : world) :
  exists posts,
    w_outbox (on_schedule config e w).2 = w_outbox w ++ posts
    /\ (length posts <= 1 + length (tag_thresholds config))%nat
    /\ forall p, In p posts ->
         payload_ok config p
         /\ In (pc_title p) ["Device Offline Alert"; "Threshold Alert: High Value";
                             "Threshold Alert: Low Value"].
Proof.
  assert (Hm : emits (fun p => payload_ok config p
                 /\ In (pc_title p) ["Device Offline Alert";
                                     "Threshold Alert: High Value";
                                     "Threshold Alert: Low Value"])
                 (1 + length (tag_thresholds config)) (on_schedule config e)).
  { unfold on_schedule. destruct (negb _); [apply emits_ret |].
    apply emits_bind.
    - destruct (offline_alerts_enabled config); [| apply emits_ret].
      eapply emits_weaken; [| | apply emits__check_offline_status]; [| lia].
      intros p (Hok & ->). split; [exact Hok | now left].
    - intros _. destruct (threshold_alerts_enabled config); [| apply emits_ret].
      eapply emits_weaken; [| | apply emits__check_tag_thresholds]; [| lia].
      intros p (Hok & [-> | ->]); (split; [exact Hok |]);
        [right; now left | right; right; now left]. }
  exact (Hm w).
Qed.

Lemma emits_on_message_create `{PyLib} (config : SlackProcessorConfig)
    (e : env) (event : MessageCreateEvent) :
  emits (fun p => payload_ok config p
           /\ pc_title p = "Channel Alert: " +:+ channel_name event
           /\ pc_color p = "#36a64f") 1
    (on_message_create config e event).
Proof.
  unfold on_message_create. destruct (negb _); [apply emits_ret |].
  destruct (negb _); [apply emits_ret |].
  apply emits_then; [apply emits__get_device_name | intros name]. cbv zeta.
  apply emits_then; [apply emits_lift | intros message].
  apply emits_before; [| intros _; apply emits__increment_stat].
  eapply emits_weaken; [| | apply emits__send_slack_message]; [| lia].
  intros p (Hok & Ht & _ & Hc). auto.
Qed.

(** X2: a channel message makes at most one request; it goes to the
    configured webhook URL, is green, and its title is [Channel Alert: ]
    followed by the name of the channel. *)
Theorem X2_message_request `{PyLib} (config : SlackProcessorConfig) (e : env)
    (event : MessageCreateEvent) (w : world) :
  exists posts,
    w_outbox (on_message_create config e event w).2 = w_outbox w ++ posts
    /\ (length posts <= 1)%nat
    /\ forall p, In p posts ->
         payload_ok config p
         /\ pc_title p = "Channel Alert: " +:+ channel_name event
         /\ pc_color p = "#36a64f".
Proof. exact (emits_on_message_create config e event w). Qed.

(** ** The keys of the two checks *)

Lemma K_offline_keys k : K_offline k -> In k offline_keys.
Proof.
  unfold offline_keys. simpl.
  intros [[-> | ->] | [[-> | ->] | [-> | ->]]]; tauto.
Qed.

Lemma touches_for_each_in {A} K T (body : A -> M unit) xs :
  (forall x, In x xs -> touches K T (body x)) -> touches K T (for_each body xs).
Proof.
  induction xs as [| x xs IH]; intros Hb; simpl.
  - apply touches_ret.
  - apply touches_bind; [apply Hb; now left |].
    intros _. apply IH. intros y Hin. apply Hb. now right.
Qed.

Lemma touches_threshold_rule_keys `{PyLib} (config : SlackProcessorConfig)
    (e : env) rules tag_values name now rule :
  In rule rules ->
  touches (threshold_keys rules) T_threshold
    (threshold_rule config e tag_values name now rule).
Proof.
  intros Hin. unfold threshold_rule.
  destruct (tag_name rule) as [tag |] eqn:Htag; [| apply touches_ret].
  destruct (String.eqb tag ""); [apply touches_ret |].
  assert (Hgo : forall raw, touches (threshold_keys rules) T_threshold
            match py_float raw with
            | Ok value => check_limits config e rule tag value name now
            | Raise TypeError | Raise ValueError => mret tt
            | Raise err => lift (Raise err)
            end).
  { intros raw. destruct (py_float raw) as [value | err].
    - eapply touches_weaken; [| | apply touches_check_limits]; [| auto].
      unfold threshold_keys. simpl.
      intros k [[-> | ->] | [[-> | ->] | ->]]; try tauto.
      right. exists rule, tag. auto.
    - destruct err; first [apply touches_ret | apply touches_lift]. }
  specialize (Hgo (dict_get tag_values tag)).
  destruct (dict_get tag_values tag); first [apply touches_ret | exact Hgo].
Qed.

(** X3: whatever happens in it, the offline check writes no tag but its own
    six (the flag, the time of the last reminder, its counter and the time
    of it, the error record): every other tag, the cooldowns of the
    thresholds among them, is as it was. *)
Theorem X3_offline_check_keys `{PyLib} (config : SlackProcessorConfig) (e : env)
    (w : world) :
  exists ops,
    w_log (_check_offline_status config e w).2 = w_log w ++ ops
    /\ (forall k v, In (Set_ k v) ops -> In k offline_keys)
    /\ (forall k, ~ In k offline_keys ->
          w_tags (_check_offline_status config e w).2 !! k = w_tags w !! k).
Proof.
  assert (Hm : touches (fun k => In k offline_keys) T_offline
                 (_check_offline_status config e)).
  { eapply touches_weaken; [| | apply touches__check_offline_status]; [| auto].
    apply K_offline_keys. }
  destruct (Hm w) as (ps & (_ & (ops & Hlog & Hops) & Htags & _) & _).
  exists ops. auto.
Qed.

(** X4: whatever happens in it, the threshold check writes no tag but the
    cooldown keys of the tags of its rules, its counter and the error record:
    the offline state and the cooldown of a tag without a rule are as they
    were. *)
Theorem X4_threshold_check_keys `{PyLib} (config : SlackProcessorConfig)
    (e : env) (w : world) :
  exists ops,
    w_log (_check_tag_thresholds config e w).2 = w_log w ++ ops
    /\ (forall k v, In (Set_ k v) ops -> threshold_keys (tag_thresholds config) k)
    /\ (forall k, ~ threshold_keys (tag_thresholds config) k ->
          w_tags (_check_tag_thresholds config e w).2 !! k = w_tags w !! k).
Proof.
  assert (Hm : touches (threshold_keys (tag_thresholds config)) T_threshold
                 (_check_tag_thresholds config e)).
  { unfold _check_tag_thresholds.
    destruct (tag_thresholds config) as [| r rs]; [apply touches_ret |].
    apply touches_bind; [apply touches_api_call | intros [tag_values |]];
      [| apply touches_ret].
    apply touches_bind; [apply touches__get_device_name | intros name].
    apply touches_bind; [apply touches_datetime_now | intros now].
    apply touches_for_each_in. intros rule Hin.
    now apply touches_threshold_rule_keys. }
  destruct (Hm w) as (ps & (_ & (ops & Hlog & Hops) & Htags & _) & _).
  exists ops. auto.
Qed.

(** ** The counters and the error record *)

Lemma append_last_ne (s : string) : s +:+ "_last" <> s.
Proof.
  induction s as [| x s IH]; [discriminate |].
  rewrite append_cons. intros Heq. injection Heq as Heq. now apply IH.
Qed.

Lemma _increment_stat_int `{PyLib} (e : env) (stat_name : string) (w : world)
    (n : Z) :
  default (PInt 0) (w_tags w !! stat_name) = PInt n ->
  exists w',
    _increment_stat e stat_name w = (Ok tt, w')
    /\ w_tags w' !! stat_name = Some (PInt (n + 1))
    /\ w_tags w' !! (stat_name +:+ "_last")
       = Some (PStr (isoformat (clock e (w_clock w))))
    /\ (forall k, k <> stat_name -> k <> stat_name +:+ "_last" ->
          w_tags w' !! k = w_tags w !! k)
    /\ w_outbox w' = w_outbox w.
Proof.
  intros Hn. unfold _increment_stat, try_except, mbind, M_bind, get_tag, lift.
  simpl. rewrite Hn. simpl.
  eexists. split; [reflexivity |]. simpl. repeat split.
  - rewrite lookup_insert_ne by apply append_last_ne. apply lookup_insert_eq.
  - apply lookup_insert_eq.
  - intros k Hk Hk'. now rewrite !lookup_insert_ne by congruence.
Qed.

(** X5: [_increment_stat] on a counter that holds an int (or is absent, which
    counts as 0): the counter is one more, the tag named after it with
    [_last] holds the time of the clock, no other tag changes, nothing is
    posted and nothing is raised. *)
Theorem X5_stat_counts `{PyLib} (e : env) (stat_name : string) (w : world)
    (n : Z) :
  default (PInt 0) (w_tags w !! stat_name) = PInt n ->
  exists w',
    _increment_stat e stat_name w = (Ok tt, w')
    /\ w_tags w' !! stat_name = Some (PInt (n + 1))
    /\ w_tags w' !! (stat_name +:+ "_last")
       = Some (PStr (isoformat (clock e (w_clock w))))
    /\ (forall k, k <> stat_name -> k <> stat_name +:+ "_last" ->
          w_tags w' !! k = w_tags w !! k)
    /\ w_outbox w' = w_outbox w.
Proof. apply _increment_stat_int. Qed.

Lemma X5_witness :
  exists w',
    _increment_stat (H := Ref.lib) (Scenario.frozen None Scenario.t0)
      "offline_alerts_sent" Cases.counted = (Ok tt, w')
    /\ w_tags w' !! "offline_alerts_sent" = Some (PInt (41 + 1))
    /\ w_tags w' !! ("offline_alerts_sent" +:+ "_last")
       = Some (PStr (Ref.iso_string
                       (clock (Scenario.frozen None Scenario.t0)
                          (w_clock Cases.counted))))
    /\ (forall k, k <> "offline_alerts_sent" ->
          k <> "offline_alerts_sent" +:+ "_last" ->
          w_tags w' !! k = w_tags Cases.counted !! k)
    /\ w_outbox w' = w_outbox Cases.counted.
Proof.
  apply (X5_stat_counts (H := Ref.lib) (Scenario.frozen None Scenario.t0)
           "offline_alerts_sent" Cases.counted 41).
  reflexivity.
Defined.

(** X6: [_increment_stat] on a counter that holds something no 1 can be
    added to (a text, [None], a list, a dict): the [TypeError] is swallowed,
    the store is read once and not written, nothing is raised. *)
Theorem X6_stat_not_a_number `{PyLib} (e : env) (stat_name : string)
    (w : world) :
  match default (PInt 0) (w_tags w !! stat_name) with
  | PStr _ | PNone | PList _ | PDict _ => True
  | _ => False
  end ->
  exists w',
    _increment_stat e stat_name w = (Ok tt, w')
    /\ w_tags w' = w_tags w
    /\ w_log w' = w_log w ++ [Get stat_name]
    /\ w_outbox w' = w_outbox w.
Proof.
  intros Hv. unfold _increment_stat, try_except, mbind, M_bind, get_tag, lift.
  simpl.
  destruct (default (PInt 0) (w_tags w !! stat_name)); try contradiction;
    simpl; eexists; (split; [reflexivity | easy]).
Qed.

Lemma X6_witness :
  exists w',
    _increment_stat (H := Ref.lib) (Scenario.frozen None Scenario.t0)
      "offline_alerts_sent" Cases.miscounted = (Ok tt, w')
    /\ w_tags w' = w_tags Cases.miscounted
    /\ w_log w' = w_log Cases.miscounted ++ [Get "offline_alerts_sent"]
    /\ w_outbox w' = w_outbox Cases.miscounted.
Proof.
  apply (X6_stat_not_a_number (H := Ref.lib) (Scenario.frozen None Scenario.t0)
           "offline_alerts_sent" Cases.miscounted).
  exact I.
Defined.

(** X7: with a webhook URL, [_send_slack_message] never raises, and what
    Slack answered is in the store afterwards.  After a 200 the store is as
    it was, not even read.  After another status, a timeout or another
    request error, [last_error] holds the matching text and [last_error_at]
    the time of the clock after the request.  No other tag changes. *)
Theorem X7_delivery_failure_recorded `{PyLib} (config : SlackProcessorConfig)
    (e : env) (text title color : string) (w : world) :
  str_set (slack_webhook_url config) = true ->
  exists w',
    _send_slack_message config e text title color w = (Ok tt, w')
    /\ match requests_post e (length (w_outbox w)) with
       | Response status_code _ =>
           if status_code =? 200 then w_tags w' = w_tags w /\ w_log w' = w_log w
           else
             w_tags w' !! "last_error"
             = Some (PStr ("Slack API error: " +:+ py_str (PInt status_code)))
             /\ w_tags w' !! "last_error_at"
                = Some (PStr (isoformat (clock e (S (w_clock w)))))
       | Timeout =>
           w_tags w' !! "last_error" = Some (PStr "Slack request timeout")
           /\ w_tags w' !! "last_error_at"
              = Some (PStr (isoformat (clock e (S (w_clock w)))))
       | RequestException msg =>
           w_tags w' !! "last_error"
           = Some (PStr ("Slack request failed: " +:+ msg))
           /\ w_tags w' !! "last_error_at"
              = Some (PStr (isoformat (clock e (S (w_clock w)))))
       end
    /\ (forall k, k <> "last_error" -> k <> "last_error_at" ->
          w_tags w' !! k = w_tags w !! k).
Proof.
  intros Hurl. unfold _send_slack_message.
  destruct (slack_webhook_url config) as [url |]; [| discriminate].
  simpl in Hurl. destruct (String.eqb url ""); [discriminate |].
  unfold mbind, M_bind, datetime_now, post. simpl.
  assert (Hrec : forall (msg t : string) (m : gmap string pyval),
            (<["last_error_at" := PStr t]> (<["last_error" := PStr msg]> m)
               !! "last_error" = Some (PStr msg)
             /\ <["last_error_at" := PStr t]> (<["last_error" := PStr msg]> m)
                  !! "last_error_at" = Some (PStr t))
            /\ forall k, k <> "last_error" -> k <> "last_error_at" ->
                 <["last_error_at" := PStr t]> (<["last_error" := PStr msg]> m) !! k
                 = m !! k).
  { intros msg t m. repeat split.
    - rewrite lookup_insert_ne by discriminate. apply lookup_insert_eq.
    - apply lookup_insert_eq.
    - intros k Hk Hk'. now rewrite !lookup_insert_ne by congruence. }
  destruct (requests_post e (length (w_outbox w))) as [code body | | msg].
  - destruct (code =? 200).
    + eexists. split; [reflexivity |]. simpl. auto.
    + eexists. split; [reflexivity |]. simpl. apply Hrec.
  - eexists. split; [reflexivity |]. simpl. apply Hrec.
  - eexists. split; [reflexivity |]. simpl. apply Hrec.
Qed.

Lemma X7_witness :
  exists w',
    _send_slack_message (H := Ref.lib) Scenario.cfg
      (Cases.device_with (Response 500 "oops") None Scenario.t0)
      "text" "title" "#ff0000" Scenario.fresh = (Ok tt, w')
    /\ (w_tags w' !! "last_error" = Some (PStr "Slack API error: 500")
        /\ w_tags w' !! "last_error_at" = Some (PStr "2026-11-04T09:39:00+00:00"))
    /\ (forall k, k <> "last_error" -> k <> "last_error_at" ->
          w_tags w' !! k = w_tags Scenario.fresh !! k).
Proof.
  exact (X7_delivery_failure_recorded (H := Ref.lib) Scenario.cfg
           (Cases.device_with (Response 500 "oops") None Scenario.t0)
           "text" "title" "#ff0000" Scenario.fresh eq_refl).
Defined.

(** ** Templates that always format *)

Section Templates.
Context `{PyLib}.

Lemma format_default_alert_message tag value limit name :
  format default_alert_message
    [("tag", PStr tag); ("value", PFloat value); ("limit", PStr limit);
     ("device", name)]
  = Ok (py_str (PStr tag) +:+ " is " +:+ py_str (PFloat value)
        +:+ " (threshold: " +:+ py_str (PStr limit) +:+ ") on " +:+ py_str name).
Proof.
  unfold format, default_alert_message. simpl. f_equal.
  rewrite !append_assoc. reflexivity.
Qed.

Lemma format_default_channel_template channel data name :
  format default_channel_template
    [("channel", PStr channel); ("data", PStr data); ("device", name)]
  = Ok ("New message on " +:+ py_str (PStr channel) +:+ " from "
        +:+ py_str name +:+ ": " +:+ py_str (PStr data)).
Proof.
  unfold format, default_channel_template. simpl. f_equal.
  rewrite !append_assoc. reflexivity.
Qed.

End Templates.

(** X8: a template made of literal text, escaped braces and placeholders
    with plain names among the keyword arguments always formats; and when it
    is literal text only, the result is the template itself. *)
Theorem X8_known_template_formats `{PyLib} (kw : list (string * pyval))
    (template : string) :
  known_prefix (map fst kw) template ->
  exists txt, format template kw = Ok txt
    /\ (plain_text template = true -> txt = template).
Proof.
  intros Hknown.
  destruct (format_go_known_prefix kw template Hknown) as (txt & Hgo).
  exists txt. split.
  - unfold format. specialize (Hgo "" "").
    rewrite append_nil_r in Hgo. rewrite Hgo. reflexivity.
  - intros Hlit. pose proof (format_go_plain_text kw template "" "" Hlit) as Hp.
    rewrite Hgo in Hp. change (Ok txt = Ok template) in Hp. congruence.
Qed.

Lemma X8_witness :
  exists txt,
    format (H := Ref.lib) "{{{tag}}} on {device}"
      [("tag", PStr "temp"); ("device", PStr "pump-1")] = Ok txt
    /\ (plain_text "{{{tag}}} on {device}" = true -> txt = "{{{tag}}} on {device}").
Proof.
  apply (X8_known_template_formats (H := Ref.lib)
           [("tag", PStr "temp"); ("device", PStr "pump-1")]).
  apply known_open.
  apply (known_field _ "tag" "}} on {device}"); [reflexivity | simpl; tauto |].
  apply known_close.
  apply (known_text _ " on " "{device}"); [reflexivity |].
  apply (known_field _ "device" ""); [reflexivity | simpl; tauto |].
  apply known_nil.
Defined.

(** ** Channel messages *)

Lemma K_error_not_channel_stat : ~ K_error "channel_alerts_sent".
Proof. intros [Hk | Hk]; discriminate. Qed.

(** The handler on a template that formats. *)
Lemma on_message_create_run `{PyLib} (config : SlackProcessorConfig) (e : env)
    (event : MessageCreateEvent) (w w1 : world) (name : pyval)
    (message : string) :
  channel_alerts_enabled config = true ->
  str_set (slack_webhook_url config) = true ->
  _get_device_name config e w = (Ok name, w1) ->
  format (channel_message_template config)
    [("channel", PStr (channel_name event));
     ("data", PStr match message_data event with
                   | PDict _ => json_dumps (message_data event)
                   | _ => py_str (message_data event)
                   end);
     ("device", name)] = Ok message ->
  exists w2 w' p,
    on_message_create config e event w = (Ok tt, w')
    /\ _increment_stat e "channel_alerts_sent" w2 = (Ok tt, w')
    /\ w_tags w2 !! "channel_alerts_sent" = w_tags w !! "channel_alerts_sent"
    /\ w_outbox w' = w_outbox w ++ [p]
    /\ payload_ok config p
    /\ pc_title p = "Channel Alert: " +:+ channel_name event
    /\ pc_text p = message
    /\ pc_color p = "#36a64f".
Proof.
  intros Hen Hurl Hname Hfmt.
  pose proof (emits_on_message_create config e event w) as (ps & Hps & _ & Hok).
  destruct (_get_device_name_ok config e w)
    as (name' & w1' & Hrun1 & Ht1 & Hl1 & Ho1 & _).
  rewrite Hname in Hrun1. inversion Hrun1; subst name' w1'. clear Hrun1.
  revert Hps. unfold on_message_create. rewrite Hen, Hurl. simpl.
  step_with Hname. cbv zeta. rewrite Hfmt. step.
  destruct (_send_slack_message_ok config e message
              ("Channel Alert: " +:+ channel_name event) "#36a64f" w1 Hurl)
    as (w2 & p & Hrun2 & Hfr2 & Htitle & Htext & Hcolor).
  step_with Hrun2.
  destruct (_increment_stat_ok e "channel_alerts_sent" w2) as (w' & Hrun3).
  rewrite Hrun3. simpl. intros Hps.
  pose proof (emits__increment_stat e (fun _ => False) 0 "channel_alerts_sent" w2)
    as (ps3 & Ho3 & Hlen3 & _).
  rewrite Hrun3 in Ho3. simpl in Ho3.
  destruct ps3 as [| q ps3]; [| simpl in Hlen3; lia].
  rewrite app_nil_r in Ho3.
  destruct Hfr2 as (Ho2 & _ & Ht2 & _).
  assert (Hout : w_outbox w' = w_outbox w ++ [p]) by (now rewrite Ho3, Ho2, Ho1).
  exists w2, w', p.
  split; [reflexivity |]. split; [exact Hrun3 |].
  split; [rewrite (Ht2 _ K_error_not_channel_stat); now rewrite Ht1 |].
  split; [exact Hout |].
  split; [| auto].
  rewrite Hout in Hps. apply app_inv_head in Hps. subst ps.
  apply Hok. now left.
Qed.

(** X9: a channel message whose template formats, with alerts enabled and a
    webhook URL: the handler returns normally after exactly one request, with
    the formatted text and the title of the channel, and the counter
    [channel_alerts_sent], when it holds an int, is one more. *)
Theorem X9_channel_alert_sent `{PyLib} (config : SlackProcessorConfig) (e : env)
    (event : MessageCreateEvent) (w w1 : world) (name : pyval)
    (message : string) (n : Z) :
  channel_alerts_enabled config = true ->
  str_set (slack_webhook_url config) = true ->
  _get_device_name config e w = (Ok name, w1) ->
  format (channel_message_template config)
    [("channel", PStr (channel_name event));
     ("data", PStr match message_data event with
                   | PDict _ => json_dumps (message_data event)
                   | _ => py_str (message_data event)
                   end);
     ("device", name)] = Ok message ->
  default (PInt 0) (w_tags w !! "channel_alerts_sent") = PInt n ->
  exists w' p,
    on_message_create config e event w = (Ok tt, w')
    /\ w_outbox w' = w_outbox w ++ [p]
    /\ pc_title p = "Channel Alert: " +:+ channel_name event
    /\ pc_text p = message
    /\ pc_color p = "#36a64f"
    /\ w_tags w' !! "channel_alerts_sent" = Some (PInt (n + 1)).
Proof.
  intros Hen Hurl Hname Hfmt Hn.
  destruct (on_message_create_run config e event w w1 name message Hen Hurl
              Hname Hfmt)
    as (w2 & w' & p & Hrun & Hstat & Hsame & Hout & _ & Htitle & Htext & Hcolor).
  exists w', p. repeat split; auto.
  destruct (_increment_stat_int e "channel_alerts_sent" w2 n) as (w'' & Hrun' & Hc & _).
  { now rewrite Hsame. }
  rewrite Hstat in Hrun'. inversion Hrun'; subst w''. exact Hc.
Qed.

Lemma X9_witness :
  exists w' p,
    on_message_create (H := Ref.lib) Scenario.cfg
      (Scenario.frozen None Scenario.t0) Scenario.ui_event Scenario.fresh
    = (Ok tt, w')
    /\ w_outbox w' = w_outbox Scenario.fresh ++ [p]
    /\ pc_title p = "Channel Alert: " +:+ channel_name Scenario.ui_event
    /\ pc_text p = "New message on ui_state from pump-1: {" +:+ Ref.newline
                   +:+ "  " +:+ Ref.dquote +:+ "x" +:+ Ref.dquote +:+ ": 1"
                   +:+ Ref.newline +:+ "}"
    /\ pc_color p = "#36a64f"
    /\ w_tags w' !! "channel_alerts_sent" = Some (PInt (0 + 1)).
Proof.
  eapply (X9_channel_alert_sent (H := Ref.lib) Scenario.cfg
            (Scenario.frozen None Scenario.t0) Scenario.ui_event Scenario.fresh);
    reflexivity.
Defined.

(** X10: with every element of the configuration at its default
    (app_config.py) and a webhook URL: a channel message always goes out,
    whatever the event, with the text of the default template, under the
    username [Doover Alerts], without a channel override and with a timeout of
    30 seconds; and a schedule tick does nothing at all, since both checks
    are off by default. *)
Theorem X10_defaults `{PyLib} (url : string) (rules : list ThresholdRule)
    (e : env) (event : MessageCreateEvent) (w : world) :
  url <> "" ->
  (exists w' p name,
     on_message_create (default_config (Some url) rules) e event w = (Ok tt, w')
     /\ w_outbox w' = w_outbox w ++ [p]
     /\ pc_text p
        = "New message on " +:+ py_str (PStr (channel_name event)) +:+ " from "
          +:+ py_str name +:+ ": "
          +:+ py_str (PStr match message_data event with
                           | PDict _ => json_dumps (message_data event)
                           | _ => py_str (message_data event)
                           end)
     /\ pc_url p = url /\ pc_username p = "Doover Alerts"
     /\ pc_channel p = None /\ pc_timeout p = 30)
  /\ on_schedule (default_config (Some url) rules) e w = (Ok tt, w).
Proof.
  intros Hurl.
  assert (Hset : str_set (slack_webhook_url (default_config (Some url) rules)) = true).
  { simpl. now destruct (String.eqb_spec url ""). }
  split; [| unfold on_schedule; rewrite Hset; reflexivity].
  destruct (_get_device_name_ok (default_config (Some url) rules) e w)
    as (name & w1 & Hname & _).
  destruct (on_message_create_run (default_config (Some url) rules) e event w w1
              name _ eq_refl Hset Hname
              (format_default_channel_template _ _ name))
    as (w2 & w' & p & Hrun & _ & _ & Hout & Hok & _ & Htext & _).
  exists w', p, name. split; [exact Hrun |]. split; [exact Hout |].
  split; [exact Htext |].
  destruct Hok as (Hu & _ & _ & Hname' & Hch & Hch' & _ & _ & Hto).
  simpl in Hu, Hname', Hch', Hto. repeat split.
  - congruence.
  - destruct Hname' as [Hn | Hn]; congruence.
  - destruct Hch' as [Hc | Hc]; [exact Hc | congruence].
  - destruct Hto as [Ht | Ht]; congruence.
Qed.

Lemma X10_witness :
  (exists w' p name,
     on_message_create (H := Ref.lib)
       (default_config (Some "https://hooks.slack.test/T0") [])
       (Scenario.frozen None Scenario.t0) Scenario.ui_event Scenario.fresh
     = (Ok tt, w')
     /\ w_outbox w' = w_outbox Scenario.fresh ++ [p]
     /\ pc_text p
        = "New message on " +:+ Ref.str (PStr (channel_name Scenario.ui_event))
          +:+ " from " +:+ Ref.str name +:+ ": "
          +:+ Ref.str (PStr (Ref.dumps "" (message_data Scenario.ui_event)))
     /\ pc_url p = "https://hooks.slack.test/T0"
     /\ pc_username p = "Doover Alerts"
     /\ pc_channel p = None /\ pc_timeout p = 30)
  /\ on_schedule (H := Ref.lib)
       (default_config (Some "https://hooks.slack.test/T0") [])
       (Scenario.frozen None Scenario.t0) Scenario.fresh
     = (Ok tt, Scenario.fresh).
Proof.
  apply (X10_defaults (H := Ref.lib) "https://hooks.slack.test/T0" []
           (Scenario.frozen None Scenario.t0) Scenario.ui_event Scenario.fresh).
  discriminate.
Defined.

(** ** Threshold rules: the lower limit, and values that alert nothing *)

Lemma nothing_touched {A} (m : M A) (w : world) :
  touches (fun _ => False) (fun _ => False) m ->
  w_outbox (m w).2 = w_outbox w /\ w_tags (m w).2 = w_tags w.
Proof.
  intros Hm. pose proof (quiet _ m w Hm) as (Ho & _ & Ht & _).
  split; [now rewrite Ho, app_nil_r |].
  apply map_eq. intros k. apply Ht. tauto.
Qed.

Lemma crossed_None (limit : option pynum) (cmp : pynum -> bool) :
  (forall l, limit = Some l -> cmp l = false) -> crossed limit cmp = None.
Proof.
  intros Hl. unfold crossed. destruct limit as [l |]; [| reflexivity].
  now rewrite (Hl l eq_refl).
Qed.

Section Limits.
Context `{PyLib} (config : SlackProcessorConfig) (e : env).

(** No limit crossed: the rule reads the cooldown tag at most. *)
Lemma threshold_rule_quiet tag_values name now rule :
  (forall tag value,
     tag_name rule = Some tag ->
     py_float (dict_get tag_values tag) = Ok value ->
     crossed (upper_limit rule) (value_gt value) = None
     /\ crossed (lower_limit rule) (value_lt value) = None) ->
  touches (fun _ => False) (fun _ => False)
    (threshold_rule config e tag_values name now rule).
Proof.
  intros Hin. unfold threshold_rule.
  destruct (tag_name rule) as [tag |]; [| apply touches_ret].
  destruct (String.eqb tag ""); [apply touches_ret |].
  specialize (Hin tag).
  assert (Hgo : forall raw, dict_get tag_values tag = raw ->
            touches (fun _ => False) (fun _ => False)
              match py_float raw with
              | Ok value => check_limits config e rule tag value name now
              | Raise TypeError | Raise ValueError => mret tt
              | Raise err => lift (Raise err)
              end).
  { intros raw Hraw. rewrite <- Hraw.
    destruct (py_float (dict_get tag_values tag)) as [value | err] eqn:Hf.
    - destruct (Hin value eq_refl eq_refl) as (Hu & Hl).
      unfold check_limits. cbv zeta. rewrite Hu, Hl.
      apply touches_bind; [apply touches_in_cooldown | intros skip].
      destruct skip; apply touches_ret.
    - destruct err; first [apply touches_ret | apply touches_lift]. }
  specialize (Hgo (dict_get tag_values tag) eq_refl).
  destruct (dict_get tag_values tag); first [apply touches_ret | exact Hgo].
Qed.

End Limits.

(** X11: a rule whose tag has a numeric value, out of its cooldown period,
    whose upper limit is absent or not exceeded, with a lower limit that the
    value is below, and whose template formats: the rule posts exactly one
    alert, titled [Threshold Alert: Low Value] and blue, whose text is the
    template with the limit rendered as [<] followed by the lower limit, and
    it writes the time of the tick to the cooldown tag. *)
Theorem X11_lower_limit_alert `{PyLib} (config : SlackProcessorConfig)
    (e : env) (tag_values : gmap string pyval) (name : pyval) (now : Z)
    (rule : ThresholdRule) (w : world) (tag : string) (raw : pyval)
    (value : pyfloat) (lower : pynum) (message : string) :
  str_set (slack_webhook_url config) = true ->
  tag_name rule = Some tag -> tag <> "" ->
  tag_values !! tag = Some raw -> raw <> PNone ->
  py_float raw = Ok value ->
  cooled_down (default PNone (w_tags w !! ("threshold_cooldown_" +:+ tag)))
    (default 15 (cooldown_minutes rule)) now ->
  (forall upper, upper_limit rule = Some upper -> value_gt value upper = false) ->
  lower_limit rule = Some lower ->
  value_lt value lower = true ->
  format (default default_alert_message (alert_message rule))
    [("tag", PStr tag); ("value", PFloat value);
     ("limit", PStr ("<" +:+ py_str (val_of_num lower))); ("device", name)]
  = Ok message ->
  exists w' p,
    threshold_rule config e tag_values name now rule w = (Ok tt, w')
    /\ w_outbox w' = w_outbox w ++ [p]
    /\ pc_title p = "Threshold Alert: Low Value"
    /\ pc_text p = message
    /\ pc_color p = "#0066ff"
    /\ w_tags w' !! ("threshold_cooldown_" +:+ tag) = Some (PStr (isoformat now)).
Proof.
  intros Hurl Htag Hne Hraw Hnone Hfloat Hcool Hupper Hlower Hlt Hfmt.
  rewrite (threshold_rule_numeric config e tag_values name now rule tag raw
             value w Htag Hne Hraw Hnone Hfloat).
  unfold check_limits. cbv zeta.
  destruct (in_cooldown_cooled _ _ _ w Hcool) as (w1 & Hrun1 & Ht1 & Ho1 & _).
  step_with Hrun1. rewrite (crossed_None _ _ Hupper), Hlower.
  unfold crossed. rewrite Hlt.
  destruct (threshold_alert_run config e
              (default default_alert_message (alert_message rule)) tag value
              name now ("<" +:+ py_str (val_of_num lower))
              "Threshold Alert: Low Value" "#0066ff" message w1 Hurl Hfmt)
    as (w' & p & Hrun & Hout & Htitle & Htext & Hcolor & Hcd).
  exists w', p. split; [exact Hrun |]. split; [now rewrite Hout, Ho1 |].
  auto.
Qed.

Lemma X11_witness :
  exists w' p,
    threshold_rule (H := Ref.lib) Scenario.cfg
      (Scenario.frozen None Scenario.t0) {[ "temp" := PInt 150 ]}
      (PStr "pump-1") Scenario.t0 Cases.rule_low Scenario.fresh = (Ok tt, w')
    /\ w_outbox w' = w_outbox Scenario.fresh ++ [p]
    /\ pc_title p = "Threshold Alert: Low Value"
    /\ pc_text p = "temp is 150.0 (threshold: <200) on pump-1"
    /\ pc_color p = "#0066ff"
    /\ w_tags w' !! ("threshold_cooldown_" +:+ "temp")
       = Some (PStr "2026-11-04T09:39:00+00:00").
Proof.
  apply (X11_lower_limit_alert (H := Ref.lib) Scenario.cfg
           (Scenario.frozen None Scenario.t0) {[ "temp" := PInt 150 ]}
           (PStr "pump-1") Scenario.t0 Cases.rule_low Scenario.fresh "temp"
           (PInt 150) (Fin (150 # 1)) (NInt 200));
    first [reflexivity | discriminate | now left].
Defined.

(** X12: a rule whose tag has a numeric value that exceeds no upper limit
    and lies below no lower limit posts nothing and leaves every tag as it
    was, whatever the cooldown tag holds. *)
Theorem X12_within_limits_is_silent `{PyLib} (config : SlackProcessorConfig)
    (e : env) (tag_values : gmap string pyval) (name : pyval) (now : Z)
    (rule : ThresholdRule) (w : world) (tag : string) (value : pyfloat) :
  tag_name rule = Some tag ->
  py_float (dict_get tag_values tag) = Ok value ->
  (forall upper, upper_limit rule = Some upper -> value_gt value upper = false) ->
  (forall lower, lower_limit rule = Some lower -> value_lt value lower = false) ->
  w_outbox (threshold_rule config e tag_values name now rule w).2 = w_outbox w
  /\ w_tags (threshold_rule config e tag_values name now rule w).2 = w_tags w.
Proof.
  intros Htag Hfloat Hupper Hlower. apply nothing_touched.
  apply threshold_rule_quiet. intros tag' value' Htag' Hfloat'.
  assert (tag' = tag) by congruence. subst tag'.
  assert (value' = value) by congruence. subst value'.
  split; now apply crossed_None.
Qed.

Lemma X12_witness :
  w_outbox (threshold_rule (H := Ref.lib) Scenario.cfg
              (Scenario.frozen None Scenario.t0) {[ "temp" := PInt 150 ]}
              (PStr "pump-1") Scenario.t0 Cases.rule_band Scenario.fresh).2
  = w_outbox Scenario.fresh
  /\ w_tags (threshold_rule (H := Ref.lib) Scenario.cfg
               (Scenario.frozen None Scenario.t0) {[ "temp" := PInt 150 ]}
               (PStr "pump-1") Scenario.t0 Cases.rule_band Scenario.fresh).2
     = w_tags Scenario.fresh.
Proof.
  apply (X12_within_limits_is_silent (H := Ref.lib) Scenario.cfg
           (Scenario.frozen None Scenario.t0) {[ "temp" := PInt 150 ]}
           (PStr "pump-1") Scenario.t0 Cases.rule_band Scenario.fresh "temp"
           (Fin (150 # 1))); first [reflexivity | intros l [= <-]; reflexivity].
Defined.

(** X13: a value that [float] turns into a NaN never alerts: whatever the
    limits of the rule, both comparisons are false, so the rule posts nothing
    and leaves every tag as it was. *)
Theorem X13_nan_never_alerts `{PyLib} (config : SlackProcessorConfig)
    (e : env) (tag_values : gmap string pyval) (name : pyval) (now : Z)
    (rule : ThresholdRule) (w : world) (tag : string) :
  tag_name rule = Some tag ->
  py_float (dict_get tag_values tag) = Ok NaN ->
  w_outbox (threshold_rule config e tag_values name now rule w).2 = w_outbox w
  /\ w_tags (threshold_rule config e tag_values name now rule w).2 = w_tags w.
Proof.
  intros Htag Hfloat. apply nothing_touched.
  apply threshold_rule_quiet. intros tag' value' Htag' Hfloat'.
  assert (tag' = tag) by congruence. subst tag'.
  assert (value' = NaN) by congruence. subst value'.
  split; apply crossed_None; intros l _.
  - unfold value_gt, float_ltb. now destruct (float_of_num l).
  - reflexivity.
Qed.

Lemma X13_witness :
  w_outbox (threshold_rule (H := Ref.lib) Scenario.cfg
              (Scenario.frozen None Scenario.t0) {[ "temp" := PFloat NaN ]}
              (PStr "pump-1") Scenario.t0 Cases.rule_band Scenario.fresh).2
  = w_outbox Scenario.fresh
  /\ w_tags (threshold_rule (H := Ref.lib) Scenario.cfg
               (Scenario.frozen None Scenario.t0) {[ "temp" := PFloat NaN ]}
               (PStr "pump-1") Scenario.t0 Cases.rule_band Scenario.fresh).2
     = w_tags Scenario.fresh.
Proof.
  apply (X13_nan_never_alerts (H := Ref.lib) Scenario.cfg
           (Scenario.frozen None Scenario.t0) {[ "temp" := PFloat NaN ]}
           (PStr "pump-1") Scenario.t0 Cases.rule_band Scenario.fresh "temp");
    reflexivity.
Defined.

(** ** The offline check without a usable last-online timestamp *)

Section OfflineEdges.
Context `{PyLib} (config : SlackProcessorConfig) (e : env).

(** Without a last-online timestamp the check reads no clock and goes
    straight on to [alert_or_remind], whatever the threshold. *)
Lemma offline_check_no_timestamp connection_info w :
  get_agent_connection e (w_api w) = Some connection_info ->
  eq_str (dict_get connection_info "determination") "online" = false ->
  truthy (dict_get connection_info "online_at") = false ->
  exists w1,
    _check_offline_status config e w = alert_or_remind config e None w1
    /\ w_tags w1 = w_tags w /\ w_log w1 = w_log w /\ w_outbox w1 = w_outbox w
    /\ w_clock w1 = w_clock w.
Proof.
  intros Hconn Honline Hnone.
  unfold _check_offline_status. step. cbv beta iota. rewrite Hconn.
  cbv beta iota zeta. rewrite Honline. unfold offline_duration_of.
  rewrite Hnone. step. eexists. split; [reflexivity | easy].
Qed.

(** The text of a reminder that is due. *)
Lemma offline_message_due_text d alert_sent last_reminder name w :
  truthy alert_sent = true ->
  reminder_due config last_reminder (clock e (w_clock w)) ->
  exists w',
    offline_message config e d alert_sent last_reminder name w
    = (Ok (Some ("Device *" +:+ py_str name +:+ "* is still offline (duration: "
                 +:+ match d with
                     | Some us => py_str (PInt (Z.quot us 60000000))
                     | None => "unknown"
                     end +:+ " minutes)")), w')
    /\ w_tags w' = w_tags w /\ w_log w' = w_log w /\ w_outbox w' = w_outbox w
    /\ w_clock w' = S (w_clock w).
Proof.
  intros Hsent (Hpos & Hlast & t & Hparse & Hge).
  unfold offline_message. rewrite Hsent, Hlast. simpl.
  destruct (Z.ltb_spec 0 (offline_reminder_interval_minutes config)); [| lia].
  simpl. rewrite Hparse. unfold mbind, M_bind, lift, datetime_now, dt_sub. simpl.
  unfold minutes_geb.
  destruct (Z.leb_spec (offline_reminder_interval_minutes config * 60000000)
              (clock e (w_clock w) - t)); [| lia].
  eexists. split; [reflexivity | easy].
Qed.

Lemma alert_or_remind_due_text d w :
  str_set (slack_webhook_url config) = true ->
  truthy (default (PBool false) (w_tags w !! "offline_alert_sent")) = true ->
  reminder_due config (default PNone (w_tags w !! "last_offline_reminder"))
    (clock e (w_clock w)) ->
  exists w' p name,
    alert_or_remind config e d w = (Ok tt, w')
    /\ w_outbox w' = w_outbox w ++ [p]
    /\ pc_title p = "Device Offline Alert"
    /\ pc_text p = "Device *" +:+ name +:+ "* is still offline (duration: "
                   +:+ match d with
                       | Some us => py_str (PInt (Z.quot us 60000000))
                       | None => "unknown"
                       end +:+ " minutes)".
Proof.
  intros Hurl Hsent Hdue. unfold alert_or_remind. step. step.
  match goal with
  | |- context [(_get_device_name config e ≫= _) ?W] =>
      destruct (_get_device_name_ok config e W)
        as (name & w1 & Hrun1 & Ht1 & Hl1 & Ho1 & Hc1)
  end.
  step_with Hrun1. simpl in *. rewrite <- Hc1 in Hdue.
  destruct (offline_message_due_text d _ _ name w1 Hsent Hdue)
    as (w2 & Hrun2 & Ht2 & Hl2 & Ho2 & Hc2).
  step_with Hrun2.
  destruct (send_offline_alert_run config e
              ("Device *" +:+ py_str name +:+ "* is still offline (duration: "
               +:+ match d with
                   | Some us => py_str (PInt (Z.quot us 60000000))
                   | None => "unknown"
                   end +:+ " minutes)") w2 Hurl)
    as (w3 & p & k & Hrun3 & Ho3 & Htitle & Htext & _).
  exists w3, p, (py_str name). split; [exact Hrun3 |].
  split; [now rewrite Ho3, Ho2, Ho1 |]. split; [exact Htitle | exact Htext].
Qed.

(** A last-online timestamp that cannot be used: it does not parse, or it
    parses to a naive time, which cannot be subtracted from the aware
    reading of the clock.  The check raises before any tag is read. *)
Lemma offline_check_bad_timestamp connection_info err w :
  get_agent_connection e (w_api w) = Some connection_info ->
  eq_str (dict_get connection_info "determination") "online" = false ->
  truthy (dict_get connection_info "online_at") = true ->
  parse_time (dict_get connection_info "online_at") = Raise err
  \/ ((exists t, parse_time (dict_get connection_info "online_at") = Ok (Naive t))
      /\ err = TypeError) ->
  exists w', _check_offline_status config e w = (Raise err, w')
    /\ w_tags w' = w_tags w /\ w_log w' = w_log w /\ w_outbox w' = w_outbox w.
Proof.
  intros Hconn Honline Htruthy Hbad.
  unfold _check_offline_status. step. cbv beta iota. rewrite Hconn.
  cbv beta iota zeta. rewrite Honline. unfold offline_duration_of.
  rewrite Htruthy.
  destruct Hbad as [Hparse | ((t & Hparse) & ->)]; rewrite Hparse;
    unfold mbind, M_bind, lift, datetime_now, dt_sub; simpl;
    eexists; (split; [reflexivity | easy]).
Qed.

End OfflineEdges.

(** X15: a device that is not online and whose connection has no
    last-online timestamp is not debounced: with no alert sent yet, the check
    posts the "has gone offline" alert at once, whatever the offline
    threshold, and sets [offline_alert_sent]. *)
Theorem X15_never_seen_alerts_at_once `{PyLib} (config : SlackProcessorConfig)
    (e : env) (w : world) (connection_info : gmap string pyval) :
  str_set (slack_webhook_url config) = true ->
  get_agent_connection e (w_api w) = Some connection_info ->
  eq_str (dict_get connection_info "determination") "online" = false ->
  truthy (dict_get connection_info "online_at") = false ->
  truthy (default (PBool false) (w_tags w !! "offline_alert_sent")) = false ->
  exists w' p name,
    _check_offline_status config e w = (Ok tt, w')
    /\ w_outbox w' = w_outbox w ++ [p]
    /\ pc_title p = "Device Offline Alert"
    /\ pc_text p = "Device *" +:+ name +:+ "* has gone offline"
    /\ w_tags w' !! "offline_alert_sent" = Some (PBool true).
Proof.
  intros Hurl Hconn Honline Hnone Hflag.
  destruct (offline_check_no_timestamp config e _ w Hconn Honline Hnone)
    as (w1 & Heq & Ht1 & _ & Ho1 & _).
  rewrite Heq. rewrite <- Ht1 in Hflag.
  destruct (alert_or_remind_first config e None w1 Hurl Hflag)
    as (w' & p & name & k & Hrun & Hout & Htitle & Htext & Hf & _).
  exists w', p, name. split; [exact Hrun |]. split; [now rewrite Hout, Ho1 |].
  auto.
Qed.

Lemma X15_witness :
  exists w' p name,
    _check_offline_status (H := Ref.lib)
      (Scenario.cfg) (Scenario.frozen (Some Cases.never_seen) Scenario.t0)
      Scenario.fresh = (Ok tt, w')
    /\ w_outbox w' = w_outbox Scenario.fresh ++ [p]
    /\ pc_title p = "Device Offline Alert"
    /\ pc_text p = "Device *" +:+ name +:+ "* has gone offline"
    /\ w_tags w' !! "offline_alert_sent" = Some (PBool true).
Proof.
  apply (X15_never_seen_alerts_at_once (H := Ref.lib) Scenario.cfg
           (Scenario.frozen (Some Cases.never_seen) Scenario.t0) Scenario.fresh
           Cases.never_seen); reflexivity.
Defined.

(** X16: the duration in a reminder.  For an offline device past the
    threshold whose alert was sent and whose reminder is due, the reminder
    gives the time between the last-online timestamp and the first reading of
    the clock, in whole minutes, rounded towards zero. *)
Theorem X16_reminder_duration `{PyLib} (config : SlackProcessorConfig)
    (e : env) (w : world) (connection_info : gmap string pyval)
    (last_online : Z) :
  str_set (slack_webhook_url config) = true ->
  get_agent_connection e (w_api w) = Some connection_info ->
  eq_str (dict_get connection_info "determination") "online" = false ->
  truthy (dict_get connection_info "online_at") = true ->
  parse_time (dict_get connection_info "online_at") = Ok (Aware last_online) ->
  offline_threshold_minutes config * 60000000
    <= clock e (w_clock w) - last_online ->
  truthy (default (PBool false) (w_tags w !! "offline_alert_sent")) = true ->
  reminder_due config (default PNone (w_tags w !! "last_offline_reminder"))
    (clock e (S (w_clock w))) ->
  exists w' p name,
    _check_offline_status config e w = (Ok tt, w')
    /\ w_outbox w' = w_outbox w ++ [p]
    /\ pc_text p
       = "Device *" +:+ name +:+ "* is still offline (duration: "
         +:+ py_str (PInt (Z.quot (clock e (w_clock w) - last_online) 60000000))
         +:+ " minutes)".
Proof.
  intros Hurl Hconn Honline Htruthy Hparse Hge Hsent Hdue.
  destruct (offline_check_past_threshold config e _ _ _ Hconn Honline Htruthy
              Hparse Hge) as (w1 & Heq & Ht1 & _ & Ho1 & Hc1).
  rewrite Heq. rewrite <- Ht1, <- Hc1 in *.
  destruct (alert_or_remind_due_text config e
              (Some (clock e (w_clock w) - last_online)) w1 Hurl Hsent Hdue)
    as (w' & p & name & Hrun & Hout & _ & Htext).
  exists w', p, name. split; [exact Hrun |]. split; [now rewrite Hout, Ho1 |].
  exact Htext.
Qed.

Lemma X16_witness :
  exists w' p name,
    _check_offline_status (H := Ref.lib) Scenario.cfg
      (Scenario.frozen (Some Scenario.offline)
         (Scenario.t0 + 60 * Scenario.minute + 59000000))
      Scenario.alerted = (Ok tt, w')
    /\ w_outbox w' = w_outbox Scenario.alerted ++ [p]
    /\ pc_text p
       = "Device *" +:+ name +:+ "* is still offline (duration: "
         +:+ "99" +:+ " minutes)".
Proof.
  apply (X16_reminder_duration (H := Ref.lib) Scenario.cfg
           (Scenario.frozen (Some Scenario.offline)
              (Scenario.t0 + 60 * Scenario.minute + 59000000))
           Scenario.alerted Scenario.offline
           (Scenario.t0 - 39 * Scenario.minute)).
  - reflexivity.
  - reflexivity.
  - reflexivity.
  - reflexivity.
  - vm_compute. reflexivity.
  - vm_compute. discriminate.
  - reflexivity.
  - split; [reflexivity |]. split; [reflexivity |].
    exists (Scenario.t0 - 8 * Scenario.minute).
    split; [vm_compute; reflexivity |]. vm_compute. discriminate.
Defined.

(** X17: a device without a last-online timestamp whose alert was sent:
    when the reminder is due at the first reading of the clock, the reminder
    goes out with the duration [unknown]. *)
Theorem X17_reminder_unknown_duration `{PyLib} (config : SlackProcessorConfig)
    (e : env) (w : world) (connection_info : gmap string pyval) :
  str_set (slack_webhook_url config) = true ->
  get_agent_connection e (w_api w) = Some connection_info ->
  eq_str (dict_get connection_info "determination") "online" = false ->
  truthy (dict_get connection_info "online_at") = false ->
  truthy (default (PBool false) (w_tags w !! "offline_alert_sent")) = true ->
  reminder_due config (default PNone (w_tags w !! "last_offline_reminder"))
    (clock e (w_clock w)) ->
  exists w' p name,
    _check_offline_status config e w = (Ok tt, w')
    /\ w_outbox w' = w_outbox w ++ [p]
    /\ pc_text p
       = "Device *" +:+ name
         +:+ "* is still offline (duration: unknown minutes)".
Proof.
  intros Hurl Hconn Honline Hnone Hsent Hdue.
  destruct (offline_check_no_timestamp config e _ w Hconn Honline Hnone)
    as (w1 & Heq & Ht1 & _ & Ho1 & Hc1).
  rewrite Heq. rewrite <- Ht1, <- Hc1 in *.
  destruct (alert_or_remind_due_text config e None w1 Hurl Hsent Hdue)
    as (w' & p & name & Hrun & Hout & _ & Htext).
  exists w', p, name. split; [exact Hrun |]. split; [now rewrite Hout, Ho1 |].
  exact Htext.
Qed.

Lemma X17_witness :
  exists w' p name,
    _check_offline_status (H := Ref.lib) Scenario.cfg
      (Scenario.frozen (Some Cases.never_seen)
         (Scenario.t0 + 60 * Scenario.minute))
      Scenario.alerted = (Ok tt, w')
    /\ w_outbox w' = w_outbox Scenario.alerted ++ [p]
    /\ pc_text p
       = "Device *" +:+ name
         +:+ "* is still offline (duration: unknown minutes)".
Proof.
  apply (X17_reminder_unknown_duration (H := Ref.lib) Scenario.cfg
           (Scenario.frozen (Some Cases.never_seen)
              (Scenario.t0 + 60 * Scenario.minute))
           Scenario.alerted Cases.never_seen).
  - reflexivity.
  - reflexivity.
  - reflexivity.
  - reflexivity.
  - reflexivity.
  - split; [reflexivity |]. split; [reflexivity |].
    exists (Scenario.t0 - 8 * Scenario.minute).
    split; [vm_compute; reflexivity |]. vm_compute. discriminate.
Defined.

(** X18: a last-online timestamp that is set but cannot be used (it does
    not parse, or it parses to a time without an offset) aborts the tick: with
    offline alerts enabled, [on_schedule] raises the error, nothing is
    posted, no tag changes, and the threshold check does not run. *)
Theorem X18_bad_timestamp_aborts_tick `{PyLib} (config : SlackProcessorConfig)
    (e : env) (w : world) (connection_info : gmap string pyval) (err : exn) :
  str_set (slack_webhook_url config) = true ->
  offline_alerts_enabled config = true ->
  get_agent_connection e (w_api w) = Some connection_info ->
  eq_str (dict_get connection_info "determination") "online" = false ->
  truthy (dict_get connection_info "online_at") = true ->
  parse_time (dict_get connection_info "online_at") = Raise err
  \/ ((exists t, parse_time (dict_get connection_info "online_at") = Ok (Naive t))
      /\ err = TypeError) ->
  exists w',
    on_schedule config e w = (Raise err, w')
    /\ w_outbox w' = w_outbox w /\ w_tags w' = w_tags w /\ w_log w' = w_log w.
Proof.
  intros Hurl Hen Hconn Honline Htruthy Hbad.
  destruct (offline_check_bad_timestamp config e _ err w Hconn Honline Htruthy
              Hbad) as (w' & Hrun & Ht & Hl & Ho).
  exists w'. unfold on_schedule. rewrite Hurl, Hen. simpl.
  rewrite (bind_raise _ _ _ _ _ Hrun). auto.
Qed.

Lemma X18_witness :
  exists w',
    on_schedule (H := Ref.lib) Scenario.cfg
      (Scenario.frozen (Some (Scenario.offline_since "yesterday")) Scenario.t0)
      Scenario.fresh = (Raise ValueError, w')
    /\ w_outbox w' = w_outbox Scenario.fresh
    /\ w_tags w' = w_tags Scenario.fresh /\ w_log w' = w_log Scenario.fresh.
Proof.
  apply (X18_bad_timestamp_aborts_tick (H := Ref.lib) Scenario.cfg
           (Scenario.frozen (Some (Scenario.offline_since "yesterday")) Scenario.t0)
           Scenario.fresh (Scenario.offline_since "yesterday") ValueError);
    first [reflexivity | left; reflexivity].
Defined.

(** ** A reading too large for a float *)

Lemma float_of_int_overflow (z : Z) :
  2 ^ 1024 <= Z.abs z -> float_of_int z = Raise OverflowError.
Proof.
  intros Hbig. unfold float_of_int. cbv zeta.
  remember (2 ^ 1024) as P eqn:HP.
  set (a := Z.abs z) in *.
  assert (HP0 : 0 < P) by (subst P; apply Z.pow_pos_nonneg; lia).
  assert (Hlog : 1024 <= Z.log2 a).
  { apply Z.log2_le_pow2; [lia | now rewrite <- HP]. }
  destruct (Z.leb_spec (Z.log2 a - 52) 0) as [Hle | Hgt]; [lia |].
  set (ex := Z.log2 a - 52) in *.
  assert (Hpos : 0 < a) by lia.
  assert (Hq : 2 ^ 52 <= Z.shiftr a ex).
  { rewrite Z.shiftr_div_pow2 by lia.
    apply Z.div_le_lower_bound; [apply Z.pow_pos_nonneg; lia |].
    rewrite <- Z.pow_add_r by lia.
    replace (ex + 52) with (Z.log2 a) by (unfold ex; lia).
    apply (Z.log2_spec a Hpos). }
  match goal with
  | |- (if P <=? Z.shiftl ?q' ex then _ else _) = _ =>
      assert (Hq' : 2 ^ 52 <= q') by (destruct (_ || _); lia);
      generalize dependent q'
  end.
  intros q' Hq'.
  rewrite Z.shiftl_mul_pow2 by lia.
  assert (Hm : P <= q' * 2 ^ ex).
  { apply Z.le_trans with (2 ^ 52 * 2 ^ ex).
    - rewrite <- Z.pow_add_r by lia. subst P. apply Z.pow_le_mono_r; lia.
    - apply Z.mul_le_mono_nonneg_r; [apply Z.pow_nonneg; lia | exact Hq']. }
  destruct (Z.leb_spec P (q' * 2 ^ ex)); [reflexivity | lia].
Qed.

(** X14: a reading that is an int too large for a float (2^1024 or more in
    absolute value) is not skipped like other values that are not numbers:
    [float] raises [OverflowError], which the loop does not catch, so the
    threshold check ends with this error at the rule, before any post or
    write, and the rules after it are not looked at. *)
Theorem X14_huge_reading_aborts `{PyLib} (config : SlackProcessorConfig)
    (e : env) (w : world) (tag_values : gmap string pyval)
    (rule : ThresholdRule) (rest : list ThresholdRule) (tag : string) (z : Z) :
  tag_thresholds config = rule :: rest ->
  get_aggregate e (w_api w) = Some tag_values ->
  tag_name rule = Some tag -> tag <> "" ->
  tag_values !! tag = Some (PInt z) ->
  2 ^ 1024 <= Z.abs z ->
  exists w',
    _check_tag_thresholds config e w = (Raise OverflowError, w')
    /\ w_outbox w' = w_outbox w /\ w_tags w' = w_tags w /\ w_log w' = w_log w.
Proof.
  intros Hrules Hagg Htag Hne Hraw Hbig.
  unfold _check_tag_thresholds. rewrite Hrules. step. cbv beta iota.
  rewrite Hagg.
  match goal with
  | |- context [(_get_device_name config e ≫= _) ?W] =>
      destruct (_get_device_name_ok config e W)
        as (name & w1 & Hrun1 & Ht1 & Hl1 & Ho1 & Hc1)
  end.
  step_with Hrun1. step. simpl in Ht1, Hl1, Ho1.
  eexists. split.
  - apply for_each_raise. unfold threshold_rule. rewrite Htag.
    destruct (String.eqb_spec tag ""); [contradiction |].
    unfold dict_get. rewrite Hraw.
    change (default PNone (Some (PInt z))) with (PInt z). cbv beta iota.
    change (py_float (PInt z)) with (float_of_int z).
    rewrite (float_of_int_overflow z Hbig). reflexivity.
  - cbn [w_outbox w_tags w_log]. auto.
Qed.

Lemma X14_witness :
  exists w',
    _check_tag_thresholds (H := Ref.lib) Scenario.cfg
      (Cases.device_reading (PInt (2 ^ 1024))) Scenario.fresh
    = (Raise OverflowError, w')
    /\ w_outbox w' = w_outbox Scenario.fresh
    /\ w_tags w' = w_tags Scenario.fresh /\ w_log w' = w_log Scenario.fresh.
Proof.
  apply (X14_huge_reading_aborts (H := Ref.lib) Scenario.cfg
           (Cases.device_reading (PInt (2 ^ 1024))) Scenario.fresh
           {[ "temp" := PInt (2 ^ 1024) ]} Scenario.rule_temp [] "temp"
           (2 ^ 1024) eq_refl eq_refl eq_refl).
  - discriminate.
  - reflexivity.
  - vm_compute. discriminate.
Defined.

(** X19: without rules the threshold check ends at once, without asking for
    the tag values; and when the tag values cannot be fetched it ends
    normally all the same.  Either way nothing is posted and the tag store is
    neither read nor written. *)
Theorem X19_threshold_check_without_input `{PyLib}
    (config : SlackProcessorConfig) (e : env) (w : world) :
  tag_thresholds config = [] \/ get_aggregate e (w_api w) = None ->
  exists w',
    _check_tag_thresholds config e w = (Ok tt, w')
    /\ w_outbox w' = w_outbox w /\ w_tags w' = w_tags w /\ w_log w' = w_log w
    /\ (tag_thresholds config = [] -> w' = w).
Proof.
  intros Hin. unfold _check_tag_thresholds.
  destruct (tag_thresholds config) as [| rule rest] eqn:Hrules.
  - exists w. auto.
  - destruct Hin as [Hin | Hagg]; [discriminate |].
    step. cbv beta iota. rewrite Hagg.
    eexists. split; [reflexivity |]. simpl.
    split; [reflexivity |]. split; [reflexivity |]. split; [reflexivity |].
    discriminate.
Qed.

Lemma X19_witness :
  exists w',
    _check_tag_thresholds (H := Ref.lib) Scenario.cfg
      (Cases.no_aggregate (Some Scenario.offline) Scenario.t0) Scenario.alerted
    = (Ok tt, w')
    /\ w_outbox w' = w_outbox Scenario.alerted
    /\ w_tags w' = w_tags Scenario.alerted /\ w_log w' = w_log Scenario.alerted
    /\ (tag_thresholds Scenario.cfg = [] -> w' = Scenario.alerted).
Proof.
  apply (X19_threshold_check_without_input (H := Ref.lib) Scenario.cfg
           (Cases.no_aggregate (Some Scenario.offline) Scenario.t0)
           Scenario.alerted).
  right. reflexivity.
Defined.

(** ** Timestamps that end in [Z] *)

Lemma replace_Z_app (a b : string) :
  replace_Z (a +:+ b) = replace_Z a +:+ replace_Z b.
Proof.
  induction a as [| c a IH]; [reflexivity |].
  rewrite append_cons. simpl. rewrite IH.
  destruct (Ascii.eqb c "Z"); [| now rewrite append_cons].
  now rewrite append_assoc.
Qed.

(** X20: a timestamp written with the suffix [Z] is read exactly as the same
    timestamp written with the offset [+00:00], by each of the three places
    that parse a time (last online, last reminder, last threshold alert). *)
Theorem X20_Z_suffix_is_utc `{PyLib} (s : string) :
  parse_time (PStr (s +:+ "Z")) = parse_time (PStr (s +:+ "+00:00")).
Proof.
  unfold parse_time. now rewrite !replace_Z_app.
Qed.

(** ** Two ticks in a row *)

Section TwoTicks.
Context `{PyLib} (config : SlackProcessorConfig).

(** The tick of a device that is online: the flag ends at [False] and no
    offline alert goes out. *)
Lemma tick_online e w connection_info :
  str_set (slack_webhook_url config) = true ->
  offline_alerts_enabled config = true ->
  get_agent_connection e (w_api w) = Some connection_info ->
  eq_str (dict_get connection_info "determination") "online" = true ->
  exists posts,
    w_outbox (on_schedule config e w).2 = w_outbox w ++ posts
    /\ (forall p, In p posts -> pc_title p <> "Device Offline Alert")
    /\ w_tags (on_schedule config e w).2 !! "offline_alert_sent"
       = Some (PBool false).
Proof.
  intros Hurl Hen Hconn Honline.
  unfold on_schedule. rewrite Hurl, Hen. simpl.
  assert (Hoff : exists w1, _check_offline_status config e w = (Ok tt, w1)
            /\ w_tags w1 !! "offline_alert_sent" = Some (PBool false)
            /\ w_outbox w1 = w_outbox w).
  { unfold _check_offline_status, mbind, M_bind, api_call.
    rewrite Hconn. cbv beta iota zeta. rewrite Honline.
    eexists. split; [reflexivity |]. simpl. split; [| reflexivity].
    rewrite lookup_insert_ne by discriminate. apply lookup_insert_eq. }
  destruct Hoff as (w1 & Hrun & Hflag & Hout).
  rewrite (bind_ok _ _ _ _ _ Hrun).
  destruct (touches_threshold_part config e w1)
    as (ps & (Ho & _ & Htags & _) & HT).
  exists ps. split; [now rewrite Ho, Hout |]. split.
  - intros p Hin. apply T_threshold_not_offline. auto.
  - now rewrite (Htags _ K_threshold_not_offline_flag).
Qed.

(** The tick of a device that is offline past the threshold, with the flag
    not set: the first alert, then no other offline alert. *)
Lemma tick_first_alert e w connection_info last_online :
  str_set (slack_webhook_url config) = true ->
  offline_alerts_enabled config = true ->
  get_agent_connection e (w_api w) = Some connection_info ->
  eq_str (dict_get connection_info "determination") "online" = false ->
  truthy (dict_get connection_info "online_at") = true ->
  parse_time (dict_get connection_info "online_at") = Ok (Aware last_online) ->
  offline_threshold_minutes config * 60000000 <= clock e (w_clock w) - last_online ->
  truthy (default (PBool false) (w_tags w !! "offline_alert_sent")) = false ->
  exists p name k posts,
    w_outbox (on_schedule config e w).2 = w_outbox w ++ p :: posts
    /\ pc_title p = "Device Offline Alert"
    /\ pc_text p = "Device *" +:+ name +:+ "* has gone offline"
    /\ (forall q, In q posts -> pc_title q <> "Device Offline Alert")
    /\ w_tags (on_schedule config e w).2 !! "offline_alert_sent" = Some (PBool true)
    /\ w_tags (on_schedule config e w).2 !! "last_offline_reminder"
       = Some (PStr (isoformat (clock e k))).
Proof.
  intros Hurl Hen Hconn Honline Htruthy Hparse Hge Hflag.
  destruct (offline_check_past_threshold config e _ _ _ Hconn Honline Htruthy
              Hparse Hge) as (w0 & Heq & Ht0 & Hl0 & Ho0 & Hc0).
  destruct (alert_or_remind_first config e
              (Some (clock e (w_clock w) - last_online)) w0 Hurl)
    as (w1 & p & name & k & Hrun & Hout & Htitle & Htext & Hf & Hr & Hk).
  { now rewrite Ht0. }
  rewrite <- Heq in Hrun.
  destruct (touches_threshold_part config e w1)
    as (ps & (Hout' & _ & Htags & _) & HT).
  exists p, name, k, ps.
  unfold on_schedule. rewrite Hurl, Hen. simpl. step_with Hrun.
  split; [rewrite Hout', Hout, Ho0; now rewrite <- app_assoc |].
  split; [exact Htitle |]. split; [exact Htext |].
  split; [intros q Hin; apply T_threshold_not_offline; auto |].
  split.
  - now rewrite (Htags _ K_threshold_not_offline_flag).
  - now rewrite (Htags _ K_threshold_not_reminder).
Qed.

(** With the alert sent and no reminder due at any reading of the clock, the
    offline check posts nothing, whatever the connection lookup says. *)
Lemma offline_check_not_due e w :
  truthy (default (PBool false) (w_tags w !! "offline_alert_sent")) = true ->
  (forall n, ~ reminder_due config
                 (default PNone (w_tags w !! "last_offline_reminder"))
                 (clock e n)) ->
  w_outbox (_check_offline_status config e w).2 = w_outbox w.
Proof.
  intros Hsent Hnot. unfold _check_offline_status.
  step. cbv beta iota.
  destruct (get_agent_connection e (w_api w)) as [info |]; [| reflexivity].
  cbv beta iota zeta.
  destruct (eq_str (dict_get info "determination") "online"); [reflexivity |].
  match goal with
  | |- context [(offline_duration_of e ?v ≫= _) ?W] =>
      pose proof (quiet (fun _ => False) (offline_duration_of e v) W
                    (touches_offline_duration_of _ _ _ _)) as Hfr1
  end.
  unfold mbind at 1. unfold M_bind.
  destruct (offline_duration_of e _ _) as [[d | err] w1]; simpl in Hfr1 |- *.
  - destruct Hfr1 as (Ho1 & _ & Ht1 & _). simpl in Ho1, Ht1.
    rewrite app_nil_r in Ho1.
    destruct (match d with Some d0 => _ | None => false end); [exact Ho1 |].
    assert (Hfr : frame (fun _ => False) [] w1
              (alert_or_remind config e d w1).2).
    { apply alert_or_remind_not_due.
      - rewrite Ht1 by auto. exact Hsent.
      - rewrite Ht1 by auto. apply Hnot. }
    destruct Hfr as (Ho & _). rewrite Ho, app_nil_r. exact Ho1.
  - destruct Hfr1 as (Ho1 & _). simpl in Ho1. now rewrite app_nil_r in Ho1.
Qed.

Lemma tick_not_due e w :
  truthy (default (PBool false) (w_tags w !! "offline_alert_sent")) = true ->
  (forall n, ~ reminder_due config
                 (default PNone (w_tags w !! "last_offline_reminder"))
                 (clock e n)) ->
  exists posts,
    w_outbox (on_schedule config e w).2 = w_outbox w ++ posts
    /\ forall p, In p posts -> pc_title p <> "Device Offline Alert".
Proof.
  intros Hsent Hnot. unfold on_schedule.
  destruct (negb _).
  { exists []. simpl. split; [now rewrite app_nil_r | intros p []]. }
  assert (Hchk : w_outbox
            ((if offline_alerts_enabled config then _check_offline_status config e
              else mret tt) w).2 = w_outbox w).
  { destruct (offline_alerts_enabled config);
      [now apply offline_check_not_due | reflexivity]. }
  unfold mbind, M_bind.
  destruct ((if offline_alerts_enabled config then _check_offline_status config e
             else mret tt) w) as [[[] | err] w1]; simpl in Hchk |- *.
  - destruct (touches_threshold_part config e w1)
      as (ps & (Hout & _) & HT).
    exists ps. split; [now rewrite Hout, Hchk |].
    intros p Hin. apply T_threshold_not_offline. auto.
  - exists []. split; [now rewrite app_nil_r | intros p []].
Qed.

End TwoTicks.

(** X21: a new outage is alerted again.  After a tick that found the device
    online, a tick that finds it offline past the threshold posts the "has gone
    offline" alert, whatever the store held before the two ticks (so also
    when an earlier outage had been alerted). *)
Theorem X21_new_outage_alerts_again `{PyLib} (config : SlackProcessorConfig)
    (e1 e2 : env) (w : world) (info1 info2 : gmap string pyval)
    (last_online : Z) :
  str_set (slack_webhook_url config) = true ->
  offline_alerts_enabled config = true ->
  get_agent_connection e1 (w_api w) = Some info1 ->
  eq_str (dict_get info1 "determination") "online" = true ->
  (forall n, get_agent_connection e2 n = Some info2) ->
  eq_str (dict_get info2 "determination") "online" = false ->
  truthy (dict_get info2 "online_at") = true ->
  parse_time (dict_get info2 "online_at") = Ok (Aware last_online) ->
  (forall n, offline_threshold_minutes config * 60000000
             <= clock e2 n - last_online) ->
  exists posts1 p name posts2,
    w_outbox (on_schedule config e2 (on_schedule config e1 w).2).2
    = w_outbox w ++ posts1 ++ p :: posts2
    /\ pc_title p = "Device Offline Alert"
    /\ pc_text p = "Device *" +:+ name +:+ "* has gone offline"
    /\ (forall q, In q (posts1 ++ posts2) -> pc_title q <> "Device Offline Alert").
Proof.
  intros Hurl Hen Hconn1 Honline1 Hconn2 Honline2 Htruthy Hparse Hge.
  destruct (tick_online config e1 w info1 Hurl Hen Hconn1 Honline1)
    as (posts1 & Hout1 & HT1 & Hflag).
  destruct (tick_first_alert config e2 (on_schedule config e1 w).2 info2
              last_online Hurl Hen (Hconn2 _) Honline2 Htruthy Hparse (Hge _))
    as (p & name & k & posts2 & Hout2 & Htitle & Htext & HT2 & _).
  { now rewrite Hflag. }
  exists posts1, p, name, posts2.
  split; [rewrite Hout2, Hout1; now rewrite <- app_assoc |].
  split; [exact Htitle |]. split; [exact Htext |].
  intros q Hin. apply in_app_iff in Hin as [Hin | Hin]; auto.
Qed.

Lemma X21_witness :
  exists posts1 p name posts2,
    w_outbox (on_schedule (H := Ref.lib) Scenario.cfg
                (Scenario.frozen (Some Scenario.offline) Scenario.t0)
                (on_schedule (H := Ref.lib) Scenario.cfg
                   (Scenario.frozen (Some Scenario.online) Scenario.t0)
                   Scenario.alerted).2).2
    = w_outbox Scenario.alerted ++ posts1 ++ p :: posts2
    /\ pc_title p = "Device Offline Alert"
    /\ pc_text p = "Device *" +:+ name +:+ "* has gone offline"
    /\ (forall q, In q (posts1 ++ posts2) -> pc_title q <> "Device Offline Alert").
Proof.
  apply (X21_new_outage_alerts_again (H := Ref.lib) Scenario.cfg
           (Scenario.frozen (Some Scenario.online) Scenario.t0)
           (Scenario.frozen (Some Scenario.offline) Scenario.t0)
           Scenario.alerted Scenario.online Scenario.offline
           (Scenario.t0 - 39 * Scenario.minute)).
  - reflexivity.
  - reflexivity.
  - reflexivity.
  - reflexivity.
  - reflexivity.
  - reflexivity.
  - reflexivity.
  - vm_compute. reflexivity.
  - vm_compute. discriminate.
Defined.

(** X22: an outage is alerted once, not at every tick.  After the tick that
    posted the first offline alert, a tick whose readings of the clock all
    lie less than the reminder interval after those of the first posts no
    offline alert, whatever the connection lookup says then.  The times that
    the first tick writes are assumed to be read back as written. *)
Theorem X22_no_repeat_within_interval `{PyLib} (config : SlackProcessorConfig)
    (e1 e2 : env) (w : world) (connection_info : gmap string pyval)
    (last_online : Z) :
  str_set (slack_webhook_url config) = true ->
  offline_alerts_enabled config = true ->
  get_agent_connection e1 (w_api w) = Some connection_info ->
  eq_str (dict_get connection_info "determination") "online" = false ->
  truthy (dict_get connection_info "online_at") = true ->
  parse_time (dict_get connection_info "online_at") = Ok (Aware last_online) ->
  offline_threshold_minutes config * 60000000
    <= clock e1 (w_clock w) - last_online ->
  truthy (default (PBool false) (w_tags w !! "offline_alert_sent")) = false ->
  (forall n, parse_time (PStr (isoformat (clock e1 n))) = Ok (Aware (clock e1 n))) ->
  (forall n m, clock e2 m - clock e1 n
               < offline_reminder_interval_minutes config * 60000000) ->
  exists p posts,
    w_outbox (on_schedule config e2 (on_schedule config e1 w).2).2
    = w_outbox w ++ p :: posts
    /\ pc_title p = "Device Offline Alert"
    /\ forall q, In q posts -> pc_title q <> "Device Offline Alert".
Proof.
  intros Hurl Hen Hconn Honline Htruthy Hparse Hge Hflag Hround Hnear.
  destruct (tick_first_alert config e1 w connection_info last_online Hurl Hen
              Hconn Honline Htruthy Hparse Hge Hflag)
    as (p & name & k & posts1 & Hout1 & Htitle & _ & HT1 & Hsent & Hrem).
  destruct (tick_not_due config e2 (on_schedule config e1 w).2)
    as (posts2 & Hout2 & HT2).
  { now rewrite Hsent. }
  { intros n (_ & _ & t & Hp & Hle). rewrite Hrem in Hp.
    change (parse_time (PStr (isoformat (clock e1 k))) = Ok (Aware t)) in Hp.
    rewrite Hround in Hp. inversion Hp; subst t.
    specialize (Hnear k n). lia. }
  exists p, (posts1 ++ posts2).
  split; [rewrite Hout2, Hout1; now rewrite <- app_assoc |].
  split; [exact Htitle |].
  intros q Hin. apply in_app_iff in Hin as [Hin | Hin]; auto.
Qed.

Lemma X22_witness :
  exists p posts,
    w_outbox (on_schedule (H := Ref.lib) Scenario.cfg
                (Scenario.frozen (Some Scenario.offline)
                   (Scenario.t0 + 5 * Scenario.minute))
                (on_schedule (H := Ref.lib) Scenario.cfg
                   (Scenario.frozen (Some Scenario.offline) Scenario.t0)
                   Scenario.fresh).2).2
    = w_outbox Scenario.fresh ++ p :: posts
    /\ pc_title p = "Device Offline Alert"
    /\ forall q, In q posts -> pc_title q <> "Device Offline Alert".
Proof.
  apply (X22_no_repeat_within_interval (H := Ref.lib) Scenario.cfg
           (Scenario.frozen (Some Scenario.offline) Scenario.t0)
           (Scenario.frozen (Some Scenario.offline)
              (Scenario.t0 + 5 * Scenario.minute))
           Scenario.fresh Scenario.offline
           (Scenario.t0 - 39 * Scenario.minute)).
  - reflexivity.
  - reflexivity.
  - reflexivity.
  - reflexivity.
  - reflexivity.
  - vm_compute. reflexivity.
  - vm_compute. discriminate.
  - reflexivity.
  - intros n. vm_compute. reflexivity.
  - intros n m. vm_compute. reflexivity.
Defined.

(** ** The default alert message *)

(** X23: a rule without a message of its own cannot fail on its template.
    When its tag has a numeric value above the upper limit and is out of its
    cooldown period, the alert goes out with the default text: the tag, [is],
    the value as a float, the limit after [>] in brackets, and the device. *)
Theorem X23_default_alert_text `{PyLib} (config : SlackProcessorConfig)
    (e : env) (tag_values : gmap string pyval) (name : pyval) (now : Z)
    (rule : ThresholdRule) (w : world) (tag : string) (raw : pyval)
    (value : pyfloat) (upper : pynum) :
  str_set (slack_webhook_url config) = true ->
  alert_message rule = None ->
  tag_name rule = Some tag -> tag <> "" ->
  tag_values !! tag = Some raw -> raw <> PNone ->
  py_float raw = Ok value ->
  cooled_down (default PNone (w_tags w !! ("threshold_cooldown_" +:+ tag)))
    (default 15 (cooldown_minutes rule)) now ->
  upper_limit rule = Some upper ->
  value_gt value upper = true ->
  exists w' p,
    threshold_rule config e tag_values name now rule w = (Ok tt, w')
    /\ w_outbox w' = w_outbox w ++ [p]
    /\ pc_title p = "Threshold Alert: High Value"
    /\ pc_text p
       = py_str (PStr tag) +:+ " is " +:+ py_str (PFloat value)
         +:+ " (threshold: "
         +:+ py_str (PStr (">" +:+ py_str (val_of_num upper)))
         +:+ ") on " +:+ py_str name.
Proof.
  intros Hurl Hmsg Htag Hne Hraw Hnone Hfloat Hcool Hupper Hgt.
  rewrite (threshold_rule_numeric config e tag_values name now rule tag raw
             value w Htag Hne Hraw Hnone Hfloat).
  unfold check_limits. cbv zeta.
  destruct (in_cooldown_cooled _ _ _ w Hcool) as (w1 & Hrun1 & Ht1 & Ho1 & _).
  step_with Hrun1. rewrite Hupper, Hmsg. unfold crossed. rewrite Hgt.
  destruct (threshold_alert_run config e default_alert_message tag value
              name now (">" +:+ py_str (val_of_num upper))
              "Threshold Alert: High Value" "#ff9900" _ w1 Hurl
              (format_default_alert_message tag value _ name))
    as (w' & p & Hrun & Hout & Htitle & Htext & _).
  exists w', p. split; [exact Hrun |]. split; [now rewrite Hout, Ho1 |].
  split; [exact Htitle | exact Htext].
Qed.

Lemma X23_witness :
  exists w' p,
    threshold_rule (H := Ref.lib) Scenario.cfg
      (Scenario.frozen None Scenario.t0) Scenario.readings
      (PStr "pump-1") Scenario.t0 Scenario.rule_pressure Scenario.fresh
    = (Ok tt, w')
    /\ w_outbox w' = w_outbox Scenario.fresh ++ [p]
    /\ pc_title p = "Threshold Alert: High Value"
    /\ pc_text p = "pressure is 9.0 (threshold: >5) on pump-1".
Proof.
  apply (X23_default_alert_text (H := Ref.lib) Scenario.cfg
           (Scenario.frozen None Scenario.t0) Scenario.readings
           (PStr "pump-1") Scenario.t0 Scenario.rule_pressure Scenario.fresh
           "pressure" (PInt 9) (Fin (9 # 1)) (NInt 5)).
  - reflexivity.
  - reflexivity.
  - reflexivity.
  - discriminate.
  - reflexivity.
  - discriminate.
  - reflexivity.
  - now left.
  - reflexivity.
  - reflexivity.
Defined.
